(** * Tactical drawing: path store, tick engine and edit session

    A shallow embedding of [tactical_drawing_icd.py]: the [PathManager]
    class (path store, geodesy helpers, position ticking) and the editing
    part of [TacticalDrawingTab] (begin / cancel edit, waypoint handlers,
    path deletion).

    Modelling conventions.
    - Python numbers (int and float alike) are real numbers; rounding,
      overflow and NaN are not modelled.  [math.sqrt] and [math.asin] keep
      their domain checks (they raise [ValueError]).  A theorem that
      needs the numbers to stay within the range of binary64, or the
      coordinates to be latitudes and longitudes, says so in a hypothesis.
    - Python objects that are shared by reference live in a heap: the path
      dicts, the waypoint lists and the [[lat, lon]] point lists each have
      an address, and a dict entry or a field holds the address.
    - A method that can raise returns an [outcome]; a method that mutates
      takes and returns the state, which keeps every mutation made before
      an exception was raised. *)

From Stdlib Require Import Reals Lra Lia ZArith String DecimalString DecimalN.
From stdpp Require Import gmap strings list.

(** ** Python primitives *)

Module Py.

Inductive exn := ValueError | IndexError.

Inductive outcome (A : Type) :=
| Ret (a : A)
| Raise (e : exn).
Arguments Ret {A} a.
Arguments Raise {A} e.

Definition bind {A B} (m : outcome A) (k : A -> outcome B) : outcome B :=
  match m with
  | Ret a => k a
  | Raise e => Raise e
  end.

(** A stateful computation: the final state is returned also when the
    computation raises. *)
Definition M (S A : Type) := S -> outcome A * S.

Definition ret {S A} (a : A) : M S A := fun s => (Ret a, s).

Definition mbind {S A B} (m : M S A) (k : A -> M S B) : M S B :=
  fun s => match m s with
           | (Ret a, s') => k a s'
           | (Raise e, s') => (Raise e, s')
           end.

Definition lift {S A} (o : outcome A) : M S A := fun s => (o, s).

Definition gets {S A} (f : S -> A) : M S A := fun s => (Ret (f s), s).

Definition modify {S} (f : S -> S) : M S unit := fun s => (Ret tt, f s).

(** [try: m  except Exception: print(...)]: the exception is swallowed, the
    mutations made before it remain. *)
Definition try_except {S A} (m : M S A) : M S unit :=
  fun s => let '(_, s') := m s in (Ret tt, s').

(** [for x in xs: acc = body(x, acc)] *)
Fixpoint for_each {S A B} (xs : list A) (body : A -> B -> M S B) (acc : B) : M S B :=
  match xs with
  | [] => ret acc
  | x :: xs' => mbind (body x acc) (fun acc' => for_each xs' body acc')
  end.

(** [l[i]] for a Python list: negative indices count from the end. *)
Definition index {A} (l : list A) (i : Z) : outcome A :=
  let n := Z.of_nat (length l) in
  let j := if (0 <=? i)%Z then i else (n + i)%Z in
  if (j <? 0)%Z then Raise IndexError
  else match l !! Z.to_nat j with
       | Some a => Ret a
       | None => Raise IndexError
       end.

(** [l.insert(i, x)] for [0 <= i <= len(l)]. *)
Definition list_insert_at {A} (i : nat) (x : A) (l : list A) : list A :=
  take i l ++ x :: drop i l.

(** [l.pop(i)] for [0 <= i < len(l)] (the popped element is not used). *)
Definition list_pop {A} (i : nat) (l : list A) : list A := delete i l.

Local Open Scope R_scope.

(** [math.floor] *)
Definition floor (x : R) : Z := Int_part x.

(** [int(x)] on a float: truncation towards zero. *)
Definition int (x : R) : Z :=
  if Rle_dec 0 x then floor x else (- floor (- x))%Z.

(** [x % m] on floats for a positive [m]: the result has the sign of [m]. *)
Definition fmod (x m : R) : R := x - m * IZR (floor (x / m)).

(** [math.radians], [math.degrees] *)
Definition radians (x : R) : R := x * PI / 180.
Definition degrees (x : R) : R := x * 180 / PI.

(** [math.sqrt] and [math.asin] raise [ValueError] outside their domain. *)
Definition math_sqrt (x : R) : outcome R :=
  if Rlt_dec x 0 then Raise ValueError else Ret (sqrt x).

Definition math_asin (x : R) : outcome R :=
  if Rlt_dec x (-1) then Raise ValueError
  else if Rlt_dec 1 x then Raise ValueError
  else Ret (asin x).

(** [math.atan2(y, x)] *)
Definition math_atan2 (y x : R) : R :=
  if Rlt_dec 0 x then atan (y / x)
  else if Rlt_dec x 0 then
         (if Rle_dec 0 y then atan (y / x) + PI else atan (y / x) - PI)
  else if Rlt_dec 0 y then PI / 2
  else if Rlt_dec y 0 then - (PI / 2)
  else 0.

(** Truth value of a number: zero is false. *)
Definition truthy (x : R) : bool := if Req_dec_T x 0 then false else true.

(** Truth value of an optional argument: [None] and zero are false. *)
Definition opt_truthy (x : option R) : bool :=
  match x with
  | Some v => truthy v
  | None => false
  end.

End Py.

Export Py.

Declare Scope py_scope.
Delimit Scope py_scope with py.
Notation "'let*' x ':=' m 'in' k" := (mbind m (fun x => k))
  (at level 10, x pattern, m at level 100, k at level 200) : py_scope.
Notation "m1 ';;;' m2" := (mbind m1 (fun _ => m2))
  (at level 100, m2 at level 200, right associativity) : py_scope.
Notation "'let!' x ':=' m 'in' k" := (bind m (fun x => k))
  (at level 10, x pattern, m at level 100, k at level 200) : py_scope.

Global Instance R_inhabited : Inhabited R := populate 0%R.

(** A waypoint [[lat, lon]], read as a pair of numbers. *)
Definition point : Type := R * R.

(** ** The heap and the program state *)

(** Addresses. *)
Abbreviation loc := nat (only parsing).

(** A path dict.  ['points'] holds the address of the waypoint list. *)
Record Path := {
  path_id : string;         (* 'id' *)
  path_type : string;       (* 'type' *)
  points : loc;
  distance_nm : R;
  speed_kts : R;
  altitude_ft : R;
  current_position : R;
  color : string;
  created : string
}.

Global Instance Path_inhabited : Inhabited Path :=
  populate {| path_id := ""; path_type := ""; points := 0%nat; distance_nm := 0%R;
              speed_kts := 0%R; altitude_ft := 0%R; current_position := 0%R;
              color := ""; created := "" |}.

Definition with_points (v : loc) (p : Path) : Path :=
  {| path_id := path_id p; path_type := path_type p; points := v;
     distance_nm := distance_nm p; speed_kts := speed_kts p;
     altitude_ft := altitude_ft p; current_position := current_position p;
     color := color p; created := created p |}.

Definition with_distance_nm (v : R) (p : Path) : Path :=
  {| path_id := path_id p; path_type := path_type p; points := points p;
     distance_nm := v; speed_kts := speed_kts p;
     altitude_ft := altitude_ft p; current_position := current_position p;
     color := color p; created := created p |}.

Definition with_speed_kts (v : R) (p : Path) : Path :=
  {| path_id := path_id p; path_type := path_type p; points := points p;
     distance_nm := distance_nm p; speed_kts := v;
     altitude_ft := altitude_ft p; current_position := current_position p;
     color := color p; created := created p |}.

Definition with_altitude_ft (v : R) (p : Path) : Path :=
  {| path_id := path_id p; path_type := path_type p; points := points p;
     distance_nm := distance_nm p; speed_kts := speed_kts p;
     altitude_ft := v; current_position := current_position p;
     color := color p; created := created p |}.

Definition with_current_position (v : R) (p : Path) : Path :=
  {| path_id := path_id p; path_type := path_type p; points := points p;
     distance_nm := distance_nm p; speed_kts := speed_kts p;
     altitude_ft := altitude_ft p; current_position := v;
     color := color p; created := created p |}.

(** One entry of the batch returned by [update_positions]. *)
Record PositionUpdate := {
  u_id : string;
  u_type : string;
  u_lat : R;
  u_lon : R;
  u_alt : R;
  u_speed : R;
  u_heading : R
}.

(** Signals sent over the bridge and message boxes shown. *)
Inductive event :=
| StartPathEditing (pid : string)
| StopPathEditing
| RestorePath (original : Path)
| AddPath (pid : string)
| PathDeleted (pid : string)
| MsgWarning (text : string)
| MsgInformation (text : string).

(** The whole program state: heap, [PathManager] fields, the random
    generator, and the editing fields of [TacticalDrawingTab].

    [random] is a tape of raw draws and a cursor.  The list widget
    [path_list] is represented by the id of its first selected item. *)
Record State := {
  (* heap *)
  paths_heap : gmap loc Path;
  lists_heap : gmap loc (list loc);
  points_heap : gmap loc point;
  next_loc : loc;
  (* PathManager *)
  aircraft_paths : list (string * loc);
  track_paths : list (string * loc);
  next_aircraft_id : Z;
  next_track_id : Z;
  (* random *)
  rand_tape : nat -> Z;
  rand_pos : nat;
  (* TacticalDrawingTab *)
  editing_path_id : option string;
  original_path_data : option Path;
  selected : option string;
  btn_edit_path : bool;        (* enabled *)
  btn_delete_path : bool;      (* enabled *)
  btn_save_edit : bool;        (* visible *)
  btn_cancel_edit : bool;      (* visible *)
  drawing_buttons : bool;      (* btn_aircraft, btn_track, btn_drag_aircraft, btn_drag_track enabled *)
  events : list event
}.

Definition set_heap (ph : gmap loc Path) (lh : gmap loc (list loc))
    (pth : gmap loc point) (n : loc) (s : State) : State :=
  {| paths_heap := ph; lists_heap := lh; points_heap := pth; next_loc := n;
     aircraft_paths := aircraft_paths s; track_paths := track_paths s;
     next_aircraft_id := next_aircraft_id s; next_track_id := next_track_id s;
     rand_tape := rand_tape s; rand_pos := rand_pos s;
     editing_path_id := editing_path_id s; original_path_data := original_path_data s;
     selected := selected s; btn_edit_path := btn_edit_path s;
     btn_delete_path := btn_delete_path s; btn_save_edit := btn_save_edit s;
     btn_cancel_edit := btn_cancel_edit s; drawing_buttons := drawing_buttons s;
     events := events s |}.

Definition set_manager (ac tr : list (string * loc)) (na nt : Z) (s : State) : State :=
  {| paths_heap := paths_heap s; lists_heap := lists_heap s;
     points_heap := points_heap s; next_loc := next_loc s;
     aircraft_paths := ac; track_paths := tr;
     next_aircraft_id := na; next_track_id := nt;
     rand_tape := rand_tape s; rand_pos := rand_pos s;
     editing_path_id := editing_path_id s; original_path_data := original_path_data s;
     selected := selected s; btn_edit_path := btn_edit_path s;
     btn_delete_path := btn_delete_path s; btn_save_edit := btn_save_edit s;
     btn_cancel_edit := btn_cancel_edit s; drawing_buttons := drawing_buttons s;
     events := events s |}.

Definition set_rand_pos (n : nat) (s : State) : State :=
  {| paths_heap := paths_heap s; lists_heap := lists_heap s;
     points_heap := points_heap s; next_loc := next_loc s;
     aircraft_paths := aircraft_paths s; track_paths := track_paths s;
     next_aircraft_id := next_aircraft_id s; next_track_id := next_track_id s;
     rand_tape := rand_tape s; rand_pos := n;
     editing_path_id := editing_path_id s; original_path_data := original_path_data s;
     selected := selected s; btn_edit_path := btn_edit_path s;
     btn_delete_path := btn_delete_path s; btn_save_edit := btn_save_edit s;
     btn_cancel_edit := btn_cancel_edit s; drawing_buttons := drawing_buttons s;
     events := events s |}.

Definition set_session (e : option string) (o : option Path) (s : State) : State :=
  {| paths_heap := paths_heap s; lists_heap := lists_heap s;
     points_heap := points_heap s; next_loc := next_loc s;
     aircraft_paths := aircraft_paths s; track_paths := track_paths s;
     next_aircraft_id := next_aircraft_id s; next_track_id := next_track_id s;
     rand_tape := rand_tape s; rand_pos := rand_pos s;
     editing_path_id := e; original_path_data := o;
     selected := selected s; btn_edit_path := btn_edit_path s;
     btn_delete_path := btn_delete_path s; btn_save_edit := btn_save_edit s;
     btn_cancel_edit := btn_cancel_edit s; drawing_buttons := drawing_buttons s;
     events := events s |}.

Definition set_selected (sel : option string) (s : State) : State :=
  {| paths_heap := paths_heap s; lists_heap := lists_heap s;
     points_heap := points_heap s; next_loc := next_loc s;
     aircraft_paths := aircraft_paths s; track_paths := track_paths s;
     next_aircraft_id := next_aircraft_id s; next_track_id := next_track_id s;
     rand_tape := rand_tape s; rand_pos := rand_pos s;
     editing_path_id := editing_path_id s; original_path_data := original_path_data s;
     selected := sel; btn_edit_path := btn_edit_path s;
     btn_delete_path := btn_delete_path s; btn_save_edit := btn_save_edit s;
     btn_cancel_edit := btn_cancel_edit s; drawing_buttons := drawing_buttons s;
     events := events s |}.

(** [btn_edit_path.setEnabled(e)], [btn_delete_path.setEnabled(d)] *)
Definition set_select_buttons (e d : bool) (s : State) : State :=
  {| paths_heap := paths_heap s; lists_heap := lists_heap s;
     points_heap := points_heap s; next_loc := next_loc s;
     aircraft_paths := aircraft_paths s; track_paths := track_paths s;
     next_aircraft_id := next_aircraft_id s; next_track_id := next_track_id s;
     rand_tape := rand_tape s; rand_pos := rand_pos s;
     editing_path_id := editing_path_id s; original_path_data := original_path_data s;
     selected := selected s; btn_edit_path := e;
     btn_delete_path := d; btn_save_edit := btn_save_edit s;
     btn_cancel_edit := btn_cancel_edit s; drawing_buttons := drawing_buttons s;
     events := events s |}.

(** [btn_save_edit.setVisible(v)], [btn_cancel_edit.setVisible(v)] and the
    four drawing buttons' [setEnabled(d)]. *)
Definition set_edit_controls (v d : bool) (s : State) : State :=
  {| paths_heap := paths_heap s; lists_heap := lists_heap s;
     points_heap := points_heap s; next_loc := next_loc s;
     aircraft_paths := aircraft_paths s; track_paths := track_paths s;
     next_aircraft_id := next_aircraft_id s; next_track_id := next_track_id s;
     rand_tape := rand_tape s; rand_pos := rand_pos s;
     editing_path_id := editing_path_id s; original_path_data := original_path_data s;
     selected := selected s; btn_edit_path := btn_edit_path s;
     btn_delete_path := btn_delete_path s; btn_save_edit := v;
     btn_cancel_edit := v; drawing_buttons := d;
     events := events s |}.

Definition emit (e : event) (s : State) : State :=
  {| paths_heap := paths_heap s; lists_heap := lists_heap s;
     points_heap := points_heap s; next_loc := next_loc s;
     aircraft_paths := aircraft_paths s; track_paths := track_paths s;
     next_aircraft_id := next_aircraft_id s; next_track_id := next_track_id s;
     rand_tape := rand_tape s; rand_pos := rand_pos s;
     editing_path_id := editing_path_id s; original_path_data := original_path_data s;
     selected := selected s; btn_edit_path := btn_edit_path s;
     btn_delete_path := btn_delete_path s; btn_save_edit := btn_save_edit s;
     btn_cancel_edit := btn_cancel_edit s; drawing_buttons := drawing_buttons s;
     events := events s ++ [e] |}.

(** ** Heap access *)

Module Heap.
Local Open Scope py_scope.

Definition alloc_point (p : point) : M State loc :=
  fun s =>
    let l := next_loc s in
    (Ret l, set_heap (paths_heap s) (lists_heap s) (<[l := p]> (points_heap s)) (S l) s).

Definition alloc_list (items : list loc) : M State loc :=
  fun s =>
    let l := next_loc s in
    (Ret l, set_heap (paths_heap s) (<[l := items]> (lists_heap s)) (points_heap s) (S l) s).

Definition alloc_path (p : Path) : M State loc :=
  fun s =>
    let l := next_loc s in
    (Ret l, set_heap (<[l := p]> (paths_heap s)) (lists_heap s) (points_heap s) (S l) s).

(** Reading through an address. *)
Definition get_path (l : loc) (s : State) : Path := paths_heap s !!! l.
Definition get_list (l : loc) (s : State) : list loc := lists_heap s !!! l.
Definition get_point (l : loc) (s : State) : point := points_heap s !!! l.

(** The waypoints of the list at [l], as numbers. *)
Definition read_points (l : loc) (s : State) : list point :=
  (fun p => get_point p s) <$> get_list l s.

(** In-place updates. *)
Definition put_path (l : loc) (p : Path) : M State unit :=
  modify (fun s => set_heap (<[l := p]> (paths_heap s)) (lists_heap s) (points_heap s) (next_loc s) s).

Definition put_list (l : loc) (items : list loc) : M State unit :=
  modify (fun s => set_heap (paths_heap s) (<[l := items]> (lists_heap s)) (points_heap s) (next_loc s) s).

(** [path[field] = v] for the path dict at [l]. *)
Definition update_path (l : loc) (f : Path -> Path) : M State unit :=
  fun s => put_path l (f (get_path l s)) s.

(** [acc.append([lat, lon])]: a new point list at the end of [acc]. *)
Definition append_new_point (v : point) (acc : list loc) : M State (list loc) :=
  let* q := alloc_point v in
  ret (acc ++ [q]).

(** [acc.append(p[:])] *)
Definition append_copy (p : loc) (acc : list loc) : M State (list loc) :=
  let* v := gets (get_point p) in
  append_new_point v acc.

(** The list literal [[[lat, lon], ...]] built by a caller. *)
Definition new_points (vals : list point) : M State loc :=
  let* refs := for_each vals append_new_point [] in
  alloc_list refs.

(** [[p[:] for p in points]]: a new list of new point lists. *)
Definition copy_points (l : loc) : M State loc :=
  let* refs := gets (get_list l) in
  let* copies := for_each refs append_copy [] in
  alloc_list copies.

End Heap.

Export Heap.

(** ** Python dicts keyed by path id, in insertion order *)

Module Dict.

Fixpoint get (d : list (string * loc)) (k : string) : option loc :=
  match d with
  | [] => None
  | (k', v) :: d' => if String.eqb k k' then Some v else get d' k
  end.

(** [d[k] = v]: an existing key keeps its place. *)
Fixpoint set (d : list (string * loc)) (k : string) (v : loc) : list (string * loc) :=
  match d with
  | [] => [(k, v)]
  | (k', v') :: d' => if String.eqb k k' then (k, v) :: d' else (k', v') :: set d' k v
  end.

(** [d.pop(k)] for a key that is present. *)
Fixpoint pop (d : list (string * loc)) (k : string) : list (string * loc) :=
  match d with
  | [] => []
  | (k', v') :: d' => if String.eqb k k' then d' else (k', v') :: pop d' k
  end.

(** [d.update(other)] *)
Definition update (d other : list (string * loc)) : list (string * loc) :=
  fold_left (fun acc kv => set acc (fst kv) (snd kv)) other d.

End Dict.

(** ** class PathManager *)

Module PathManager.
Local Open Scope py_scope.

(** *** The geodesy helpers [_calculate_distance], [_interpolate_path] and
    [_calculate_heading], on waypoints already read from the heap *)

Local Open Scope R_scope.

(** Earth radius in nautical miles. *)
Definition R_nm : R := 3440.065.

(** Lines 322-328: the haversine intermediate [a]. *)
Definition haversine_a (p1 p2 : point) : R :=
  let lat1 := radians (fst p1) in
  let lon1 := radians (snd p1) in
  let lat2 := radians (fst p2) in
  let lon2 := radians (snd p2) in
  let dlat := lat2 - lat1 in
  let dlon := lon2 - lon1 in
  (sin (dlat / 2)) ^ 2 + cos lat1 * cos lat2 * (sin (dlon / 2)) ^ 2.

(** Line 329: [c = 2 * math.asin(math.sqrt(a))], no clamping in between. *)
Definition central_angle (a : R) : outcome R :=
  let! r := math_sqrt a in
  let! s := math_asin r in
  Ret (2 * s).

(** Lines 318-331: the length of one leg. *)
Definition leg_distance (p1 p2 : point) : outcome R :=
  let! c := central_angle (haversine_a p1 p2) in
  Ret (R_nm * c).

(** The loop [for i in range(len(points) - 1)] over consecutive pairs. *)
Fixpoint distance_loop (points : list point) (total_distance : R) : outcome R :=
  match points with
  | p1 :: ((p2 :: _) as rest) =>
      let! distance := leg_distance p1 p2 in
      distance_loop rest (total_distance + distance)
  | _ => Ret total_distance
  end.

Definition _calculate_distance (points : list point) : outcome R :=
  if (length points <? 2)%nat then Ret 0
  else distance_loop points 0.

Definition _interpolate_path (points : list point) (position : R) : outcome point :=
  if (length points <? 2)%nat then
    match points with
    | p :: _ => Ret p
    | [] => Ret (0, 0)
    end
  else
    let segment_length := 1 / (INR (length points) - 1) in
    let segment_index := int (position / segment_length) in
    if (Z.of_nat (length points) - 1 <=? segment_index)%Z then
      index points (-1)
    else
      let local_position :=
        (position - IZR segment_index * segment_length) / segment_length in
      let! p1 := index points segment_index in
      let! p2 := index points (segment_index + 1) in
      let lat := fst p1 + (fst p2 - fst p1) * local_position in
      let lon := snd p1 + (snd p2 - snd p1) * local_position in
      Ret (lat, lon).

Definition _calculate_heading (points : list point) (position : R) : outcome R :=
  if (length points <? 2)%nat then Ret 0
  else
    let! current := _interpolate_path points position in
    let next_pos := Rmin (position + 0.01) 0.999 in
    let! next_point := _interpolate_path points next_pos in
    let dlat := fst next_point - fst current in
    let dlon := snd next_point - snd current in
    if Req_dec_T dlat 0 then
      if Req_dec_T dlon 0 then Ret 0
      else Ret (fmod (degrees (math_atan2 dlon dlat)) 360)
    else Ret (fmod (degrees (math_atan2 dlon dlat)) 360).

Local Close Scope R_scope.

(** *** The store *)

(** [f"{n:04d}"]: decimal digits, zero-filled to width 4 (sign included). *)
Fixpoint zeros (n : nat) : string :=
  match n with
  | O => ""
  | S n' => "0" +:+ zeros n'
  end.

Definition zero_pad (width : nat) (digits : string) : string :=
  zeros (width - String.length digits) +:+ digits.

Definition format_04d (n : Z) : string :=
  if (n <? 0)%Z then "-" +:+ zero_pad 3 (NilZero.string_of_uint (N.to_uint (Z.to_N (- n))))
  else zero_pad 4 (NilZero.string_of_uint (N.to_uint (Z.to_N n))).

(** [random.randint(lo, hi)]: the next raw draw, reduced into [lo..hi]. *)
Definition randint (lo hi : Z) : M State R :=
  fun s =>
    let raw := rand_tape s (rand_pos s) in
    (Ret (IZR (lo + raw mod (hi - lo + 1))), set_rand_pos (S (rand_pos s)) s).

(** [x if x else random.randint(lo, hi)] *)
Definition or_randint (x : option R) (lo hi : Z) : M State R :=
  match x with
  | Some v => if truthy v then ret v else randint lo hi
  | None => randint lo hi
  end.

(** [now] is the value of [datetime.now().isoformat()]. *)
Definition add_aircraft_path (points : loc) (distance : R) (speed altitude : option R)
    (now : string) : M State (string * loc) :=
  let* n := gets next_aircraft_id in
  let path_id := "AC-" +:+ format_04d n in
  modify (fun s => set_manager (aircraft_paths s) (track_paths s) (n + 1) (next_track_id s) s) ;;;
  let* speed_kts := or_randint speed 400 550 in
  let* altitude_ft := or_randint altitude 10000 35000 in
  let* l := alloc_path {| path_id := path_id; path_type := "aircraft"; points := points;
                          distance_nm := distance; speed_kts := speed_kts;
                          altitude_ft := altitude_ft; current_position := 0%R;
                          color := "green"; created := now |} in
  modify (fun s => set_manager (Dict.set (aircraft_paths s) path_id l) (track_paths s)
                     (next_aircraft_id s) (next_track_id s) s) ;;;
  ret (path_id, l).

Definition add_track_path (points : loc) (distance : R) (speed altitude : option R)
    (now : string) : M State (string * loc) :=
  let* n := gets next_track_id in
  let path_id := "TRK-" +:+ format_04d n in
  modify (fun s => set_manager (aircraft_paths s) (track_paths s) (next_aircraft_id s) (n + 1) s) ;;;
  let* speed_kts := or_randint speed 350 500 in
  let* altitude_ft := or_randint altitude 5000 20000 in
  let* l := alloc_path {| path_id := path_id; path_type := "track"; points := points;
                          distance_nm := distance; speed_kts := speed_kts;
                          altitude_ft := altitude_ft; current_position := 0%R;
                          color := "red"; created := now |} in
  modify (fun s => set_manager (aircraft_paths s) (Dict.set (track_paths s) path_id l)
                     (next_aircraft_id s) (next_track_id s) s) ;;;
  ret (path_id, l).

(** The returned dict is new; its values are the stored path dicts. *)
Definition get_all_paths : M State (list (string * loc)) :=
  let* ac := gets aircraft_paths in
  let* tr := gets track_paths in
  ret (Dict.update (Dict.update [] ac) tr).

(** [path.copy()]: a new dict with the same field values. *)
Definition get_path_by_id (path_id : string) : M State (option loc) :=
  let* ac := gets aircraft_paths in
  let* tr := gets track_paths in
  match Dict.get ac path_id with
  | Some l =>
      let* p := gets (get_path l) in
      let* c := alloc_path p in
      ret (Some c)
  | None =>
      match Dict.get tr path_id with
      | Some l =>
          let* p := gets (get_path l) in
          let* c := alloc_path p in
          ret (Some c)
      | None => ret None
      end
  end.

(** The lookup that opens the mutating methods: aircraft first, then track. *)
Definition find_path (path_id : string) (s : State) : option loc :=
  match Dict.get (aircraft_paths s) path_id with
  | Some l => Some l
  | None => Dict.get (track_paths s) path_id
  end.

Definition update_path_points (path_id : string) (new_points : loc) : M State bool :=
  let* path := gets (find_path path_id) in
  match path with
  | Some l =>
      update_path l (with_points new_points) ;;;
      let* pts := gets (read_points new_points) in
      let* d := lift (_calculate_distance pts) in
      update_path l (with_distance_nm d) ;;;
      update_path l (fun p => with_current_position (Rmin (current_position p) 0.999) p) ;;;
      ret true
  | None => ret false
  end.

Definition insert_waypoint (path_id : string) (insert_index : Z) (new_point : loc) : M State bool :=
  let* path := gets (find_path path_id) in
  match path with
  | Some l =>
      let* p := gets (get_path l) in
      let* items := gets (get_list (points p)) in
      if ((0 <=? insert_index) && (insert_index <=? Z.of_nat (length items)))%Z then
        put_list (points p) (list_insert_at (Z.to_nat insert_index) new_point items) ;;;
        let* pts := gets (read_points (points p)) in
        let* d := lift (_calculate_distance pts) in
        update_path l (with_distance_nm d) ;;;
        ret true
      else ret false
  | None => ret false
  end.

Definition remove_waypoint (path_id : string) (waypoint_index : Z) : M State bool :=
  let* path := gets (find_path path_id) in
  match path with
  | Some l =>
      let* p := gets (get_path l) in
      let* items := gets (get_list (points p)) in
      if ((2 <? length items)%nat
          && ((0 <=? waypoint_index) && (waypoint_index <? Z.of_nat (length items)))%Z) then
        put_list (points p) (list_pop (Z.to_nat waypoint_index) items) ;;;
        let* pts := gets (read_points (points p)) in
        let* d := lift (_calculate_distance pts) in
        update_path l (with_distance_nm d) ;;;
        ret true
      else ret false
  | None => ret false
  end.

Definition delete_path (path_id : string) : M State (option loc) :=
  let* ac := gets aircraft_paths in
  let* tr := gets track_paths in
  match Dict.get ac path_id with
  | Some l =>
      modify (fun s => set_manager (Dict.pop ac path_id) (track_paths s)
                         (next_aircraft_id s) (next_track_id s) s) ;;;
      ret (Some l)
  | None =>
      match Dict.get tr path_id with
      | Some l =>
          modify (fun s => set_manager (aircraft_paths s) (Dict.pop tr path_id)
                             (next_aircraft_id s) (next_track_id s) s) ;;;
          ret (Some l)
      | None => ret None
      end
  end.

Definition clear_all : M State unit :=
  modify (set_manager [] [] 1 1).

(** The body of one iteration of either loop of [update_positions]. *)
Definition advance_path (type_name : string) (delta_time : R) (item : string * loc)
    (updates : list PositionUpdate) : M State (list PositionUpdate) :=
  let '(path_id, l) := item in
  let* path := gets (get_path l) in
  let speed_nm_per_sec := (speed_kts path / 3600)%R in
  let distance_traveled := (speed_nm_per_sec * delta_time)%R in
  if Rlt_dec 0 (distance_nm path) then
    let position_delta := (distance_traveled / distance_nm path)%R in
    update_path l (fun p => with_current_position (current_position p + position_delta)%R p) ;;;
    let* path := gets (get_path l) in
    (if Rle_dec 1 (current_position path) then
       update_path l (fun p => with_current_position (fmod (current_position p) 1) p)
     else ret tt) ;;;
    let* path := gets (get_path l) in
    let* pts := gets (read_points (points path)) in
    let* current_point := lift (_interpolate_path pts (current_position path)) in
    let* heading := lift (_calculate_heading pts (current_position path)) in
    ret (updates ++ [ {| u_id := path_id; u_type := type_name;
                         u_lat := fst current_point; u_lon := snd current_point;
                         u_alt := altitude_ft path; u_speed := speed_kts path;
                         u_heading := heading |} ])
  else ret updates.

Definition update_positions (delta_time : R) : M State (list PositionUpdate) :=
  let* ac := gets aircraft_paths in
  let* updates := for_each ac (advance_path "aircraft" delta_time) [] in
  let* tr := gets track_paths in
  for_each tr (advance_path "track" delta_time) updates.

End PathManager.

(** ** class TacticalDrawingTab: the editing session and its handlers *)

Module TacticalDrawingTab.
Import PathManager.
Local Open Scope py_scope.

Definition has_selection (s : State) : bool :=
  match selected s with
  | Some _ => true
  | None => false
  end.

(** [self.editing_path_id is None] *)
Definition not_editing (s : State) : bool :=
  match editing_path_id s with
  | Some _ => false
  | None => true
  end.

Definition on_path_selection_changed : M State unit :=
  modify (fun s => set_select_buttons (has_selection s && not_editing s)
                                      (has_selection s && not_editing s) s).

Definition start_path_editing : M State unit :=
  let* sel := gets selected in
  match sel with
  | None => ret tt
  | Some path_id =>
      let* path_data := get_path_by_id path_id in
      match path_data with
      | None => modify (emit (MsgWarning "Path not found."))
      | Some c =>
          let* pd := gets (get_path c) in
          let* copied := copy_points (points pd) in
          modify (set_session (Some path_id) (Some (with_points copied pd))) ;;;
          modify (set_select_buttons false false) ;;;
          modify (set_edit_controls true false) ;;;
          modify (emit (StartPathEditing path_id))
      end
  end.

(** The five assignments of step 1 of [cancel_path_editing]. *)
Definition restore_path (l : loc) (original : Path) : M State unit :=
  let* copied := copy_points (points original) in
  update_path l (with_points copied) ;;;
  update_path l (with_distance_nm (distance_nm original)) ;;;
  update_path l (with_speed_kts (speed_kts original)) ;;;
  update_path l (with_altitude_ft (altitude_ft original)) ;;;
  update_path l (with_current_position (current_position original)).

Definition cancel_path_editing : M State unit :=
  let* editing := gets editing_path_id in
  let* saved := gets original_path_data in
  match editing, saved with
  | Some path_id, Some original =>
      if String.eqb path_id "" then ret tt
      else
        let* path := gets (find_path path_id) in
        match path with
        | Some l => restore_path l original
        | None => ret tt
        end ;;;
        modify (emit StopPathEditing) ;;;
        modify (emit (RestorePath original)) ;;;
        modify (set_session None None) ;;;
        modify (set_edit_controls false true) ;;;
        on_path_selection_changed
  | _, _ => ret tt
  end.

Definition save_path_edits : M State unit :=
  let* editing := gets editing_path_id in
  match editing with
  | Some path_id =>
      if String.eqb path_id "" then ret tt
      else
        let* path_data := get_path_by_id path_id in
        match path_data with
        | None => cancel_path_editing
        | Some _ =>
            modify (emit StopPathEditing) ;;;
            modify (emit (AddPath path_id)) ;;;
            modify (set_session None None) ;;;
            modify (set_edit_controls false true) ;;;
            on_path_selection_changed ;;;
            modify (emit (MsgInformation "Path changes saved successfully!"))
        end
  | None => ret tt
  end.

(** [reply] is the answer to the confirmation box ([true] for Yes).  Taking
    the selected item out of [path_list] and [clearSelection()] leave no
    selection, which fires [on_path_selection_changed]. *)
Definition delete_selected_path (reply : bool) : M State unit :=
  let* sel := gets selected in
  match sel with
  | None => ret tt
  | Some path_id =>
      if negb reply then ret tt
      else
        let* deleted := delete_path path_id in
        match deleted with
        | None => modify (emit (MsgWarning "Failed to delete path from data."))
        | Some _ =>
            modify (emit (PathDeleted path_id)) ;;;
            modify (set_selected None) ;;;
            on_path_selection_changed ;;;
            modify (emit (MsgInformation ("Path " +:+ path_id +:+ " deleted successfully!")))
        end
  end.

Definition on_waypoint_moved (path_id : string) (index : Z) (lat lon : R) : M State unit :=
  try_except
    (let* editing := gets editing_path_id in
     if decide (editing = Some path_id) then
       let* path := gets (find_path path_id) in
       match path with
       | Some l =>
           let* p := gets (get_path l) in
           let* items := gets (get_list (points p)) in
           if ((0 <=? index) && (index <? Z.of_nat (length items)))%Z then
             let* q := alloc_point (lat, lon) in
             put_list (points p) (<[Z.to_nat index := q]> items) ;;;
             let* pts := gets (read_points (points p)) in
             let* d := lift (_calculate_distance pts) in
             update_path l (with_distance_nm d)
           else ret tt
       | None => ret tt
       end
     else ret tt).

Definition on_waypoint_inserted (path_id : string) (insert_index : Z) (lat lon : R)
    : M State unit :=
  try_except
    (let* editing := gets editing_path_id in
     if decide (editing = Some path_id) then
       let* q := alloc_point (lat, lon) in
       let* _ := insert_waypoint path_id insert_index q in
       ret tt
     else ret tt).

Definition on_waypoint_deleted (path_id : string) (index : Z) : M State unit :=
  try_except
    (let* editing := gets editing_path_id in
     if decide (editing = Some path_id) then
       let* success := remove_waypoint path_id index in
       if success then ret tt
       else modify (emit (MsgWarning "Cannot delete waypoint. Minimum 2 waypoints required."))
     else ret tt).

Definition on_path_edit_completed (path_id : string) (new_points : list point) : M State unit :=
  try_except
    (let* l := Heap.new_points new_points in
     let* _ := update_path_points path_id l in
     ret tt).

Definition calculate_path_distance (points : list point) : outcome R :=
  if (length points <? 2)%nat then Ret 0%R
  else distance_loop points 0%R.

(** *** Manual path entry *)

(** Lines 1049-1055: [num_points = 10] points on the straight line from the
    start to the end. *)
Definition manual_point (start_lat start_lon end_lat end_lon : R) (i : nat) : point :=
  let t := (INR i / (10 - 1))%R in
  ((start_lat + (end_lat - start_lat) * t)%R, (start_lon + (end_lon - start_lon) * t)%R).

Definition manual_points (start_lat start_lon end_lat end_lon : R) : list point :=
  manual_point start_lat start_lon end_lat end_lon <$> seq 0 10.

(** The arguments are the values held by [input_type], [input_speed],
    [input_altitude] and the four coordinate boxes.  The item added to
    [path_list] and the statistics label are display only. *)
Definition create_manual_path (input_type : string) (speed altitude : Z)
    (start_lat start_lon end_lat end_lon : R) (now : string) : M State unit :=
  let path_type := if String.eqb input_type "Aircraft" then "aircraft" else "track" in
  let* points := new_points (manual_points start_lat start_lon end_lat end_lon) in
  let* pts := gets (read_points points) in
  let* distance := lift (calculate_path_distance pts) in
  let* (path_id, path_data) :=
    (if String.eqb path_type "aircraft"
     then add_aircraft_path points distance (Some (IZR speed)) (Some (IZR altitude)) now
     else add_track_path points distance (Some (IZR speed)) (Some (IZR altitude)) now) in
  modify (emit (AddPath path_id)).

(** *** The widgets that trigger the handlers

    A disabled button and a hidden button send no [clicked] signal; a
    selection change in [path_list] calls [on_path_selection_changed]. *)

Definition click_edit_path : M State unit :=
  fun s => if btn_edit_path s then start_path_editing s else (Ret tt, s).

Definition click_delete_path (reply : bool) : M State unit :=
  fun s => if btn_delete_path s then delete_selected_path reply s else (Ret tt, s).

Definition click_save_edit : M State unit :=
  fun s => if btn_save_edit s then save_path_edits s else (Ret tt, s).

Definition click_cancel_edit : M State unit :=
  fun s => if btn_cancel_edit s then cancel_path_editing s else (Ret tt, s).

Definition select_item (sel : option string) : M State unit :=
  modify (set_selected sel) ;;; on_path_selection_changed.

End TacticalDrawingTab.

(** The state right after [PathManager.__init__] and [TacticalDrawingTab.__init__]. *)
Definition initial_state (tape : nat -> Z) : State :=
  {| paths_heap := ∅; lists_heap := ∅; points_heap := ∅; next_loc := 0%nat;
     aircraft_paths := []; track_paths := [];
     next_aircraft_id := 1; next_track_id := 1;
     rand_tape := tape; rand_pos := 0%nat;
     editing_path_id := None; original_path_data := None;
     selected := None; btn_edit_path := false; btn_delete_path := false;
     btn_save_edit := false; btn_cancel_edit := false; drawing_buttons := true;
     events := [] |}.

(** ** Editing commands and widget events *)

Import PathManager TacticalDrawingTab.
Local Open Scope py_scope.

(** The final state of a computation. *)
Definition exec {A} (m : M State A) (s : State) : State := snd (m s).

(** The three waypoint edits that the map sends during an edit session. *)
Inductive edit :=
| Move (pid : string) (index : Z) (lat lon : R)
| Insert (pid : string) (insert_index : Z) (lat lon : R)
| Delete (pid : string) (index : Z).

Definition apply_edit (e : edit) : M State unit :=
  match e with
  | Move pid i lat lon => on_waypoint_moved pid i lat lon
  | Insert pid i lat lon => on_waypoint_inserted pid i lat lon
  | Delete pid i => on_waypoint_deleted pid i
  end.

Definition apply_edits (es : list edit) (s : State) : State :=
  foldl (fun st e => exec (apply_edit e) st) s es.

(** What the operator can do while a session is open, short of ending it. *)
Inductive ui_event :=
| Edit (e : edit)
| Select (sel : option string)
| ClickEdit
| ClickDelete (reply : bool).

Definition apply_ui_event (ev : ui_event) : M State unit :=
  match ev with
  | Edit e => apply_edit e
  | Select sel => select_item sel
  | ClickEdit => click_edit_path
  | ClickDelete reply => click_delete_path reply
  end.

Definition apply_ui_events (evs : list ui_event) (s : State) : State :=
  foldl (fun st ev => exec (apply_ui_event ev) st) s evs.


(** ** The specification's wording, for comparison with the code *)

(** Clamping the haversine intermediate to [[0, 1]]. *)
Definition clamp01 (a : R) : R := Rmax 0 (Rmin 1 a).

Definition great_circle (p1 p2 : point) : R :=
  (R_nm * (2 * asin (sqrt (clamp01 (haversine_a p1 p2)))))%R.

(** The sum of the pairwise great-circle distances. *)
Fixpoint distance_spec (pts : list point) : R :=
  match pts with
  | p1 :: ((p2 :: _) as rest) => (great_circle p1 p2 + distance_spec rest)%R
  | _ => 0%R
  end.

Global Instance Rlt_decision (x y : R) : Decision (x < y)%R := Rlt_dec x y.

(** The effect of one tick on one path: progress advances by
    [(speed / 3600 * dt) / distance] and wraps modulo 1; a path whose
    distance is not positive stays where it is. *)
Definition advanced (dt : R) (p : Path) : Path :=
  if Rlt_dec 0 (distance_nm p) then
    with_current_position
      (fmod (current_position p + (speed_kts p / 3600 * dt) / distance_nm p) 1) p
  else p.

(** ** Domains *)


(** A latitude and a longitude, as the coordinate boxes of the manual input
    accept them (lines 517-541). *)
Definition coordinates_ok (p : point) : Prop :=
  (-90 <= fst p <= 90)%R /\ (-180 <= snd p <= 180)%R.

(** Binary64 holds no number above about 1.8e308: a larger product or
    quotient becomes [inf], and the progress computed from it [nan].  A
    tick is in range for a path when the distance it travels and the
    progress it adds stay well below that. *)
Definition tick_in_range (dt : R) (p : Path) : Prop :=
  (speed_kts p / 3600 * dt <= 1e300)%R
  /\ (speed_kts p / 3600 * dt / distance_nm p <= 1e300)%R.

(** The longest elapsed time considered for the timer: one day. *)
Definition max_elapsed : R := 86400.

(** ** State invariants *)

(** Every path that moves has a non-negative speed and a progress in [[0, 1)]. *)
Definition advancing_ok (p : Path) : Prop :=
  (0 < distance_nm p -> 0 <= speed_kts p /\ 0 <= current_position p < 1)%R.

(** The entries of both dicts, in the order [update_positions] visits them. *)
Definition entries (s : State) : list (string * loc) := aircraft_paths s ++ track_paths s.

(** Ids are unique, no two entries hold the same path dict, and every
    moving path is [advancing_ok]. *)
Definition store_ok (s : State) : Prop :=
  NoDup (entries s).*1 /\ NoDup (entries s).*2
  /\ forall id l, (id, l) ∈ entries s -> advancing_ok (get_path l s).

(** An elapsed time that is not negative and is in range for every moving
    path of the store. *)
Definition tick_ok (dt : R) (s : State) : Prop :=
  (0 <= dt)%R
  /\ forall id l, (id, l) ∈ entries s ->
       (0 < distance_nm (get_path l s))%R -> tick_in_range dt (get_path l s).


(** The entries whose path moves. *)
Definition movers (s : State) (es : list (string * loc)) : list (string * loc) :=
  filter (fun e => (0 < distance_nm (get_path e.2 s))%R) es.

(** ** Concrete scenarios *)

Definition tape0 : nat -> Z := fun _ => 0%Z.

(** A path created from an empty waypoint list on a fresh store. *)
Definition create_with_no_waypoints : M State (string * loc) :=
  let* l := new_points [] in
  add_aircraft_path l 0%R (Some 450%R) (Some 15000%R) "2024-01-01T00:00:00".

(** Scenario A: two waypoints, the distance computed from them, 450 kt, 15000 ft. *)
Definition scenario_A : M State (string * loc) :=
  let* l := new_points [(20, 78); (21, 79)]%R in
  let* pts := gets (read_points l) in
  let* distance := lift (calculate_path_distance pts) in
  add_aircraft_path l distance (Some 450%R) (Some 15000%R) "2024-01-01T00:00:00".

Definition scenario_A_state : State := exec scenario_A (initial_state tape0).

(** A 100 nm path flown at 36 kt, forwards and backwards. *)
Definition slow_path (speed : R) : M State (string * loc) :=
  let* l := new_points [(20, 78); (21, 79)]%R in
  add_aircraft_path l 100%R (Some speed) (Some 15000%R) "2024-01-01T00:00:00".

Definition forward_state : State := exec (slow_path 36%R) (initial_state tape0).

(** ** Invariants of an edit session *)

(** The path dict at [lp], its waypoint list and the points of that list
    have all been allocated. *)
Definition path_allocated (s : State) (lp : loc) : Prop :=
  lp < next_loc s
  /\ points (get_path lp s) < next_loc s
  /\ Forall (fun q => q < next_loc s) (get_list (points (get_path lp s)) s).

(** What a waypoint edit of the path dict at [lp], whose waypoint list is at
    [L0], may change: it allocates, rewrites the list at [L0] and the
    ['distance_nm'] of the dict at [lp], and nothing else. *)
Record edit_frame (lp L0 : loc) (s s' : State) : Prop := {
  fr_next : next_loc s <= next_loc s';
  fr_points : forall l, l < next_loc s -> points_heap s' !! l = points_heap s !! l;
  fr_lists : forall l, l <> L0 -> lists_heap s' !! l = lists_heap s !! l;
  fr_paths : forall l, l <> lp -> paths_heap s' !! l = paths_heap s !! l;
  fr_live : exists d, get_path lp s' = with_distance_nm d (get_path lp s);
  fr_aircraft : aircraft_paths s' = aircraft_paths s;
  fr_track : track_paths s' = track_paths s;
  fr_editing : editing_path_id s' = editing_path_id s;
  fr_original : original_path_data s' = original_path_data s;
  fr_selected : selected s' = selected s;
  fr_btn_edit : btn_edit_path s' = btn_edit_path s;
  fr_btn_delete : btn_delete_path s' = btn_delete_path s
}.

(** An open session on the path [pid], stored at [lp], whose dict was [p0]
    and whose waypoints were [vals0] when the session began: the snapshot
    [snap] still holds those values in a list of its own. *)
Record session_inv (pid : string) (lp : loc) (p0 : Path) (vals0 : list point)
    (snap : Path) (s : State) : Prop := {
  si_editing : editing_path_id s = Some pid;
  si_original : original_path_data s = Some snap;
  si_find : find_path pid s = Some lp;
  si_live : exists d, get_path lp s = with_distance_nm d p0;
  si_snap : snap = with_points (points snap) p0;
  si_apart : points snap <> points p0;
  si_alloc : points snap < next_loc s;
  si_items : Forall (fun q => q < next_loc s) (get_list (points snap) s);
  si_values : read_points (points snap) s = vals0
}.

(** Scenario B and the states the edit-session examples start from. *)
Definition three_waypoints : M State (string * loc) :=
  let* l := new_points [(20, 78); (21, 79); (22, 80)]%R in
  add_aircraft_path l 165%R (Some 450%R) (Some 15000%R) "2024-01-01T00:00:00".

Definition selected_state : State :=
  exec (select_item (Some "AC-0001")) (exec three_waypoints (initial_state tape0)).

Definition sample_edits : list edit :=
  [Insert "AC-0001" 1 22 79.5; Move "AC-0001" 0 19 77; Delete "AC-0001" 2;
   Delete "TRK-0001" 0]%R.

(** Two stored paths, the first one selected. *)
Definition two_paths : M State unit :=
  let* l1 := new_points [(20, 78); (21, 79)]%R in
  let* _ := add_aircraft_path l1 100%R (Some 450%R) (Some 15000%R) "2024-01-01T00:00:00" in
  let* l2 := new_points [(10, 70); (11, 71)]%R in
  let* _ := add_aircraft_path l2 90%R (Some 500%R) (Some 20000%R) "2024-01-01T00:00:01" in
  select_item (Some "AC-0001").

Definition two_paths_state : State := exec two_paths (initial_state tape0).

(** A session is open and nothing but the buttons guards it. *)
Record session_locked (pid : string) (lp : loc) (snap : Path) (s : State) : Prop := {
  sl_editing : editing_path_id s = Some pid;
  sl_original : original_path_data s = Some snap;
  sl_find : find_path pid s = Some lp;
  sl_btn_edit : btn_edit_path s = false;
  sl_btn_delete : btn_delete_path s = false
}.

(** The haversine intermediate of scenario A's single leg. *)
Definition a_demo : R := haversine_a (20, 78)%R (21, 79)%R.

(** ** Path identifiers *)

(** Reading back the number of an identifier: the decimal digits, leading
    zeros included. *)
Definition parse_number (digits : string) : option N :=
  N.of_uint <$> NilEmpty.uint_of_string digits.

(** Every stored identifier was issued by the counter of its dict, which has
    moved on since. *)
Definition ids_issued (s : State) : Prop :=
  (1 <= next_aircraft_id s)%Z /\ (1 <= next_track_id s)%Z
  /\ (forall id l, (id, l) ∈ aircraft_paths s ->
        exists k, (1 <= k < next_aircraft_id s)%Z /\ id = "AC-" +:+ format_04d k)
  /\ (forall id l, (id, l) ∈ track_paths s ->
        exists k, (1 <= k < next_track_id s)%Z /\ id = "TRK-" +:+ format_04d k).

(** ** Batch entries *)

(** The batch entry that reports the stored path [e] of the dict [ty], read
    in the state [s] that the tick leaves. *)
Definition reports (ty : string) (s : State) (e : string * loc) (u : PositionUpdate) : Prop :=
  let p := get_path e.2 s in
  let pts := read_points (points p) s in
  u_id u = e.1 /\ u_type u = ty
  /\ u_alt u = altitude_ft p /\ u_speed u = speed_kts p
  /\ _interpolate_path pts (current_position p) = Ret (u_lat u, u_lon u)
  /\ _calculate_heading pts (current_position p) = Ret (u_heading u).

(** ** Everything the tab is asked to do *)

(** The requests of the widgets, the map and the timer. *)
Inductive ui_action :=
| Ui (ev : ui_event)
| ClickSave
| ClickCancel
| EditCompleted (pid : string) (new_points : list point)
| Tick (dt : R)
| CreateManual (input_type : string) (speed altitude : Z)
    (start_lat start_lon end_lat end_lon : R) (now : string)
| ClearStore.

Definition run_action (a : ui_action) : M State unit :=
  match a with
  | Ui ev => apply_ui_event ev
  | ClickSave => click_save_edit
  | ClickCancel => click_cancel_edit
  | EditCompleted pid new_points => on_path_edit_completed pid new_points
  | Tick dt => let* _ := update_positions dt in ret tt
  | CreateManual ty speed altitude lat1 lon1 lat2 lon2 now =>
      create_manual_path ty speed altitude lat1 lon1 lat2 lon2 now
  | ClearStore => clear_all
  end.

Definition run_actions (acts : list ui_action) (s : State) : State :=
  foldl (fun st a => exec (run_action a) st) s acts.

(** The session fields and the widgets that depend on them. *)
Record same_controls (s s' : State) : Prop := {
  sc_editing : editing_path_id s' = editing_path_id s;
  sc_original : original_path_data s' = original_path_data s;
  sc_selected : selected s' = selected s;
  sc_btn_edit : btn_edit_path s' = btn_edit_path s;
  sc_btn_delete : btn_delete_path s' = btn_delete_path s;
  sc_btn_save : btn_save_edit s' = btn_save_edit s;
  sc_btn_cancel : btn_cancel_edit s' = btn_cancel_edit s;
  sc_drawing : drawing_buttons s' = drawing_buttons s
}.

(** How the widgets stand to the session: while one is open, edit and
    delete are disabled, save and cancel are shown and the drawing buttons
    are disabled; while none is open, save and cancel are hidden, the
    drawing buttons are enabled, and edit and delete are enabled only with a
    selection. *)
Definition controls_follow_session (s : State) : Prop :=
  match editing_path_id s with
  | Some _ =>
      btn_edit_path s = false /\ btn_delete_path s = false
      /\ btn_save_edit s = true /\ btn_cancel_edit s = true
      /\ drawing_buttons s = false /\ is_Some (original_path_data s)
  | None =>
      btn_save_edit s = false /\ btn_cancel_edit s = false
      /\ drawing_buttons s = true /\ original_path_data s = None
      /\ (btn_edit_path s = true -> is_Some (selected s))
      /\ (btn_delete_path s = true -> is_Some (selected s))
  end.

(** ** What every reachable state satisfies *)

(** What the widgets and the timer send: a manual path carries a speed,
    an altitude and coordinates from the ranges of its input boxes (lines
    501-541), and the timer an elapsed time between 0 and [max_elapsed]. *)
Definition valid_action (a : ui_action) : Prop :=
  match a with
  | Tick dt => (0 <= dt <= max_elapsed)%R
  | CreateManual _ speed altitude start_lat start_lon end_lat end_lon _ =>
      (100 <= speed <= 1500)%Z /\ (1000 <= altitude <= 50000)%Z
      /\ coordinates_ok (start_lat, start_lon) /\ coordinates_ok (end_lat, end_lon)
  | _ => True
  end.

(** Non-negative speed and progress in [[0, 1)]. *)
Definition kinematics_ok (p : Path) : Prop :=
  (0 <= speed_kts p)%R /\ (0 <= current_position p < 1)%R.

(** The store as the handlers keep it: identifiers issued by the counters
    and distinct, every entry with a path dict of its own, allocated, with
    sound kinematics. *)
Definition store_inv (s : State) : Prop :=
  ids_issued s
  /\ NoDup (entries s).*1 /\ NoDup (entries s).*2
  /\ forall id l, (id, l) ∈ entries s -> l < next_loc s /\ kinematics_ok (get_path l s).

(** The snapshot of an open session has sound kinematics too. *)
Definition snapshot_inv (s : State) : Prop :=
  forall snap, original_path_data s = Some snap -> kinematics_ok snap.

(** A step that adds no entry to the store and leaves its counters alone,
    only allocates, and keeps the speed and the progress of every
    allocated path dict. *)
Record quiet (s s' : State) : Prop := {
  q_aircraft : aircraft_paths s' `sublist_of` aircraft_paths s;
  q_track : track_paths s' `sublist_of` track_paths s;
  q_next_aircraft : next_aircraft_id s' = next_aircraft_id s;
  q_next_track : next_track_id s' = next_track_id s;
  q_next : next_loc s <= next_loc s';
  q_speed : forall l, l < next_loc s -> speed_kts (get_path l s') = speed_kts (get_path l s);
  q_position : forall l, l < next_loc s ->
                 current_position (get_path l s') = current_position (get_path l s)
}.

(** A manual path, selected, opened for editing, flown for a second and
    restored. *)
Definition sample_actions : list ui_action :=
  [ CreateManual "Aircraft" 450 10000 20 78 21 79 "2024-01-01T00:00:00";
    Ui (Select (Some "AC-0001")); Ui ClickEdit; Tick 1; ClickCancel ].

(** ** Proof automation *)

(** Replace every [INR n] of a closed [n] in [H] by the integer literal. *)
Ltac eval_nat_consts H :=
  rewrite ?INR_IZR_INZ in H;
  repeat match type of H with
         | context [Z.of_nat ?n] =>
             let v := eval vm_compute in (Z.of_nat n) in
             change (Z.of_nat n) with v in H
         end.

(** Case analysis on every test of the goal, innermost first. *)
Ltac split_cases :=
  repeat (cbv beta;
          match goal with
          | |- context [match ?x with _ => _ end] =>
              lazymatch x with
              | context [match _ with _ => _ end] => fail
              | _ => destruct x
              end
          end).

(** Splitting a lookup after an insertion on whether the key is the one
    inserted. *)
Ltac split_inserts :=
  repeat match goal with
         | |- context [(<[?k := _]> _) !!! ?l] =>
             destruct (decide (l = k));
             [subst; rewrite (lookup_total_insert_eq (M := gmap nat))
             |rewrite (lookup_total_insert_ne (M := gmap nat)) by congruence]
         end.

Ltac solve_quiet :=
  constructor; cbn; try reflexivity; try lia;
  intros ? ?; unfold get_path; cbn; split_inserts; reflexivity.

(** * Proofs *)

(** ** Basic facts *)

Lemma set_heap_set_heap a b c d a' b' c' d' s :
  set_heap a b c d (set_heap a' b' c' d' s) = set_heap a b c d s.
Proof. reflexivity. Qed.

Lemma set_heap_same s :
  set_heap (paths_heap s) (lists_heap s) (points_heap s) (next_loc s) s = s.
Proof. destruct s; reflexivity. Qed.

Lemma truthy_0 : truthy 0 = false.
Proof. unfold truthy. destruct (Req_dec_T 0 0); congruence. Qed.

Lemma truthy_nonzero x : x <> 0%R -> truthy x = true.
Proof. unfold truthy. destruct (Req_dec_T x 0); congruence. Qed.

Lemma get_path_lookup l s p : paths_heap s !! l = Some p -> get_path l s = p.
Proof. intros H. unfold get_path. now apply lookup_total_correct. Qed.

Lemma get_path_insert_eq l p (ph : gmap loc Path) lh pth n s :
  get_path l (set_heap (<[l := p]> ph) lh pth n s) = p.
Proof. unfold get_path. cbn. apply (lookup_total_insert_eq (M := gmap loc)). Qed.

Lemma get_path_insert_ne l l' p (ph : gmap loc Path) lh pth n s :
  l <> l' -> get_path l' (set_heap (<[l := p]> ph) lh pth n s) = ph !!! l'.
Proof. intros H. unfold get_path. cbn. now apply (lookup_total_insert_ne (M := gmap loc)). Qed.

Lemma read_points_length l s : length (read_points l s) = length (get_list l s).
Proof. unfold read_points. apply length_fmap. Qed.

Lemma with_distance_nm_same p : with_distance_nm (distance_nm p) p = p.
Proof. destruct p; reflexivity. Qed.

(** ** Dicts *)

Lemma dict_get_set_eq d k v : Dict.get (Dict.set d k v) k = Some v.
Proof.
  induction d as [|[k' v'] d IH]; cbn.
  - now rewrite String.eqb_refl.
  - destruct (String.eqb k k') eqn:E; cbn; rewrite ?String.eqb_refl, ?E; auto.
Qed.

Lemma dict_get_set_ne d k k' v : k <> k' -> Dict.get (Dict.set d k v) k' = Dict.get d k'.
Proof.
  intros Hne. induction d as [|[k0 v0] d IH]; cbn.
  - destruct (String.eqb k' k) eqn:E; [apply String.eqb_eq in E; congruence | reflexivity].
  - destruct (String.eqb k k0) eqn:E; cbn.
    + apply String.eqb_eq in E. subst k0.
      destruct (String.eqb k' k) eqn:E'; [apply String.eqb_eq in E'; congruence | reflexivity].
    + now rewrite IH.
Qed.

Lemma dict_get_elem d k v : Dict.get d k = Some v -> (k, v) ∈ d.
Proof.
  induction d as [|[k' v'] d IH]; cbn; [discriminate|].
  destruct (String.eqb k k') eqn:E.
  - apply String.eqb_eq in E. intros [= ->]. subst. apply list_elem_of_here.
  - intros H. apply list_elem_of_further. auto.
Qed.

Lemma dict_get_None d k : Dict.get d k = None <-> k ∉ d.*1.
Proof.
  induction d as [|[k' v'] d IH]; cbn.
  - split; [intros _ H; inversion H | reflexivity].
  - destruct (String.eqb k k') eqn:E.
    + apply String.eqb_eq in E. subst. split; [discriminate|]. intros H. exfalso. apply H. apply list_elem_of_here.
    + apply String.eqb_neq in E. rewrite IH. rewrite not_elem_of_cons. tauto.
Qed.


Lemma dict_get_pop_ne d k k' : k <> k' -> Dict.get (Dict.pop d k) k' = Dict.get d k'.
Proof.
  intros Hne. induction d as [|[k0 v0] d IH]; cbn; [reflexivity|].
  destruct (String.eqb k k0) eqn:E; cbn.
  - apply String.eqb_eq in E. subst k0.
    destruct (String.eqb k' k) eqn:E'; [apply String.eqb_eq in E'; congruence | reflexivity].
  - now rewrite IH.
Qed.

Lemma dict_get_pop_eq d k : NoDup d.*1 -> Dict.get (Dict.pop d k) k = None.
Proof.
  induction d as [|[k0 v0] d IH]; cbn; intros Hnd; [reflexivity|].
  apply NoDup_cons in Hnd as [Hnotin Hnd].
  destruct (String.eqb k k0) eqn:E; cbn.
  - apply String.eqb_eq in E. subst k0. now apply dict_get_None.
  - rewrite E. auto.
Qed.

Lemma dict_update_get (other : list (string * loc)) :
  forall d k l,
    Dict.get (Dict.update d other) k = Some l -> (k, l) ∈ other \/ Dict.get d k = Some l.
Proof.
  unfold Dict.update. induction other as [|[k' v'] other IH]; intros d k l H; cbn in *.
  - now right.
  - apply IH in H as [H|H].
    + left. now apply list_elem_of_further.
    + destruct (decide (k' = k)) as [->|Hne].
      * rewrite dict_get_set_eq in H. injection H as ->. left. apply list_elem_of_here.
      * rewrite dict_get_set_ne in H by exact Hne. now right.
Qed.

Lemma dict_update_keys (other : list (string * loc)) :
  forall d k,
    (k ∈ other.*1 \/ is_Some (Dict.get d k)) -> is_Some (Dict.get (Dict.update d other) k).
Proof.
  unfold Dict.update. induction other as [|[k' v'] other IH]; intros d k H; cbn in *.
  - destruct H as [H|H]; [inversion H|exact H].
  - apply IH. destruct H as [H|H].
    + apply elem_of_cons in H as [->|H]; [|now left].
      right. rewrite dict_get_set_eq. eauto.
    + right. destruct (decide (k' = k)) as [->|Hne].
      * rewrite dict_get_set_eq. eauto.
      * now rewrite dict_get_set_ne.
Qed.


(** ** The stores of the examples *)

Lemma slow_path_state speed :
  speed <> 0%R ->
  exec (slow_path speed) (initial_state tape0)
  = set_manager [("AC-0001", 3)] [] 2 1
      (set_heap
         (<[3 := {| path_id := "AC-0001"; path_type := "aircraft"; points := 2;
                     distance_nm := 100; speed_kts := speed; altitude_ft := 15000;
                     current_position := 0; color := "green";
                     created := "2024-01-01T00:00:00" |}]> ∅)
         (<[2 := [0; 1]]> ∅)
         (<[1 := (21%R, 79%R)]> (<[0 := (20%R, 78%R)]> ∅)) 4
         (initial_state tape0)).
Proof.
  intros Hs. unfold exec, slow_path, new_points, add_aircraft_path, or_randint.
  rewrite (truthy_nonzero speed Hs), (truthy_nonzero 15000) by lra.
  reflexivity.
Qed.

Lemma forward_state_eq :
  forward_state
  = set_manager [("AC-0001", 3)] [] 2 1
      (set_heap
         (<[3 := {| path_id := "AC-0001"; path_type := "aircraft"; points := 2;
                     distance_nm := 100; speed_kts := 36; altitude_ft := 15000;
                     current_position := 0; color := "green";
                     created := "2024-01-01T00:00:00" |}]> ∅)
         (<[2 := [0; 1]]> ∅)
         (<[1 := (21%R, 79%R)]> (<[0 := (20%R, 78%R)]> ∅)) 4
         (initial_state tape0)).
Proof. unfold forward_state. apply slow_path_state. lra. Qed.

Lemma selected_state_eq :
  selected_state
  = set_select_buttons true true
      (set_selected (Some "AC-0001")
         (set_manager [("AC-0001", 4)] [] 2 1
            (set_heap
               (<[4 := {| path_id := "AC-0001"; path_type := "aircraft"; points := 3;
                           distance_nm := 165; speed_kts := 450; altitude_ft := 15000;
                           current_position := 0; color := "green";
                           created := "2024-01-01T00:00:00" |}]> ∅)
               (<[3 := [0; 1; 2]]> ∅)
               (<[2 := (22%R, 80%R)]> (<[1 := (21%R, 79%R)]> (<[0 := (20%R, 78%R)]> ∅))) 5
               (initial_state tape0)))).
Proof.
  unfold selected_state, exec, three_waypoints, new_points, add_aircraft_path, or_randint.
  rewrite (truthy_nonzero 450), (truthy_nonzero 15000) by lra.
  reflexivity.
Qed.

Lemma selected_state_allocated : path_allocated selected_state 4.
Proof.
  rewrite selected_state_eq.
  change (4 < 5 /\ 3 < 5 /\ Forall (fun q => q < 5) [0; 1; 2]).
  repeat constructor; lia.
Qed.

Lemma two_paths_state_eq :
  two_paths_state
  = set_select_buttons true true
      (set_selected (Some "AC-0001")
         (set_manager [("AC-0001", 3); ("AC-0002", 7)] [] 3 1
            (set_heap
               (<[7 := {| path_id := "AC-0002"; path_type := "aircraft"; points := 6;
                           distance_nm := 90; speed_kts := 500; altitude_ft := 20000;
                           current_position := 0; color := "green";
                           created := "2024-01-01T00:00:01" |}]>
                  (<[3 := {| path_id := "AC-0001"; path_type := "aircraft"; points := 2;
                              distance_nm := 100; speed_kts := 450; altitude_ft := 15000;
                              current_position := 0; color := "green";
                              created := "2024-01-01T00:00:00" |}]> ∅))
               (<[6 := [4; 5]]> (<[2 := [0; 1]]> ∅))
               (<[5 := (11%R, 71%R)]> (<[4 := (10%R, 70%R)]>
                  (<[1 := (21%R, 79%R)]> (<[0 := (20%R, 78%R)]> ∅)))) 8
               (initial_state tape0)))).
Proof.
  unfold two_paths_state, exec, two_paths, new_points, add_aircraft_path, or_randint.
  rewrite (truthy_nonzero 450), (truthy_nonzero 15000), (truthy_nonzero 500),
    (truthy_nonzero 20000) by lra.
  reflexivity.
Qed.

(** ** Geodesy *)

Section geodesy_facts.
Local Open Scope R_scope.

Lemma sin_half_sq x : (sin (x / 2)) ^ 2 = (1 - cos x) / 2.
Proof.
  replace x with (2 * (x / 2)) at 2 by lra.
  rewrite cos_2a_sin. lra.
Qed.

Lemma haversine_a_range p1 p2 : 0 <= haversine_a p1 p2 <= 1.
Proof.
  unfold haversine_a. cbv zeta.
  set (lat1 := radians (fst p1)). set (lat2 := radians (fst p2)).
  set (dlon := radians (snd p2) - radians (snd p1)).
  rewrite (sin_half_sq (lat2 - lat1)), cos_minus.
  set (u := sin (dlon / 2) ^ 2).
  assert (Hu : 0 <= u <= 1).
  { unfold u. pose proof (SIN_bound (dlon / 2)). nra. }
  pose proof (sin2_cos2 lat1) as H1. pose proof (sin2_cos2 lat2) as H2.
  unfold Rsqr in H1, H2.
  set (s1 := sin lat1) in *. set (c1 := cos lat1) in *.
  set (s2 := sin lat2) in *. set (c2 := cos lat2) in *.
  set (w := 1 - 2 * u).
  assert (Hw : -1 <= w <= 1) by (unfold w; lra).
  assert (Hw2 : 0 <= 1 - w * w) by nra.
  assert (Hc : 0 <= c2 * c2 * (1 - w * w)) by (apply Rmult_le_pos; nra).
  assert (Hup : s2 * s1 + c2 * c1 * w <= 1).
  { pose proof (Rle_0_sqr (s1 - s2)). pose proof (Rle_0_sqr (c1 - w * c2)). unfold Rsqr in *. nra. }
  assert (Hlo : -1 <= s2 * s1 + c2 * c1 * w).
  { pose proof (Rle_0_sqr (s1 + s2)). pose proof (Rle_0_sqr (c1 + w * c2)). unfold Rsqr in *. nra. }
  unfold w in Hup, Hlo. split; nra.
Qed.

Lemma central_angle_in_range a : 0 <= a <= 1 -> central_angle a = Ret (2 * asin (sqrt a)).
Proof.
  intros [H0 H1]. unfold central_angle, math_sqrt, math_asin. 
  destruct (Rlt_dec a 0) as [?|_]; [lra|]. cbn.
  assert (0 <= sqrt a) by apply sqrt_pos.
  assert (sqrt a <= 1). { rewrite <- sqrt_1. now apply sqrt_le_1_alt. }
  destruct (Rlt_dec (sqrt a) (-1)) as [?|_]; [lra|].
  destruct (Rlt_dec 1 (sqrt a)) as [?|_]; [lra|]. reflexivity.
Qed.

Lemma clamp01_id a : 0 <= a <= 1 -> clamp01 a = a.
Proof.
  intros [H0 H1]. unfold clamp01. rewrite (Rmin_right 1 a) by lra. now apply Rmax_right.
Qed.

Lemma leg_distance_spec p1 p2 : leg_distance p1 p2 = Ret (great_circle p1 p2).
Proof.
  unfold leg_distance, great_circle.
  pose proof (haversine_a_range p1 p2) as Ha.
  rewrite central_angle_in_range, clamp01_id by assumption. reflexivity.
Qed.

Lemma distance_loop_spec pts total :
  distance_loop pts total = Ret (total + distance_spec pts).
Proof.
  revert total. induction pts as [|p1 [|p2 rest] IH]; intros total.
  - cbn. f_equal. lra.
  - cbn. f_equal. lra.
  - change (distance_loop (p1 :: p2 :: rest) total)
      with (bind (leg_distance p1 p2) (fun d => distance_loop (p2 :: rest) (total + d))).
    rewrite leg_distance_spec. unfold bind. rewrite IH.
    change (distance_spec (p1 :: p2 :: rest)) with (great_circle p1 p2 + distance_spec (p2 :: rest)).
    f_equal. lra.
Qed.

Lemma calculate_distance_spec pts : _calculate_distance pts = Ret (distance_spec pts).
Proof.
  unfold _calculate_distance. destruct (length pts <? 2)%nat eqn:E.
  - apply Nat.ltb_lt in E. destruct pts as [|p1 [|p2 rest]]; cbn in *; try reflexivity. lia.
  - rewrite distance_loop_spec. f_equal. lra.
Qed.

Lemma calculate_distance_total pts : exists d, _calculate_distance pts = Ret d.
Proof. eexists. apply calculate_distance_spec. Qed.

End geodesy_facts.



(** ** Creating a path *)

(** Claim C10.  A speed or an altitude of 0 passed to [add_aircraft_path] or
    [add_track_path] is not stored: the call behaves exactly as if the
    argument had been omitted, and the stored value is a random draw from
    the kind's range (400-550 kt and 10000-35000 ft for an aircraft,
    350-500 kt and 5000-20000 ft for a track). *)
Theorem zero_argument_is_treated_as_absent points distance speed altitude now s :
  add_aircraft_path points distance (Some 0%R) altitude now s
    = add_aircraft_path points distance None altitude now s
  /\ add_aircraft_path points distance speed (Some 0%R) now s
    = add_aircraft_path points distance speed None now s
  /\ add_track_path points distance (Some 0%R) altitude now s
    = add_track_path points distance None altitude now s
  /\ add_track_path points distance speed (Some 0%R) now s
    = add_track_path points distance speed None now s
  /\ (exists pid l s',
        add_aircraft_path points distance (Some 0%R) (Some 0%R) now s = (Ret (pid, l), s')
        /\ Dict.get (aircraft_paths s') pid = Some l
        /\ exists v a, speed_kts (get_path l s') = IZR v /\ (400 <= v <= 550)%Z
                    /\ altitude_ft (get_path l s') = IZR a /\ (10000 <= a <= 35000)%Z)
  /\ (exists pid l s',
        add_track_path points distance (Some 0%R) (Some 0%R) now s = (Ret (pid, l), s')
        /\ Dict.get (track_paths s') pid = Some l
        /\ exists v a, speed_kts (get_path l s') = IZR v /\ (350 <= v <= 500)%Z
                    /\ altitude_ft (get_path l s') = IZR a /\ (5000 <= a <= 20000)%Z).
Proof.
  repeat split.
  - unfold add_aircraft_path, or_randint. now rewrite truthy_0.
  - unfold add_aircraft_path, or_randint. now rewrite truthy_0.
  - unfold add_track_path, or_randint. now rewrite truthy_0.
  - unfold add_track_path, or_randint. now rewrite truthy_0.
  - unfold add_aircraft_path, or_randint. rewrite truthy_0.
    unfold mbind, gets, modify, ret, randint, alloc_path. cbn.
    do 3 eexists. split; [reflexivity|]. cbn. split.
    + apply dict_get_set_eq.
    + unfold get_path. cbn. rewrite lookup_total_insert_eq. cbn.
      do 2 eexists. split; [reflexivity|].
      pose proof (Z.mod_pos_bound (rand_tape s (rand_pos s)) (550 - 400 + 1)).
      pose proof (Z.mod_pos_bound (rand_tape s (S (rand_pos s))) (35000 - 10000 + 1)).
      split; [lia|]. split; [reflexivity|lia].
  - unfold add_track_path, or_randint. rewrite truthy_0.
    unfold mbind, gets, modify, ret, randint, alloc_path. cbn.
    do 3 eexists. split; [reflexivity|]. cbn. split.
    + apply dict_get_set_eq.
    + unfold get_path. cbn. rewrite lookup_total_insert_eq. cbn.
      do 2 eexists. split; [reflexivity|].
      pose proof (Z.mod_pos_bound (rand_tape s (rand_pos s)) (500 - 350 + 1)).
      pose proof (Z.mod_pos_bound (rand_tape s (S (rand_pos s))) (20000 - 5000 + 1)).
      split; [lia|]. split; [reflexivity|lia].
Qed.

(** Claim C5, as the code has it.  [add_aircraft_path] and [add_track_path]
    do not look at the waypoint list: whatever list they are given, also one
    with fewer than two entries, the call succeeds, consumes the next
    identifier of the kind and stores a new path dict holding that list. *)
Theorem create_path_accepts_any_waypoint_list points distance speed altitude now s :
  (exists sp al s',
      add_aircraft_path points distance speed altitude now s
        = (Ret ("AC-" +:+ format_04d (next_aircraft_id s), next_loc s), s')
      /\ next_aircraft_id s' = (next_aircraft_id s + 1)%Z
      /\ Dict.get (aircraft_paths s') ("AC-" +:+ format_04d (next_aircraft_id s)) = Some (next_loc s)
      /\ get_path (next_loc s) s'
         = {| path_id := "AC-" +:+ format_04d (next_aircraft_id s); path_type := "aircraft";
              points := points; distance_nm := distance; speed_kts := sp; altitude_ft := al;
              current_position := 0%R; color := "green"; created := now |})
  /\ (exists sp al s',
      add_track_path points distance speed altitude now s
        = (Ret ("TRK-" +:+ format_04d (next_track_id s), next_loc s), s')
      /\ next_track_id s' = (next_track_id s + 1)%Z
      /\ Dict.get (track_paths s') ("TRK-" +:+ format_04d (next_track_id s)) = Some (next_loc s)
      /\ get_path (next_loc s) s'
         = {| path_id := "TRK-" +:+ format_04d (next_track_id s); path_type := "track";
              points := points; distance_nm := distance; speed_kts := sp; altitude_ft := al;
              current_position := 0%R; color := "red"; created := now |}).
Proof.
  split.
  - unfold add_aircraft_path, or_randint.
    destruct speed as [v|]; [destruct (truthy v)|];
      (destruct altitude as [a|]; [destruct (truthy a)|]);
      unfold mbind, gets, modify, ret, randint, alloc_path; cbn;
      do 3 eexists; (split; [reflexivity|]); cbn;
      (split; [reflexivity|]); (split; [apply dict_get_set_eq|]);
      unfold get_path; cbn; rewrite lookup_total_insert_eq; reflexivity.
  - unfold add_track_path, or_randint.
    destruct speed as [v|]; [destruct (truthy v)|];
      (destruct altitude as [a|]; [destruct (truthy a)|]);
      unfold mbind, gets, modify, ret, randint, alloc_path; cbn;
      do 3 eexists; (split; [reflexivity|]); cbn;
      (split; [reflexivity|]); (split; [apply dict_get_set_eq|]);
      unfold get_path; cbn; rewrite lookup_total_insert_eq; reflexivity.
Qed.

(** An empty waypoint list is accepted: the path is created and the
    identifier consumed. *)
Lemma create_with_no_waypoints_succeeds :
  let r := create_with_no_waypoints (initial_state tape0) in
  fst r = Ret ("AC-0001", 1%nat)
  /\ aircraft_paths (snd r) = [("AC-0001", 1%nat)]
  /\ next_aircraft_id (snd r) = 2%Z
  /\ read_points (points (get_path 1%nat (snd r))) (snd r) = [].
Proof.
  cbv zeta. unfold create_with_no_waypoints, new_points, add_aircraft_path, or_randint.
  rewrite !truthy_nonzero by lra.
  unfold mbind, gets, modify, ret, alloc_path, alloc_list. cbn.
  repeat split.
Qed.

(** ** Removing a waypoint *)

(** Claim C4.  [remove_waypoint] returns [False] and leaves the state
    unchanged on an unknown id, on an index out of range and whenever the
    path has no more than two waypoints; otherwise it returns [True], removes
    the waypoint at the index and stores the distance computed over the new
    sequence, leaving every other field of the path as it was. *)
Theorem remove_waypoint_spec (s : State) (path_id : string) (waypoint_index : Z) :
  (find_path path_id s = None ->
   remove_waypoint path_id waypoint_index s = (Ret false, s))
  /\ forall l, find_path path_id s = Some l ->
       let p := get_path l s in
       let n := length (read_points (points p) s) in
       ((n <= 2 \/ (waypoint_index < 0)%Z \/ (Z.of_nat n <= waypoint_index)%Z) ->
        remove_waypoint path_id waypoint_index s = (Ret false, s))
       /\ (2 < n -> (0 <= waypoint_index < Z.of_nat n)%Z ->
           exists s' d,
             remove_waypoint path_id waypoint_index s = (Ret true, s')
             /\ find_path path_id s' = Some l
             /\ get_path l s' = with_distance_nm d p
             /\ read_points (points p) s'
                = delete (Z.to_nat waypoint_index) (read_points (points p) s)
             /\ _calculate_distance (read_points (points p) s') = Ret d).
Proof.
  split.
  - intros Hnone. unfold remove_waypoint, mbind, gets. now rewrite Hnone.
  - intros l Hl p n. subst n. rewrite read_points_length. split.
    + intros Hbad. unfold remove_waypoint, mbind, gets. rewrite Hl. fold p.
      replace ((2 <? length (get_list (points p) s))
               && ((0 <=? waypoint_index)%Z
                   && (waypoint_index <? Z.of_nat (length (get_list (points p) s)))%Z))
        with false; [reflexivity|].
      symmetry. apply andb_false_iff. rewrite andb_false_iff.
      rewrite Nat.ltb_ge, Z.leb_gt, Z.ltb_ge. tauto.
    + intros Hn Hidx. unfold remove_waypoint, mbind, gets. rewrite Hl. fold p.
      replace ((2 <? length (get_list (points p) s))
               && ((0 <=? waypoint_index)%Z
                   && (waypoint_index <? Z.of_nat (length (get_list (points p) s)))%Z))
        with true.
      2:{ symmetry. apply andb_true_iff. rewrite andb_true_iff.
          rewrite Nat.ltb_lt, Z.leb_le, Z.ltb_lt. tauto. }
      unfold put_list, modify, lift, update_path, put_path, modify, ret.
      set (s1 := set_heap _ _ _ _ s).
      assert (Hread : read_points (points p) s1
                      = delete (Z.to_nat waypoint_index) (read_points (points p) s)).
      { unfold read_points, get_list, get_point, s1. cbn.
        rewrite lookup_total_insert_eq. unfold list_pop. now rewrite list_fmap_delete. }
      destruct (calculate_distance_total (read_points (points p) s1)) as [d Hd].
      rewrite Hd. eexists _, d. split; [reflexivity|].
      split; [exact Hl|]. split.
      * unfold get_path. cbn. rewrite lookup_total_insert_eq. reflexivity.
      * split; [|exact Hd]. exact Hread.
Qed.

Lemma remove_waypoint_spec_witness :
  remove_waypoint "AC-9999" 0 selected_state = (Ret false, selected_state)
  /\ remove_waypoint "AC-0001" 1 forward_state = (Ret false, forward_state)
  /\ exists s' d,
       remove_waypoint "AC-0001" 1 selected_state = (Ret true, s')
       /\ read_points 3 s' = [(20, 78); (22, 80)]%R
       /\ _calculate_distance (read_points 3 s') = Ret d
       /\ distance_nm (get_path 4 s') = d.
Proof.
  destruct (remove_waypoint_spec selected_state "AC-9999" 0) as [Hnone _].
  destruct (remove_waypoint_spec forward_state "AC-0001" 1) as [_ Htwo].
  destruct (remove_waypoint_spec selected_state "AC-0001" 1) as [_ Hthree].
  split; [|split].
  - apply Hnone. rewrite selected_state_eq. reflexivity.
  - destruct (Htwo 3) as [Hfail _].
    + rewrite forward_state_eq. reflexivity.
    + apply Hfail. left. rewrite forward_state_eq. change (2 <= 2). lia.
  - destruct (Hthree 4) as [_ Hok].
    + rewrite selected_state_eq. reflexivity.
    + destruct Hok as (s' & d & Heq & _ & Hp & Hr & Hd).
      * rewrite selected_state_eq. change (2 < 3). lia.
      * rewrite selected_state_eq. change (0 <= 1 < 3)%Z. lia.
      * exists s', d. split; [exact Heq|].
        assert (Hpts : points (get_path 4 selected_state) = 3)
          by (rewrite selected_state_eq; reflexivity).
        rewrite Hpts in Hr, Hd. split.
        { rewrite Hr. rewrite selected_state_eq. reflexivity. }
        split; [exact Hd|]. rewrite Hp. reflexivity.
Defined.

(** ** Ticking *)

Section floor_facts.
Local Open Scope R_scope.

Lemma floor_bounds x : IZR (floor x) <= x < IZR (floor x) + 1.
Proof. unfold floor. pose proof (base_Int_part x). lra. Qed.

Lemma floor_unique x z : IZR z <= x < IZR z + 1 -> floor x = z.
Proof. intros H. unfold floor. symmetry. apply Int_part_spec. lra. Qed.

Lemma fmod_1_range x : 0 <= fmod x 1 < 1.
Proof.
  unfold fmod. rewrite Rdiv_1_r. pose proof (floor_bounds x). lra.
Qed.

Lemma fmod_1_small x : 0 <= x < 1 -> fmod x 1 = x.
Proof.
  intros H. unfold fmod. rewrite Rdiv_1_r. rewrite (floor_unique x 0); lra.
Qed.

Lemma int_nonneg x : 0 <= x -> int x = floor x.
Proof. intros H. unfold int. destruct (Rle_dec 0 x); [reflexivity|lra]. Qed.

End floor_facts.

Lemma index_in_range {A} (l : list A) (i : Z) :
  (0 <= i < Z.of_nat (length l))%Z -> exists a, index l i = Ret a.
Proof.
  intros H. unfold index.
  replace (0 <=? i)%Z with true by (symmetry; apply Z.leb_le; lia).
  replace (i <? 0)%Z with false by (symmetry; apply Z.ltb_ge; lia).
  destruct (lookup_lt_is_Some_2 l (Z.to_nat i)) as [a Ha]; [lia|].
  rewrite Ha. eauto.
Qed.

Lemma interpolate_total pts position :
  (0 <= position < 1)%R -> exists pt, _interpolate_path pts position = Ret pt.
Proof.
  intros Hpos. unfold _interpolate_path.
  destruct (length pts <? 2) eqn:Hlen.
  - destruct pts; eauto.
  - apply Nat.ltb_ge in Hlen.
    set (n := length pts) in *.
    assert (Hn : (2 <= INR n)%R).
    { change 2%R with (INR 2). now apply le_INR. }
    set (seg := (1 / (INR n - 1))%R).
    assert (Hq : (position / seg = position * (INR n - 1))%R).
    { unfold seg. field. lra. }
    assert (Hq0 : (0 <= position / seg < INR n - 1)%R).
    { rewrite Hq. split; nra. }
    rewrite int_nonneg by lra.
    pose proof (floor_bounds (position / seg)) as Hfl.
    set (k := floor (position / seg)) in *.
    assert (Hk : (0 <= k < Z.of_nat n - 1)%Z).
    { rewrite INR_IZR_INZ in Hq0. split.
      - apply Z.lt_succ_r. apply lt_IZR. rewrite succ_IZR. lra.
      - apply lt_IZR. rewrite minus_IZR. lra. }
    replace (Z.of_nat n - 1 <=? k)%Z with false by (symmetry; apply Z.leb_gt; lia).
    destruct (index_in_range pts k) as [p1 ->]; [fold n; lia|].
    destruct (index_in_range pts (k + 1)) as [p2 ->]; [fold n; lia|].
    cbn. eauto.
Qed.

Lemma heading_total pts position :
  (0 <= position < 1)%R -> exists h, _calculate_heading pts position = Ret h.
Proof.
  intros Hpos. unfold _calculate_heading.
  destruct (length pts <? 2); [eauto|].
  destruct (interpolate_total pts position Hpos) as [c ->].
  destruct (interpolate_total pts (Rmin (position + 0.01) 0.999)) as [q ->].
  { unfold Rmin. destruct (Rle_dec (position + 0.01) 0.999); lra. }
  cbn. destruct (Req_dec_T _ _); [destruct (Req_dec_T _ _)|]; eauto.
Qed.

Lemma advanced_moving dt p :
  (0 < distance_nm p)%R ->
  advanced dt p
  = with_current_position
      (fmod (current_position p + (speed_kts p / 3600 * dt) / distance_nm p) 1) p.
Proof. intros H. unfold advanced. destruct (Rlt_dec 0 (distance_nm p)); [reflexivity|contradiction]. Qed.

Lemma advanced_still dt p : ~ (0 < distance_nm p)%R -> advanced dt p = p.
Proof. intros H. unfold advanced. destruct (Rlt_dec 0 (distance_nm p)); [contradiction|reflexivity]. Qed.

Lemma advanced_ok dt p : (0 <= dt)%R -> advancing_ok p -> advancing_ok (advanced dt p).
Proof.
  intros Hdt Hok. unfold advanced. destruct (Rlt_dec 0 (distance_nm p)) as [Hd|Hd].
  - intros _. cbn. split; [apply Hok, Hd | apply fmod_1_range].
  - exact Hok.
Qed.

Lemma advance_path_moving ty dt id l acc s :
  (0 <= dt)%R -> advancing_ok (get_path l s) -> (0 < distance_nm (get_path l s))%R ->
  exists u,
    advance_path ty dt (id, l) acc s
    = (Ret (acc ++ [u]),
       set_heap (<[l := advanced dt (get_path l s)]> (paths_heap s))
                (lists_heap s) (points_heap s) (next_loc s) s)
    /\ u_id u = id /\ u_type u = ty
    /\ u_alt u = altitude_ft (get_path l s) /\ u_speed u = speed_kts (get_path l s).
Proof.
  intros Hdt Hok Hd. destruct (Hok Hd) as [Hsp Hpos].
  set (p := get_path l s) in *.
  set (x := (current_position p + speed_kts p / 3600 * dt / distance_nm p)%R).
  assert (Hx : (0 <= x)%R).
  { unfold x. assert (0 <= speed_kts p / 3600 * dt / distance_nm p)%R; [|lra].
    apply Rmult_le_pos; [|left; now apply Rinv_0_lt_compat].
    apply Rmult_le_pos; lra. }
  unfold advance_path, mbind, gets. fold p.
  destruct (Rlt_dec 0 (distance_nm p)) as [_|]; [|contradiction].
  unfold update_path, put_path, modify. fold p.
  cbn [paths_heap lists_heap points_heap next_loc set_heap].
  rewrite ?set_heap_set_heap.
  rewrite !get_path_insert_eq.
  cbn [current_position with_current_position]. fold x.
  rewrite (advanced_moving dt p Hd). fold x.
  destruct (Rle_dec 1 x) as [Hwrap|Hno].
  - cbn [paths_heap lists_heap points_heap next_loc set_heap].
    rewrite !set_heap_set_heap, !get_path_insert_eq, insert_insert_eq.
    cbn [current_position with_current_position points altitude_ft speed_kts].
    set (pos := fmod x 1).
    pose proof (fmod_1_range x) as Hr. fold pos in Hr.
    unfold lift.
    match goal with |- context [_interpolate_path ?pts pos] =>
      destruct (interpolate_total pts pos Hr) as [pt ->];
      destruct (heading_total pts pos Hr) as [h ->] end.
    unfold ret. eexists. split; [reflexivity|]. cbn. auto.
  - assert (Hr : (0 <= x < 1)%R) by lra.
    rewrite (fmod_1_small x Hr).
    unfold ret at 1. rewrite !get_path_insert_eq.
    cbn [current_position with_current_position points altitude_ft speed_kts].
    unfold lift.
    match goal with |- context [_interpolate_path ?pts x] =>
      destruct (interpolate_total pts x Hr) as [pt ->];
      destruct (heading_total pts x Hr) as [h ->] end.
    unfold ret. eexists. split; [reflexivity|]. cbn. auto.
Qed.

Lemma advance_path_still ty dt id l acc s :
  ~ (0 < distance_nm (get_path l s))%R ->
  advance_path ty dt (id, l) acc s = (Ret acc, s).
Proof.
  intros Hd. unfold advance_path, mbind, gets.
  destruct (Rlt_dec 0 (distance_nm (get_path l s))); [contradiction|reflexivity].
Qed.


Lemma movers_cons_moving s e es :
  (0 < distance_nm (get_path e.2 s))%R -> movers s (e :: es) = e :: movers s es.
Proof. intros H. unfold movers. now rewrite filter_cons_True. Qed.

Lemma movers_cons_still s e es :
  ~ (0 < distance_nm (get_path e.2 s))%R -> movers s (e :: es) = movers s es.
Proof. intros H. unfold movers. now rewrite filter_cons_False. Qed.

Lemma movers_ext s s' es :
  (forall e, e ∈ es -> get_path e.2 s' = get_path e.2 s) -> movers s' es = movers s es.
Proof.
  induction es as [|e es IH]; intros H; [reflexivity|].
  assert (He : get_path e.2 s' = get_path e.2 s) by (apply H; apply list_elem_of_here).
  assert (IH' : movers s' es = movers s es).
  { apply IH. intros e' He'. apply H. now apply list_elem_of_further. }
  destruct (Rlt_dec 0 (distance_nm (get_path e.2 s))) as [Hd|Hd].
  - rewrite !movers_cons_moving by (rewrite ?He; exact Hd). now rewrite IH'.
  - rewrite !movers_cons_still by (rewrite ?He; exact Hd). exact IH'.
Qed.

Lemma movers_app s es1 es2 : movers s (es1 ++ es2) = movers s es1 ++ movers s es2.
Proof. unfold movers. apply filter_app. Qed.


Lemma elem_of_movers s es e :
  e ∈ movers s es <-> e ∈ es /\ (0 < distance_nm (get_path e.2 s))%R.
Proof. unfold movers. rewrite list_elem_of_filter. tauto. Qed.

Lemma advance_loop ty dt es :
  forall acc s,
    (0 <= dt)%R -> NoDup es.*2 ->
    (forall e, e ∈ es -> advancing_ok (get_path e.2 s)) ->
    exists ups ph,
      for_each es (advance_path ty dt) acc s
      = (Ret (acc ++ ups), set_heap ph (lists_heap s) (points_heap s) (next_loc s) s)
      /\ (forall l, l ∉ es.*2 -> ph !! l = paths_heap s !! l)
      /\ (forall e, e ∈ es -> ph !!! e.2 = advanced dt (get_path e.2 s))
      /\ u_id <$> ups = (movers s es).*1
      /\ Forall (fun u => u_type u = ty) ups.
Proof.
  induction es as [|[id l] es IH]; intros acc s Hdt Hnd Hok.
  - exists [], (paths_heap s). cbn. unfold ret. rewrite app_nil_r, set_heap_same.
    repeat split; auto. intros e He. inversion He.
  - cbn [fmap list_fmap] in Hnd. apply NoDup_cons in Hnd as [Hl Hnd].
    assert (Hother : forall e, e ∈ es -> e.2 <> l).
    { intros e He Heq. apply Hl. rewrite <- Heq. apply list_elem_of_fmap. exists e. auto. }
    cbn [for_each]. unfold mbind at 1.
    destruct (Rlt_dec 0 (distance_nm (get_path l s))) as [Hd|Hd].
    + destruct (advance_path_moving ty dt id l acc s Hdt) as (u & -> & Hid & Hty & _); auto.
      { apply (Hok (id, l)). apply list_elem_of_here. }
      set (s1 := set_heap _ _ _ _ s).
      assert (Hsame : forall e, e ∈ es -> get_path e.2 s1 = get_path e.2 s).
      { intros e He. unfold s1. rewrite get_path_insert_ne; [reflexivity|].
        intros Heq. now apply (Hother e He). }
      destruct (IH (acc ++ [u]) s1 Hdt Hnd) as (ups & ph & -> & Hfr & Hadv & Hids & Htys).
      { intros e He. rewrite Hsame by exact He. apply Hok. now apply list_elem_of_further. }
      exists (u :: ups), ph. split.
      { unfold s1. cbn [lists_heap points_heap next_loc set_heap].
        rewrite set_heap_set_heap. now rewrite <- app_assoc. }
      split; [|split; [|split]].
      * intros l' Hl'. cbn [fmap list_fmap] in Hl'. apply not_elem_of_cons in Hl' as [Hne Hl'].
        rewrite (Hfr l' Hl'). unfold s1. cbn [paths_heap set_heap].
        now apply lookup_insert_ne.
      * intros e He. apply elem_of_cons in He as [->|He].
        -- cbn [snd]. rewrite lookup_total_alt, (Hfr l Hl). unfold s1.
           cbn [paths_heap set_heap]. now rewrite lookup_insert_eq.
        -- rewrite (Hadv e He). now rewrite Hsame.
      * rewrite movers_cons_moving by exact Hd. cbn [fmap list_fmap fst].
        rewrite Hid. f_equal. rewrite Hids. f_equal. now apply movers_ext.
      * constructor; assumption.
    + rewrite (advance_path_still ty dt id l acc s Hd).
      destruct (IH acc s Hdt Hnd) as (ups & ph & -> & Hfr & Hadv & Hids & Htys).
      { intros e He. apply Hok. now apply list_elem_of_further. }
      exists ups, ph. split; [reflexivity|].
      split; [|split; [|split]].
      * intros l' Hl'. cbn [fmap list_fmap] in Hl'. apply not_elem_of_cons in Hl' as [Hne Hl'].
        now apply Hfr.
      * intros e He. apply elem_of_cons in He as [->|He].
        -- cbn [snd]. rewrite lookup_total_alt, (Hfr l Hl).
           rewrite (advanced_still dt _ Hd). unfold get_path. now rewrite lookup_total_alt.
        -- now apply Hadv.
      * now rewrite movers_cons_still by exact Hd.
      * assumption.
Qed.

Lemma update_positions_step s dt :
  store_ok s -> (0 <= dt)%R ->
  exists updates ph,
    update_positions dt s
    = (Ret updates, set_heap ph (lists_heap s) (points_heap s) (next_loc s) s)
    /\ (forall l, l ∉ (entries s).*2 -> ph !! l = paths_heap s !! l)
    /\ (forall e, e ∈ entries s -> ph !!! e.2 = advanced dt (get_path e.2 s))
    /\ u_id <$> updates = (movers s (entries s)).*1.
Proof.
  intros (Hids & Hlocs & Hok) Hdt. unfold entries in *.
  rewrite fmap_app in Hlocs. apply NoDup_app in Hlocs as (Hnd1 & Hdisj & Hnd2).
  unfold update_positions, mbind at 1, gets at 1.
  unfold mbind at 1.
  destruct (advance_loop "aircraft" dt (aircraft_paths s) [] s Hdt Hnd1)
    as (ups1 & ph1 & -> & Hfr1 & Hadv1 & Hid1 & _).
  { intros [id l] He. apply (Hok id l). apply elem_of_app. now left. }
  set (s1 := set_heap ph1 _ _ _ s).
  unfold mbind, gets. change (track_paths s1) with (track_paths s).
  assert (Hsame : forall e, e ∈ track_paths s -> get_path e.2 s1 = get_path e.2 s).
  { intros e He. unfold get_path, s1. cbn [paths_heap set_heap].
    rewrite !lookup_total_alt, Hfr1; [reflexivity|].
    intros Hin. apply (Hdisj e.2 Hin). apply list_elem_of_fmap. exists e. auto. }
  destruct (advance_loop "track" dt (track_paths s) ([] ++ ups1) s1 Hdt Hnd2)
    as (ups2 & ph2 & -> & Hfr2 & Hadv2 & Hid2 & _).
  { intros [id l] He. rewrite (Hsame (id, l) He). apply (Hok id l). apply elem_of_app. now right. }
  exists (ups1 ++ ups2), ph2. split; [reflexivity|].
  split; [|split].
  - intros l Hl. rewrite fmap_app in Hl. apply not_elem_of_app in Hl as [Hl1 Hl2].
    rewrite (Hfr2 l Hl2). unfold s1. cbn [paths_heap set_heap]. now apply Hfr1.
  - intros e He. apply elem_of_app in He as [He|He].
    + rewrite lookup_total_alt, Hfr2.
      * unfold s1. cbn [paths_heap set_heap]. rewrite <- lookup_total_alt. now apply Hadv1.
      * intros Hin. apply (Hdisj e.2); [|exact Hin]. apply list_elem_of_fmap. exists e. auto.
    + rewrite (Hadv2 e He). now rewrite Hsame.
  - rewrite fmap_app, movers_app, fmap_app, Hid1, Hid2. f_equal. f_equal.
    now apply movers_ext.
Qed.




Lemma store_ok_step s dt :
  store_ok s -> (0 <= dt)%R ->
  entries (exec (update_positions dt) s) = entries s
  /\ store_ok (exec (update_positions dt) s)
  /\ forall e, e ∈ entries s ->
       get_path e.2 (exec (update_positions dt) s) = advanced dt (get_path e.2 s).
Proof.
  intros Hs Hdt.
  destruct (update_positions_step s dt Hs Hdt) as (ups & ph & Heq & Hfr & Hadv & Hids).
  unfold exec. rewrite Heq. cbn [snd].
  assert (Hget : forall e, e ∈ entries s ->
            get_path e.2 (set_heap ph (lists_heap s) (points_heap s) (next_loc s) s)
            = advanced dt (get_path e.2 s)).
  { intros e He. unfold get_path at 1. cbn [paths_heap set_heap]. now apply Hadv. }
  split; [reflexivity|]. split; [|exact Hget].
  destruct Hs as (H1 & H2 & Hok). split; [exact H1|]. split; [exact H2|].
  intros id l He. change (entries _) with (entries s) in He.
  pose proof (Hget (id, l) He) as Hg. cbn [snd] in Hg. rewrite Hg.
  apply advanced_ok; [exact Hdt|]. now apply (Hok id l).
Qed.



Lemma forward_state_ok : store_ok forward_state.
Proof.
  unfold forward_state. rewrite slow_path_state by lra.
  unfold store_ok, entries. cbn [aircraft_paths track_paths set_manager app fmap list_fmap fst snd].
  split; [apply NoDup_singleton|]. split; [apply NoDup_singleton|].
  intros id l He. apply list_elem_of_singleton in He as [= -> ->].
  erewrite get_path_lookup by reflexivity. intros _. cbn. lra.
Qed.

Lemma forward_state_tick_ok : tick_ok 1000 forward_state.
Proof.
  split; [lra|]. unfold forward_state. rewrite slow_path_state by lra.
  unfold entries. cbn [aircraft_paths track_paths set_manager app].
  intros id l He _. apply list_elem_of_singleton in He as [= -> ->].
  erewrite get_path_lookup by reflexivity. unfold tick_in_range.
  cbn [speed_kts distance_nm]. lra.
Qed.



(** ** Scenario A *)

Section scenario_A_bounds.
Local Open Scope R_scope.

Lemma PI_bounds : 3.1415 < PI < 3.1416.
Proof.
  pose proof (PI_2_3_7_ineq 2) as [Hlo Hhi].
  unfold PI_2_3_7_tg, tg_alt, Ratan_seq in Hlo, Hhi.
  cbn [sum_f_R0 Nat.mul Nat.add pow INR] in Hlo, Hhi.
  split; lra.
Qed.

(** [x - x^3/6 <= sin x <= x] on [0, 1]. *)
Lemma sin_cubic x : 0 <= x <= 1 -> x - x ^ 3 / 6 <= sin x <= x.
Proof.
  intros [H0 H1]. pose proof PI_bounds as HPI.
  split.
  - destruct (SIN x) as [Hlb _]; [lra | lra |].
    unfold sin_lb, sin_approx, sin_term in Hlb.
    cbn [sum_f_R0 Nat.mul Nat.add pow fact INR] in Hlb.
    assert (0 <= x ^ 5 * (1 - x * x / 42)).
    { apply Rmult_le_pos; [ apply pow_le; lra | nra ]. }
    cbn [pow] in *. nra.
  - destruct (Req_dec x 0) as [->|Hx]; [rewrite sin_0; lra|].
    left. apply sin_lt_x. lra.
Qed.

(** The Taylor bounds of [cos] on [0, 1]. *)
Lemma cos_taylor x :
  0 <= x <= 1 ->
  1 - x ^ 2 / 2 + x ^ 4 / 24 - x ^ 6 / 720 <= cos x <= 1 - x ^ 2 / 2 + x ^ 4 / 24.
Proof.
  intros [H0 H1]. pose proof PI_bounds as HPI.
  destruct (COS x) as [Hlb Hub]; [lra | lra |].
  unfold cos_lb, cos_ub, cos_approx, cos_term in Hlb, Hub.
  cbn [sum_f_R0] in Hlb, Hub.
  eval_nat_consts Hlb. eval_nat_consts Hub.
  cbn [Nat.mul Nat.add] in Hlb, Hub.
  assert (H6 : 0 <= x ^ 6) by (apply pow_le; lra).
  assert (H8 : x ^ 8 <= x ^ 6).
  { change (x ^ 8) with (x * (x * x ^ 6)).
    assert (0 <= x ^ 6 * (1 - x * x)) by (apply Rmult_le_pos; [lra | nra]).
    lra. }
  replace ((-1) ^ 0) with 1 in * by (cbn; lra).
  replace ((-1) ^ 1) with (-1) in * by (cbn; lra).
  replace ((-1) ^ 2) with 1 in * by (cbn; lra).
  replace ((-1) ^ 3) with (-1) in * by (cbn; lra).
  replace ((-1) ^ 4) with 1 in * by (cbn; lra).
  replace (x ^ 0) with 1 in * by (cbn; lra).
  split; lra.
Qed.

Lemma a_demo_eq :
  a_demo = sin (PI / 360) ^ 2 + cos (PI / 9) * cos (7 * PI / 60) * sin (PI / 360) ^ 2.
Proof.
  unfold a_demo, haversine_a, radians. cbn [fst snd].
  replace ((21 * PI / 180 - 20 * PI / 180) / 2) with (PI / 360) by lra.
  replace ((79 * PI / 180 - 78 * PI / 180) / 2) with (PI / 360) by lra.
  replace (20 * PI / 180) with (PI / 9) by lra.
  replace (21 * PI / 180) with (7 * PI / 60) by lra.
  reflexivity.
Qed.

Lemma sin_half_degree : 0.0087258 < sin (PI / 360) < 0.008727.
Proof.
  pose proof PI_bounds as HPI.
  set (h := PI / 360).
  assert (Hh : 0.008726 < h < 0.008727) by (unfold h; lra).
  destruct (sin_cubic h) as [Hlo Hhi]; [lra|].
  assert (h ^ 3 < 0.000001).
  { cbn [pow]. nra. }
  lra.
Qed.

Lemma cos_20_degrees : 0.9396 < cos (PI / 9) < 0.9398.
Proof.
  pose proof PI_bounds as HPI.
  set (x := PI / 9).
  assert (Hx : 0.34905 < x < 0.34907) by (unfold x; lra).
  destruct (cos_taylor x) as [Hlo Hhi]; [lra|].
  assert (H2 : 0.121835 < x ^ 2 < 0.121851) by (cbn [pow]; nra).
  assert (H4 : 0.014843 < x ^ 4 < 0.014848).
  { change (x ^ 4) with (x * (x * x ^ 2)). replace (x * (x * x ^ 2)) with (x ^ 2 * x ^ 2) by ring. nra. }
  assert (H6 : 0 < x ^ 6 < 0.00181).
  { replace (x ^ 6) with (x ^ 2 * x ^ 4) by ring. nra. }
  lra.
Qed.

Lemma cos_21_degrees : 0.9335 < cos (7 * PI / 60) < 0.9337.
Proof.
  pose proof PI_bounds as HPI.
  set (x := 7 * PI / 60).
  assert (Hx : 0.36650 < x < 0.36653) by (unfold x; lra).
  destruct (cos_taylor x) as [Hlo Hhi]; [lra|].
  assert (H2 : 0.134322 < x ^ 2 < 0.134345) by (cbn [pow]; nra).
  assert (H4 : 0.018042 < x ^ 4 < 0.018049).
  { change (x ^ 4) with (x * (x * x ^ 2)). replace (x * (x * x ^ 2)) with (x ^ 2 * x ^ 2) by ring. nra. }
  assert (H6 : 0 < x ^ 6 < 0.00243).
  { replace (x ^ 6) with (x ^ 2 * x ^ 4) by ring. nra. }
  lra.
Qed.

Lemma a_demo_bounds : 0.011955 ^ 2 < a_demo < 0.011958 ^ 2.
Proof.
  rewrite a_demo_eq.
  pose proof sin_half_degree as Hs. pose proof cos_20_degrees as H1.
  pose proof cos_21_degrees as H2.
  set (s := sin (PI / 360)) in *. set (c1 := cos (PI / 9)) in *.
  set (c2 := cos (7 * PI / 60)) in *.
  replace (s ^ 2 + c1 * c2 * s ^ 2) with (s ^ 2 * (1 + c1 * c2)) by ring.
  assert (Hs2 : 0.0087258 ^ 2 < s ^ 2 < 0.008727 ^ 2) by (cbn [pow]; nra).
  assert (Hc : 0.9396 * 0.9335 < c1 * c2 < 0.9398 * 0.9337) by nra.
  cbn [pow] in *. nra.
Qed.

Lemma sqrt_a_demo_bounds : 0.011955 < sqrt a_demo < 0.011958.
Proof.
  pose proof a_demo_bounds as [Hlo Hhi].
  split.
  - rewrite <- (sqrt_pow2 0.011955) by lra. apply sqrt_lt_1_alt. split; [cbn [pow]; lra | exact Hlo].
  - rewrite <- (sqrt_pow2 0.011958) by lra. apply sqrt_lt_1_alt. split; [|exact Hhi].
    cbn [pow] in *. lra.
Qed.

(** [y <= asin y] and [asin y < u] as soon as [y < u - u^3/6], for small arguments. *)
Lemma asin_small y u :
  0 <= y -> y < u - u ^ 3 / 6 -> 0 < u <= 1 -> y <= asin y < u.
Proof.
  intros Hy Hyu [Hu0 Hu]. pose proof PI_bounds as HPI.
  destruct (sin_cubic u) as [Hsu _]; [lra|].
  assert (Hy1 : -1 <= y <= 1).
  { split; [lra|]. assert (0 <= u ^ 3) by (apply pow_le; lra). lra. }
  pose proof (asin_bound y) as Hb. pose proof (sin_asin y Hy1) as Hsa.
  split.
  - destruct (Rle_dec (asin y) 0) as [Hneg|Hpos].
    + destruct (Req_dec (asin y) 0) as [Hz|Hnz].
      * rewrite Hz, sin_0 in Hsa. lra.
      * assert (sin (asin y) < 0) by (apply sin_lt_0_var; lra). lra.
    + assert (sin (asin y) < asin y) by (apply sin_lt_x; lra). lra.
  - destruct (Rlt_dec (asin y) u) as [|Hge]; [assumption|]. exfalso.
    assert (sin u <= sin (asin y)) by (apply sin_incr_1; lra).
    lra.
Qed.

Lemma demo_leg_bounds :
  exists d, leg_distance (20, 78) (21, 79) = Ret d /\ 82.25 < d < 82.28.
Proof.
  pose proof (haversine_a_range (20, 78) (21, 79)) as Ha.
  fold a_demo in Ha.
  exists (R_nm * (2 * asin (sqrt a_demo))). split.
  - unfold leg_distance. fold a_demo. rewrite central_angle_in_range by assumption. reflexivity.
  - pose proof sqrt_a_demo_bounds as Hy.
    destruct (asin_small (sqrt a_demo) 0.011959) as [Hlo Hhi]; [lra | cbn [pow]; lra | lra |].
    unfold R_nm. lra.
Qed.

End scenario_A_bounds.

Lemma demo_distance :
  exists d, _calculate_distance [(20, 78); (21, 79)]%R = Ret d
            /\ calculate_path_distance [(20, 78); (21, 79)]%R = Ret d
            /\ (82.25 < d < 82.28)%R.
Proof.
  destruct demo_leg_bounds as (d & Hleg & Hd).
  exists (0 + d)%R. unfold _calculate_distance, calculate_path_distance.
  cbn [length Nat.ltb Nat.leb distance_loop]. rewrite Hleg. cbn [bind].
  split; [reflexivity|]. split; [reflexivity|]. lra.
Qed.

Lemma scenario_A_state_eq d :
  calculate_path_distance [(20, 78); (21, 79)]%R = Ret d ->
  scenario_A_state
  = set_manager [("AC-0001", 3)] [] 2 1
      (set_heap
         (<[3 := {| path_id := "AC-0001"; path_type := "aircraft"; points := 2;
                     distance_nm := d; speed_kts := 450; altitude_ft := 15000;
                     current_position := 0; color := "green";
                     created := "2024-01-01T00:00:00" |}]> ∅)
         (<[2 := [0; 1]]> ∅)
         (<[1 := (21%R, 79%R)]> (<[0 := (20%R, 78%R)]> ∅)) 4
         (initial_state tape0)).
Proof.
  intros Hd. unfold scenario_A_state, exec, scenario_A, new_points.
  cbn [for_each]. unfold append_new_point.
  unfold mbind at 1. unfold mbind at 1. unfold mbind at 1.
  unfold alloc_point at 1, mbind at 1, ret at 1.
  unfold mbind at 1, alloc_point at 1, mbind at 1.
  unfold ret at 1. unfold ret at 1. unfold alloc_list.
  cbn [next_loc points_heap lists_heap paths_heap set_heap initial_state app].
  unfold mbind at 1, gets at 1.
  replace (read_points 2 _) with [(20, 78); (21, 79)]%R by reflexivity.
  unfold mbind at 1, lift at 1. rewrite Hd.
  unfold add_aircraft_path, or_randint.
  rewrite (truthy_nonzero 450), (truthy_nonzero 15000) by lra.
  reflexivity.
Qed.

Lemma scenario_A_run :
  exists d,
    _calculate_distance [(20, 78); (21, 79)]%R = Ret d
    /\ (82.25 < d < 82.28)%R
    /\ get_path 3%nat scenario_A_state
       = {| path_id := "AC-0001"; path_type := "aircraft"; points := 2%nat;
            distance_nm := d; speed_kts := 450; altitude_ft := 15000;
            current_position := 0; color := "green";
            created := "2024-01-01T00:00:00" |}
    /\ read_points 2%nat scenario_A_state = [(20, 78); (21, 79)]%R
    /\ entries scenario_A_state = [("AC-0001", 3%nat)]
    /\ exists updates s',
         update_positions 3600 scenario_A_state = (Ret updates, s')
         /\ get_path 3%nat s'
            = with_current_position (450 / d - 5)%R (get_path 3%nat scenario_A_state).
Proof.
  destruct demo_distance as (d & Hd1 & Hd2 & Hd).
  exists d. split; [exact Hd1|]. split; [exact Hd|].
  rewrite (scenario_A_state_eq d Hd2).
  remember (set_manager _ _ _ _ _) as s eqn:Hs.
  assert (Hp : get_path 3 s
               = {| path_id := "AC-0001"; path_type := "aircraft"; points := 2;
                    distance_nm := d; speed_kts := 450; altitude_ft := 15000;
                    current_position := 0; color := "green";
                    created := "2024-01-01T00:00:00" |}).
  { subst s. apply get_path_lookup. reflexivity. }
  assert (He : entries s = [("AC-0001", 3)]) by (subst s; reflexivity).
  assert (Hr : read_points 2 s = [(20, 78); (21, 79)]%R) by (subst s; reflexivity).
  clear Hs. split; [exact Hp|]. split; [exact Hr|]. split; [exact He|].
  assert (Hok : store_ok s).
  { unfold store_ok. rewrite He. cbn [fmap list_fmap fst snd].
    split; [apply NoDup_singleton|]. split; [apply NoDup_singleton|].
    intros id l Hin. apply list_elem_of_singleton in Hin as [= -> ->].
    rewrite Hp. intros _. cbn. lra. }
  destruct (update_positions_step s 3600 Hok) as (ups & ph & Heq & _ & Hadv & _); [lra|].
  exists ups, (set_heap ph (lists_heap s) (points_heap s) (next_loc s) s).
  split; [exact Heq|].
  assert (Hin : ("AC-0001", 3) ∈ entries s) by (rewrite He; apply list_elem_of_here).
  specialize (Hadv _ Hin). cbn [snd] in Hadv.
  unfold get_path at 1. cbn [paths_heap set_heap]. rewrite Hadv, Hp.
  rewrite advanced_moving by (cbn; lra).
  cbn [current_position speed_kts distance_nm]. f_equal.
  assert (Hq : (5.469 < 450 / d < 5.472)%R).
  { split.
    - apply Rmult_lt_reg_r with d; [lra|]. unfold Rdiv. rewrite Rmult_assoc, Rinv_l by lra. lra.
    - apply Rmult_lt_reg_r with d; [lra|]. unfold Rdiv. rewrite Rmult_assoc, Rinv_l by lra. lra. }
  replace (0 + 450 / 3600 * 3600 / d)%R with (450 / d)%R by (field; lra).
  unfold fmod. rewrite Rdiv_1_r. rewrite (floor_unique (450 / d) 5) by lra. lra.
Qed.

(** Claim C3, amended.  In scenario A the distance is about 82.26 nm (between
    82.25 and 82.28), one [update_positions(3600)] adds [450 / distance],
    about 5.47, to the progress, and the progress ends at about 0.47
    ([450 / distance - 5], between 0.469 and 0.472). *)
Theorem scenario_A_progress :
  exists d,
    _calculate_distance [(20, 78); (21, 79)]%R = Ret d
    /\ distance_nm (get_path 3%nat scenario_A_state) = d
    /\ speed_kts (get_path 3%nat scenario_A_state) = 450%R
    /\ altitude_ft (get_path 3%nat scenario_A_state) = 15000%R
    /\ current_position (get_path 3%nat scenario_A_state) = 0%R
    /\ read_points (points (get_path 3%nat scenario_A_state)) scenario_A_state
       = [(20, 78); (21, 79)]%R
    /\ (82.25 < d < 82.28)%R
    /\ (5.469 < 450 / d < 5.472)%R
    /\ exists updates s',
         update_positions 3600 scenario_A_state = (Ret updates, s')
         /\ current_position (get_path 3%nat s') = (450 / d - 5)%R
         /\ (0.469 < current_position (get_path 3%nat s') < 0.472)%R.
Proof.
  destruct scenario_A_run as (d & Hd & Hb & Hp & Hr & _ & ups & s' & Hrun & Hp').
  assert (Hq : (5.469 < 450 / d < 5.472)%R).
  { split.
    - apply Rmult_lt_reg_r with d; [lra|]. unfold Rdiv. rewrite Rmult_assoc, Rinv_l by lra. lra.
    - apply Rmult_lt_reg_r with d; [lra|]. unfold Rdiv. rewrite Rmult_assoc, Rinv_l by lra. lra. }
  exists d. rewrite Hp. cbn [distance_nm speed_kts altitude_ft current_position points].
  repeat (split; [first [exact Hd | reflexivity | exact Hr | exact Hb | exact Hq]|]).
  exists ups, s'. split; [exact Hrun|]. rewrite Hp'. cbn [current_position with_current_position].
  split; [reflexivity|lra].
Qed.

(** The distance of scenario A is more than 1 nm below 83.5 and the progress
    after one hour is more than 0.07 above 0.39. *)
Lemma scenario_A_is_not_83_5 :
  (distance_nm (get_path 3%nat scenario_A_state) < 83.5 - 1)%R
  /\ (0.39 + 0.07
      < current_position (get_path 3%nat (exec (update_positions 3600) scenario_A_state)))%R.
Proof.
  destruct scenario_A_run as (d & Hd & Hb & Hp & Hr & _ & ups & s' & Hrun & Hp').
  assert (Hq : (5.469 < 450 / d)%R).
  { apply Rmult_lt_reg_r with d; [lra|]. unfold Rdiv. rewrite Rmult_assoc, Rinv_l by lra. lra. }
  unfold exec. rewrite Hrun. cbn [snd]. rewrite Hp', Hp.
  cbn [distance_nm current_position with_current_position]. split; lra.
Qed.

(** ** The heap under allocation and copying *)

Lemma copy_loop_spec refs :
  forall acc s,
    Forall (fun q => q < next_loc s) refs ->
    exists pth,
      for_each refs append_copy acc s
      = (Ret (acc ++ seq (next_loc s) (length refs)),
         set_heap (paths_heap s) (lists_heap s) pth (next_loc s + length refs) s)
      /\ (forall l, l < next_loc s -> pth !! l = points_heap s !! l)
      /\ (fun q => pth !!! q) <$> seq (next_loc s) (length refs)
         = (fun q => get_point q s) <$> refs.
Proof.
  induction refs as [|p refs IH]; intros acc s Hall.
  - exists (points_heap s). cbn. unfold ret. rewrite app_nil_r, Nat.add_0_r, set_heap_same. auto.
  - apply Forall_cons in Hall as [Hp Hall].
    cbn [for_each]. unfold mbind at 1. unfold append_copy at 1.
    unfold mbind at 1, gets at 1. unfold append_new_point at 1.
    unfold mbind at 1, alloc_point at 1. unfold ret at 1.
    set (s1 := set_heap _ _ _ _ s).
    destruct (IH (acc ++ [next_loc s]) s1) as (pth & Heq & Hold & Hnew).
    { eapply Forall_impl; [exact Hall|]. intros q Hq.
      change (next_loc s1) with (S (next_loc s)). cbn beta in *. lia. }
    exists pth. rewrite Heq. split.
    { unfold s1. cbn [next_loc paths_heap lists_heap points_heap set_heap].
      rewrite set_heap_set_heap. cbn [length seq]. rewrite <- app_assoc. cbn [app].
      do 2 f_equal. lia. }
    split.
    + intros l Hl. rewrite Hold by (change (next_loc s1) with (S (next_loc s)); lia).
      unfold s1. cbn [points_heap set_heap]. apply lookup_insert_ne. lia.
    + cbn [length seq fmap list_fmap]. f_equal.
      * rewrite lookup_total_alt, Hold by (change (next_loc s1) with (S (next_loc s)); lia).
        unfold s1. cbn [points_heap set_heap]. now rewrite lookup_insert_eq.
      * change (next_loc s1) with (S (next_loc s)) in Hnew. rewrite Hnew.
        apply Forall_fmap_ext. eapply Forall_impl; [exact Hall|]. intros q Hq.
        cbn beta in Hq. unfold get_point, s1. cbn [points_heap set_heap].
        apply lookup_total_insert_ne. lia.
Qed.

Lemma copy_points_spec l s :
  Forall (fun q => q < next_loc s) (get_list l s) ->
  let n := next_loc s in
  let k := length (get_list l s) in
  exists pth,
    copy_points l s
    = (Ret (n + k),
       set_heap (paths_heap s) (<[n + k := seq n k]> (lists_heap s)) pth (S (n + k)) s)
    /\ (forall l', l' < n -> pth !! l' = points_heap s !! l')
    /\ (fun q => pth !!! q) <$> seq n k = read_points l s.
Proof.
  intros Hall n k. unfold copy_points, mbind at 1, gets at 1.
  unfold mbind at 1.
  destruct (copy_loop_spec (get_list l s) [] s Hall) as (pth & -> & Hold & Hnew).
  exists pth. unfold alloc_list. cbn [next_loc paths_heap lists_heap points_heap set_heap app].
  rewrite set_heap_set_heap. auto.
Qed.

(** ** The getters *)

Lemma get_path_by_id_found pid s l :
  find_path pid s = Some l ->
  get_path_by_id pid s
  = (Ret (Some (next_loc s)),
     set_heap (<[next_loc s := get_path l s]> (paths_heap s))
              (lists_heap s) (points_heap s) (S (next_loc s)) s).
Proof.
  unfold find_path, get_path_by_id, mbind, gets. intros H.
  destruct (Dict.get (aircraft_paths s) pid) as [l1|].
  - injection H as ->. reflexivity.
  - rewrite H. reflexivity.
Qed.

Lemma get_path_by_id_missing pid s :
  find_path pid s = None -> get_path_by_id pid s = (Ret None, s).
Proof.
  unfold find_path, get_path_by_id, mbind, gets. intros H.
  destruct (Dict.get (aircraft_paths s) pid) as [l1|]; [discriminate|].
  rewrite H. reflexivity.
Qed.

(** X3.  What the two getters hand out.  [get_path_by_id] returns a new dict
    with the field values of the stored one, so rebinding a field of the
    copy leaves the stored path alone, but ['points'] is the stored list itself;
    [get_all_paths] returns a new mapping whose values are the stored dicts;
    an unknown id yields [None]. *)
Theorem getters_return_shallow_copies (s : State) (pid : string) :
  (find_path pid s = None -> get_path_by_id pid s = (Ret None, s))
  /\ (forall l, find_path pid s = Some l -> l < next_loc s ->
        exists c s',
          get_path_by_id pid s = (Ret (Some c), s')
          /\ c <> l
          /\ get_path c s' = get_path l s
          /\ get_path l s' = get_path l s
          /\ entries s' = entries s
          /\ lists_heap s' = lists_heap s
          /\ points_heap s' = points_heap s
          /\ (forall f, get_path l (exec (update_path c f) s') = get_path l s)
          /\ (forall items,
                get_list (points (get_path l s))
                         (exec (put_list (points (get_path c s')) items) s') = items))
  /\ (exists d,
        get_all_paths s = (Ret d, s)
        /\ (forall id l, Dict.get d id = Some l -> (id, l) ∈ entries s)
        /\ (forall id, id ∈ (entries s).*1 -> is_Some (Dict.get d id))).
Proof.
  split; [apply get_path_by_id_missing|]. split.
  - intros l Hl Hlt. rewrite (get_path_by_id_found pid s l Hl).
    set (s' := set_heap _ _ _ _ s).
    assert (Hc : get_path (next_loc s) s' = get_path l s) by apply get_path_insert_eq.
    assert (Hl' : get_path l s' = get_path l s).
    { unfold s'. rewrite get_path_insert_ne by lia. reflexivity. }
    exists (next_loc s), s'. split; [reflexivity|]. split; [lia|].
    split; [exact Hc|]. split; [exact Hl'|].
    split; [reflexivity|]. split; [reflexivity|]. split; [reflexivity|]. split.
    + intros f. unfold exec, update_path, put_path, modify. cbn [snd].
      rewrite get_path_insert_ne by lia. exact Hl'.
    + intros items. rewrite Hc. unfold exec, put_list, modify, get_list. cbn [snd lists_heap set_heap].
      apply (lookup_total_insert_eq (M := gmap nat)).
  - exists (Dict.update (Dict.update [] (aircraft_paths s)) (track_paths s)).
    split; [reflexivity|]. unfold entries. split.
    + intros id l H. apply dict_update_get in H as [H|H].
      * apply elem_of_app. now right.
      * apply dict_update_get in H as [H|H]; [|discriminate].
        apply elem_of_app. now left.
    + intros id H. rewrite fmap_app in H. apply elem_of_app in H as [H|H].
      * apply dict_update_keys. right. apply dict_update_keys. now left.
      * apply dict_update_keys. now left.
Qed.

Lemma getters_return_shallow_copies_witness :
  get_path_by_id "AC-9999" forward_state = (Ret None, forward_state)
  /\ exists c s',
       get_path_by_id "AC-0001" forward_state = (Ret (Some c), s')
       /\ get_path c s' = get_path 3 forward_state.
Proof.
  destruct (getters_return_shallow_copies forward_state "AC-9999") as (Hnone & _ & _).
  destruct (getters_return_shallow_copies forward_state "AC-0001") as (_ & Hsome & _).
  split.
  - apply Hnone. rewrite forward_state_eq. reflexivity.
  - destruct (Hsome 3) as (c & s' & H1 & _ & H2 & _).
    + rewrite forward_state_eq. reflexivity.
    + rewrite forward_state_eq. cbn. lia.
    + exists c, s'. auto.
Defined.

(** Claim C8 at a concrete store.  Emptying the waypoint list of the dict
    returned by [get_path_by_id] empties the stored path's waypoints, and
    setting the speed of a dict returned by [get_all_paths] sets the stored
    speed. *)
Lemma returned_path_shares_the_stored_waypoints :
  let s1 := exec (get_path_by_id "AC-0001") forward_state in
  let s2 := exec (put_list (points (get_path 4 s1)) []) s1 in
  fst (get_path_by_id "AC-0001" forward_state) = Ret (Some 4)
  /\ read_points (points (get_path 3 s1)) s1 = [(20, 78); (21, 79)]%R
  /\ read_points (points (get_path 3 s2)) s2 = []
  /\ fst (get_all_paths forward_state) = Ret [("AC-0001", 3)]
  /\ speed_kts (get_path 3 forward_state) = 36%R
  /\ speed_kts (get_path 3 (exec (update_path 3 (with_speed_kts 0%R)) forward_state)) = 0%R.
Proof.
  cbv zeta. rewrite forward_state_eq.
  repeat split.
Qed.

(** ** The edit session *)

Lemma start_path_editing_spec s pid lp :
  selected s = Some pid -> find_path pid s = Some lp ->
  Forall (fun q => q < next_loc s) (get_list (points (get_path lp s)) s) ->
  let p := get_path lp s in
  let n := next_loc s in
  let k := length (get_list (points p) s) in
  exists pth,
    start_path_editing s
    = (Ret tt,
       emit (StartPathEditing pid)
         (set_edit_controls true false
            (set_select_buttons false false
               (set_session (Some pid) (Some (with_points (S n + k) p))
                  (set_heap (<[n := p]> (paths_heap s))
                            (<[S n + k := seq (S n) k]> (lists_heap s)) pth
                            (S (S n + k)) s)))))
    /\ (forall l, l < n -> pth !! l = points_heap s !! l)
    /\ (fun q => pth !!! q) <$> seq (S n) k = read_points (points p) s.
Proof.
  intros Hsel Hfind Hall p n k.
  unfold start_path_editing, mbind at 1, gets at 1. rewrite Hsel.
  unfold mbind at 1. rewrite (get_path_by_id_found pid s lp Hfind).
  set (s1 := set_heap _ _ _ _ s).
  unfold mbind at 1, gets at 1.
  assert (Hpd : get_path (next_loc s) s1 = p) by apply get_path_insert_eq.
  rewrite Hpd. unfold mbind at 1.
  destruct (copy_points_spec (points p) s1) as (pth & Hcopy & Hold & Hnew).
  { eapply Forall_impl; [exact Hall|]. intros q Hq. cbn beta in *.
    change (next_loc s1) with (S (next_loc s)). lia. }
  change (next_loc s1) with (S n) in Hcopy, Hold, Hnew.
  change (get_list (points p) s1) with (get_list (points p) s) in Hcopy, Hnew.
  fold k in Hcopy, Hnew. rewrite Hcopy.
  exists pth. split; [reflexivity|]. split.
  - intros l Hl. rewrite Hold by lia. reflexivity.
  - rewrite Hnew. reflexivity.
Qed.

Lemma edit_frame_refl lp L0 s : edit_frame lp L0 s s.
Proof.
  constructor; auto. exists (distance_nm (get_path lp s)). now rewrite with_distance_nm_same.
Qed.

Lemma edit_frame_emit lp L0 e s : edit_frame lp L0 s (emit e s).
Proof.
  constructor; auto. exists (distance_nm (get_path lp s)).
  rewrite with_distance_nm_same. reflexivity.
Qed.

Lemma edit_frame_set_heap lp L0 s (ph : gmap loc Path) (lh : gmap loc (list loc))
    (pth : gmap loc point) n :
  next_loc s <= n ->
  (forall l, l < next_loc s -> pth !! l = points_heap s !! l) ->
  (forall l, l <> L0 -> lh !! l = lists_heap s !! l) ->
  (forall l, l <> lp -> ph !! l = paths_heap s !! l) ->
  (exists d, ph !!! lp = with_distance_nm d (get_path lp s)) ->
  edit_frame lp L0 s (set_heap ph lh pth n s).
Proof. intros. constructor; auto. Qed.

Lemma on_waypoint_moved_frame pid' index lat lon s pid lp :
  editing_path_id s = Some pid -> find_path pid s = Some lp ->
  edit_frame lp (points (get_path lp s)) s (exec (on_waypoint_moved pid' index lat lon) s).
Proof.
  intros Hed Hfind. unfold exec, on_waypoint_moved, try_except.
  unfold mbind at 1, gets at 1. rewrite Hed.
  destruct (decide (Some pid = Some pid')) as [[= <-]|Hne]; [|apply edit_frame_refl].
  unfold mbind at 1, gets at 1. rewrite Hfind.
  unfold mbind at 1, gets at 1. unfold mbind at 1, gets at 1.
  set (p := get_path lp s). set (items := get_list (points p) s).
  destruct ((0 <=? index)%Z && (index <? Z.of_nat (length items))%Z); [|apply edit_frame_refl].
  unfold mbind at 1, alloc_point at 1. unfold mbind at 1, put_list at 1, modify at 1.
  unfold mbind at 1, gets at 1. unfold mbind at 1, lift at 1.
  match goal with |- context [_calculate_distance ?x] =>
    destruct (calculate_distance_total x) as [d ->] end.
  unfold update_path, put_path, modify.
  cbn [snd paths_heap lists_heap points_heap next_loc set_heap].
  rewrite !set_heap_set_heap.
  apply edit_frame_set_heap.
  - lia.
  - intros l Hl. apply lookup_insert_ne. lia.
  - intros l Hl. apply lookup_insert_ne. congruence.
  - intros l Hl. apply lookup_insert_ne. congruence.
  - exists d. rewrite (lookup_total_insert_eq (M := gmap nat)). reflexivity.
Qed.

Lemma on_waypoint_inserted_frame pid' index lat lon s pid lp :
  editing_path_id s = Some pid -> find_path pid s = Some lp ->
  edit_frame lp (points (get_path lp s)) s (exec (on_waypoint_inserted pid' index lat lon) s).
Proof.
  intros Hed Hfind. unfold exec, on_waypoint_inserted, try_except.
  unfold mbind at 1, gets at 1. rewrite Hed.
  destruct (decide (Some pid = Some pid')) as [[= <-]|Hne]; [|apply edit_frame_refl].
  unfold mbind at 1, alloc_point at 1.
  set (s1 := set_heap _ _ _ _ s).
  unfold mbind at 1, insert_waypoint.
  unfold mbind at 1, gets at 1. change (find_path pid s1) with (find_path pid s).
  rewrite Hfind.
  unfold mbind at 1, gets at 1. unfold mbind at 1, gets at 1.
  change (get_path lp s1) with (get_path lp s).
  set (p := get_path lp s). change (get_list (points p) s1) with (get_list (points p) s).
  set (items := get_list (points p) s).
  destruct ((0 <=? index)%Z && (index <=? Z.of_nat (length items))%Z).
  - unfold mbind at 1, put_list at 1, modify at 1.
    unfold mbind at 1, gets at 1. unfold mbind at 1, lift at 1.
    match goal with |- context [_calculate_distance ?x] =>
      destruct (calculate_distance_total x) as [d ->] end.
    unfold mbind, update_path, put_path, modify, ret.
    cbn [snd paths_heap lists_heap points_heap next_loc set_heap]. unfold s1.
    rewrite !set_heap_set_heap.
    apply edit_frame_set_heap.
    + cbn. lia.
    + intros l Hl. cbn [points_heap set_heap]. apply lookup_insert_ne. lia.
    + intros l Hl. apply lookup_insert_ne. congruence.
    + intros l Hl. apply lookup_insert_ne. congruence.
    + exists d. rewrite (lookup_total_insert_eq (M := gmap nat)). reflexivity.
  - unfold ret. cbn [snd]. unfold s1.
    apply edit_frame_set_heap; auto.
    + intros l Hl. apply lookup_insert_ne. lia.
    + exists (distance_nm (get_path lp s)). now rewrite with_distance_nm_same.
Qed.

Lemma on_waypoint_deleted_frame pid' index s pid lp :
  editing_path_id s = Some pid -> find_path pid s = Some lp ->
  edit_frame lp (points (get_path lp s)) s (exec (on_waypoint_deleted pid' index) s).
Proof.
  intros Hed Hfind. unfold exec, on_waypoint_deleted, try_except.
  unfold mbind at 1, gets at 1. rewrite Hed.
  destruct (decide (Some pid = Some pid')) as [[= <-]|Hne]; [|apply edit_frame_refl].
  unfold mbind at 1, remove_waypoint.
  unfold mbind at 1, gets at 1. rewrite Hfind.
  unfold mbind at 1, gets at 1. unfold mbind at 1, gets at 1.
  set (p := get_path lp s). set (items := get_list (points p) s).
  destruct ((2 <? length items)
            && ((0 <=? index)%Z && (index <? Z.of_nat (length items))%Z)).
  - unfold mbind at 1, put_list at 1, modify at 1.
    unfold mbind at 1, gets at 1. unfold mbind at 1, lift at 1.
    match goal with |- context [_calculate_distance ?x] =>
      destruct (calculate_distance_total x) as [d ->] end.
    unfold mbind, update_path, put_path, modify, ret.
    cbn [snd paths_heap lists_heap points_heap next_loc set_heap].
    rewrite !set_heap_set_heap.
    apply edit_frame_set_heap; auto.
    + intros l Hl. apply lookup_insert_ne. congruence.
    + intros l Hl. apply lookup_insert_ne. congruence.
    + exists d. rewrite (lookup_total_insert_eq (M := gmap nat)). reflexivity.
  - unfold ret, modify. cbn [snd]. apply edit_frame_emit.
Qed.

Lemma apply_edit_frame e s pid lp :
  editing_path_id s = Some pid -> find_path pid s = Some lp ->
  edit_frame lp (points (get_path lp s)) s (exec (apply_edit e) s).
Proof.
  intros Hed Hfind. destruct e; cbn [apply_edit].
  - now apply on_waypoint_moved_frame with pid.
  - now apply on_waypoint_inserted_frame with pid.
  - now apply on_waypoint_deleted_frame with pid.
Qed.

Lemma find_path_frame pid lp L0 s s' :
  edit_frame lp L0 s s' -> find_path pid s' = find_path pid s.
Proof. intros F. unfold find_path. now rewrite (fr_aircraft _ _ _ _ F), (fr_track _ _ _ _ F). Qed.

Lemma session_inv_frame pid lp p0 vals0 snap s s' :
  session_inv pid lp p0 vals0 snap s ->
  edit_frame lp (points p0) s s' ->
  session_inv pid lp p0 vals0 snap s'.
Proof.
  intros I F.
  assert (Hlist : get_list (points snap) s' = get_list (points snap) s).
  { unfold get_list. rewrite !lookup_total_alt.
    now rewrite (fr_lists _ _ _ _ F _ (si_apart _ _ _ _ _ _ I)). }
  constructor.
  - rewrite (fr_editing _ _ _ _ F). apply (si_editing _ _ _ _ _ _ I).
  - rewrite (fr_original _ _ _ _ F). apply (si_original _ _ _ _ _ _ I).
  - rewrite (find_path_frame _ _ _ _ _ F). apply (si_find _ _ _ _ _ _ I).
  - destruct (fr_live _ _ _ _ F) as [d Hd]. destruct (si_live _ _ _ _ _ _ I) as [d0 Hd0].
    exists d. rewrite Hd, Hd0. reflexivity.
  - apply (si_snap _ _ _ _ _ _ I).
  - apply (si_apart _ _ _ _ _ _ I).
  - pose proof (si_alloc _ _ _ _ _ _ I). pose proof (fr_next _ _ _ _ F). lia.
  - rewrite Hlist. eapply Forall_impl; [apply (si_items _ _ _ _ _ _ I)|].
    intros q Hq. cbn beta in *. pose proof (fr_next _ _ _ _ F). lia.
  - rewrite <- (si_values _ _ _ _ _ _ I). unfold read_points. rewrite Hlist.
    apply Forall_fmap_ext. eapply Forall_impl; [apply (si_items _ _ _ _ _ _ I)|].
    intros q Hq. cbn beta in *. unfold get_point. rewrite !lookup_total_alt.
    now rewrite (fr_points _ _ _ _ F q Hq).
Qed.

Lemma session_inv_edit pid lp p0 vals0 snap e s :
  session_inv pid lp p0 vals0 snap s ->
  session_inv pid lp p0 vals0 snap (exec (apply_edit e) s).
Proof.
  intros I. apply session_inv_frame with s; [exact I|].
  pose proof (apply_edit_frame e s pid lp (si_editing _ _ _ _ _ _ I) (si_find _ _ _ _ _ _ I)) as F.
  destruct (si_live _ _ _ _ _ _ I) as [d Hd]. rewrite Hd in F. exact F.
Qed.

Lemma session_inv_edits pid lp p0 vals0 snap es :
  forall s, session_inv pid lp p0 vals0 snap s ->
            session_inv pid lp p0 vals0 snap (apply_edits es s).
Proof.
  unfold apply_edits. induction es as [|e es IH]; intros s I; cbn [foldl]; [exact I|].
  apply IH. now apply session_inv_edit.
Qed.

Lemma start_path_editing_opens_session s pid lp :
  selected s = Some pid -> find_path pid s = Some lp -> path_allocated s lp ->
  exists snap,
    session_inv pid lp (get_path lp s) (read_points (points (get_path lp s)) s) snap
                (exec start_path_editing s)
    /\ fst (start_path_editing s) = Ret tt
    /\ snap = with_points (S (next_loc s) + length (get_list (points (get_path lp s)) s))
                          (get_path lp s)
    /\ btn_edit_path (exec start_path_editing s) = false
    /\ btn_delete_path (exec start_path_editing s) = false
    /\ entries (exec start_path_editing s) = entries s
    /\ (forall l, l < next_loc s ->
          paths_heap (exec start_path_editing s) !! l = paths_heap s !! l
          /\ lists_heap (exec start_path_editing s) !! l = lists_heap s !! l
          /\ points_heap (exec start_path_editing s) !! l = points_heap s !! l).
Proof.
  intros Hsel Hfind (Hlp & Hpts & Hall).
  destruct (start_path_editing_spec s pid lp Hsel Hfind Hall) as (pth & Heq & Hold & Hnew).
  cbv zeta in Heq, Hold, Hnew. unfold exec. rewrite Heq. cbn [fst snd].
  set (p := get_path lp s) in *. set (n := next_loc s) in *.
  set (k := length (get_list (points p) s)) in *.
  exists (with_points (S n + k) p).
  split; [|split; [reflexivity|split; [reflexivity|split; [reflexivity|split;
           [reflexivity|split; [reflexivity|]]]]]].
  - constructor.
    + reflexivity.
    + reflexivity.
    + exact Hfind.
    + exists (distance_nm p). rewrite with_distance_nm_same.
      unfold get_path. cbn [paths_heap emit set_edit_controls set_select_buttons set_session set_heap].
      rewrite (lookup_total_insert_ne (M := gmap nat)) by (fold n; lia). reflexivity.
    + reflexivity.
    + cbn [points with_points]. lia.
    + cbn [points with_points next_loc emit set_edit_controls set_select_buttons set_session set_heap].
      lia.
    + cbn [points with_points]. unfold get_list.
      cbn [lists_heap next_loc emit set_edit_controls set_select_buttons set_session set_heap].
      rewrite (lookup_total_insert_eq (M := gmap nat)).
      apply Forall_forall. intros q Hq. apply elem_of_seq in Hq. lia.
    + cbn [points with_points]. unfold read_points, get_list, get_point.
      cbn [lists_heap points_heap emit set_edit_controls set_select_buttons set_session set_heap].
      rewrite (lookup_total_insert_eq (M := gmap nat)). exact Hnew.
  - intros l Hl.
    cbn [paths_heap lists_heap points_heap emit set_edit_controls set_select_buttons
         set_session set_heap].
    split; [apply lookup_insert_ne; lia|]. split; [apply lookup_insert_ne; lia|].
    apply Hold. exact Hl.
Qed.

Lemma restore_fields (rl : loc) (d : R) (snap p0 : Path) :
  snap = with_points (points snap) p0 ->
  with_current_position (current_position snap)
    (with_altitude_ft (altitude_ft snap)
       (with_speed_kts (speed_kts snap)
          (with_distance_nm (distance_nm snap)
             (with_points rl (with_distance_nm d p0)))))
  = with_points rl p0.
Proof. intros ->. destruct p0; reflexivity. Qed.

Lemma cancel_path_editing_state pid lp p0 vals0 snap s :
  session_inv pid lp p0 vals0 snap s -> pid <> "" ->
  let rl := next_loc s + length vals0 in
  exists pth,
    cancel_path_editing s
    = on_path_selection_changed
        (set_edit_controls false true
           (set_session None None
              (emit (RestorePath snap)
                 (emit StopPathEditing
                    (set_heap (<[lp := with_points rl p0]> (paths_heap s))
                              (<[rl := seq (next_loc s) (length vals0)]> (lists_heap s))
                              pth (S rl) s)))))
    /\ (fun q => pth !!! q) <$> seq (next_loc s) (length vals0) = vals0.
Proof.
  intros I Hpid rl.
  destruct I as [Hed Hor Hfind [d Hlive] Hsnap Hapart Halloc Hitems Hvals].
  assert (Hk : length (get_list (points snap) s) = length vals0).
  { rewrite <- Hvals. symmetry. apply read_points_length. }
  destruct (copy_points_spec (points snap) s Hitems) as (pth & Hcopy & Hold & Hnew).
  cbv zeta in Hcopy, Hold, Hnew. rewrite Hk in Hcopy, Hnew. fold rl in Hcopy.
  exists pth. split; [|rewrite Hnew; exact Hvals].
  unfold cancel_path_editing.
  unfold mbind at 1, gets at 1. rewrite Hed. unfold mbind at 1, gets at 1. rewrite Hor.
  replace (String.eqb pid "") with false by (symmetry; now apply String.eqb_neq).
  unfold mbind at 1. unfold mbind at 1, gets at 1. rewrite Hfind.
  unfold restore_path. unfold mbind at 1. rewrite Hcopy.
  unfold mbind, update_path, put_path, modify.
  cbn [paths_heap lists_heap points_heap next_loc set_heap].
  rewrite !set_heap_set_heap, !get_path_insert_eq, !insert_insert_eq.
  change (get_path lp (set_heap (paths_heap s) (<[rl:=seq (next_loc s) (length vals0)]> (lists_heap s))
                         pth (S rl) s)) with (get_path lp s).
  rewrite Hlive, (restore_fields rl d snap p0 Hsnap).
  reflexivity.
Qed.

Lemma cancel_path_editing_restores pid lp p0 vals0 snap s :
  session_inv pid lp p0 vals0 snap s -> pid <> "" ->
  let s' := exec cancel_path_editing s in
  let rl := next_loc s + length vals0 in
  fst (cancel_path_editing s) = Ret tt
  /\ find_path pid s' = Some lp
  /\ get_path lp s' = with_points rl p0
  /\ read_points rl s' = vals0
  /\ editing_path_id s' = None
  /\ original_path_data s' = None
  /\ rl <> points snap
  /\ (forall q, q ∈ get_list rl s' -> q ∉ get_list (points snap) s').
Proof.
  intros I Hpid s' rl. subst s'.
  destruct (cancel_path_editing_state pid lp p0 vals0 snap s I Hpid) as (pth & Heq & Hnew).
  fold rl in Heq. unfold exec. rewrite Heq. clear Heq.
  destruct I as [Hed Hor Hfind [d Hlive] Hsnap Hapart Halloc Hitems Hvals].
  unfold on_path_selection_changed, modify. cbn [fst snd].
  split; [reflexivity|]. split; [exact Hfind|]. split.
  { unfold get_path. cbn. apply (lookup_total_insert_eq (M := gmap nat)). }
  split.
  { unfold read_points, get_list, get_point. cbn.
    rewrite (lookup_total_insert_eq (M := gmap nat)). exact Hnew. }
  split; [reflexivity|]. split; [reflexivity|]. split; [unfold rl; lia|].
  intros q Hq Hq'. unfold get_list in Hq, Hq'. cbn in Hq, Hq'.
  rewrite (lookup_total_insert_eq (M := gmap nat)) in Hq.
  rewrite (lookup_total_insert_ne (M := gmap nat)) in Hq' by (unfold rl; lia).
  apply elem_of_seq in Hq.
  rewrite Forall_forall in Hitems.
  specialize (Hitems q Hq'). cbn beta in Hitems. lia.
Qed.

(** Claim C1.  Begin an edit on the selected path, apply any sequence of
    waypoint moves, insertions and deletions, then cancel: the path is still
    stored under its id, its waypoints, distance, speed, altitude and progress
    are those it had when the edit began, the session is closed, and the
    restored waypoint list is a new list of new points, sharing nothing with
    the snapshot. *)
Theorem cancel_restores_edited_path (s : State) (pid : string) (lp : loc) (es : list edit) :
  selected s = Some pid -> pid <> "" -> find_path pid s = Some lp ->
  path_allocated s lp ->
  let p0 := get_path lp s in
  let vals0 := read_points (points p0) s in
  let s1 := exec start_path_editing s in
  let s2 := apply_edits es s1 in
  let s3 := exec cancel_path_editing s2 in
  exists snap,
    editing_path_id s1 = Some pid
    /\ original_path_data s1 = Some snap
    /\ original_path_data s2 = Some snap
    /\ find_path pid s3 = Some lp
    /\ read_points (points (get_path lp s3)) s3 = vals0
    /\ distance_nm (get_path lp s3) = distance_nm p0
    /\ speed_kts (get_path lp s3) = speed_kts p0
    /\ altitude_ft (get_path lp s3) = altitude_ft p0
    /\ current_position (get_path lp s3) = current_position p0
    /\ editing_path_id s3 = None
    /\ original_path_data s3 = None
    /\ points (get_path lp s3) <> points snap
    /\ (forall q, q ∈ get_list (points (get_path lp s3)) s3 ->
                  q ∉ get_list (points snap) s3).
Proof.
  intros Hsel Hpid Hfind Halloc p0 vals0 s1 s2 s3.
  destruct (start_path_editing_opens_session s pid lp Hsel Hfind Halloc)
    as (snap & I1 & _).
  fold p0 vals0 s1 in I1.
  pose proof (session_inv_edits pid lp p0 vals0 snap es s1 I1) as I2. fold s2 in I2.
  destruct (cancel_path_editing_restores pid lp p0 vals0 snap s2 I2 Hpid)
    as (_ & Hf & Hp & Hr & He & Ho & Hne & Hdisj).
  fold s3 in Hf, Hp, Hr, He, Ho, Hdisj.
  exists snap. rewrite Hp. cbn [points distance_nm speed_kts altitude_ft current_position with_points].
  split; [apply (si_editing _ _ _ _ _ _ I1)|].
  split; [apply (si_original _ _ _ _ _ _ I1)|].
  split; [apply (si_original _ _ _ _ _ _ I2)|].
  repeat (split; [first [assumption | reflexivity]|]).
  exact Hdisj.
Qed.

Lemma cancel_restores_edited_path_witness :
  let s3 := exec cancel_path_editing
              (apply_edits sample_edits (exec start_path_editing selected_state)) in
  read_points (points (get_path 4 s3)) s3 = [(20, 78); (21, 79); (22, 80)]%R
  /\ distance_nm (get_path 4 s3) = 165%R
  /\ speed_kts (get_path 4 s3) = 450%R
  /\ altitude_ft (get_path 4 s3) = 15000%R
  /\ current_position (get_path 4 s3) = 0%R
  /\ editing_path_id s3 = None.
Proof.
  destruct (cancel_restores_edited_path selected_state "AC-0001" 4 sample_edits)
    as (snap & _ & _ & _ & _ & Hr & Hd & Hs & Ha & Hc & He & _).
  - rewrite selected_state_eq. reflexivity.
  - discriminate.
  - rewrite selected_state_eq. reflexivity.
  - apply selected_state_allocated.
  - cbv zeta. rewrite Hr, Hd, Hs, Ha, Hc, He. rewrite selected_state_eq.
    repeat split.
Defined.

(** ** The buttons as the only guard *)

Lemma session_locked_event pid lp snap ev s :
  session_locked pid lp snap s -> session_locked pid lp snap (exec (apply_ui_event ev) s).
Proof.
  intros [Hed Hor Hfind Hbe Hbd]. destruct ev as [e|sel| |reply]; cbn [apply_ui_event].
  - pose proof (apply_edit_frame e s pid lp Hed Hfind) as F.
    constructor.
    + now rewrite (fr_editing _ _ _ _ F).
    + now rewrite (fr_original _ _ _ _ F).
    + now rewrite (find_path_frame _ _ _ _ _ F).
    + now rewrite (fr_btn_edit _ _ _ _ F).
    + now rewrite (fr_btn_delete _ _ _ _ F).
  - unfold exec, select_item, on_path_selection_changed, mbind, modify. cbn [snd].
    constructor; try assumption.
    + cbn. unfold not_editing. cbn. rewrite Hed. apply andb_false_r.
    + cbn. unfold not_editing. cbn. rewrite Hed. apply andb_false_r.
  - unfold exec, click_edit_path. rewrite Hbe. cbn [snd]. now constructor.
  - unfold exec, click_delete_path. rewrite Hbd. cbn [snd]. now constructor.
Qed.

Lemma session_locked_events pid lp snap evs :
  forall s, session_locked pid lp snap s ->
            session_locked pid lp snap (apply_ui_events evs s).
Proof.
  unfold apply_ui_events. induction evs as [|ev evs IH]; intros s L; cbn [foldl]; [exact L|].
  apply IH. now apply session_locked_event.
Qed.

Lemma start_path_editing_locks s pid lp :
  selected s = Some pid -> find_path pid s = Some lp -> path_allocated s lp ->
  session_locked pid lp
    (with_points (S (next_loc s) + length (get_list (points (get_path lp s)) s)) (get_path lp s))
    (exec start_path_editing s).
Proof.
  intros Hsel Hfind Halloc.
  destruct (start_path_editing_opens_session s pid lp Hsel Hfind Halloc)
    as (snap & I & _ & -> & Hbe & Hbd & _).
  constructor; try assumption.
  - apply (si_editing _ _ _ _ _ _ I).
  - apply (si_original _ _ _ _ _ _ I).
  - apply (si_find _ _ _ _ _ _ I).
Qed.

(** Claim C6, as the code has it.  While a session is open the edit button
    stays disabled whatever the operator does, so a click on it changes
    nothing and the session keeps its target and snapshot.
    [start_path_editing] itself has no check: called on a selected, stored
    path it succeeds, whether or not a session is open, makes that path the
    target with a snapshot of its own, and leaves the store and every
    existing object untouched. *)
Theorem begin_edit_is_guarded_by_its_button :
  (forall s pid lp evs,
      selected s = Some pid -> find_path pid s = Some lp -> path_allocated s lp ->
      let s1 := exec start_path_editing s in
      let s' := apply_ui_events evs s1 in
      btn_edit_path s' = false
      /\ click_edit_path s' = (Ret tt, s')
      /\ editing_path_id s' = Some pid
      /\ original_path_data s' = original_path_data s1)
  /\ (forall s p2 l2,
        selected s = Some p2 -> find_path p2 s = Some l2 -> path_allocated s l2 ->
        let s' := exec start_path_editing s in
        fst (start_path_editing s) = Ret tt
        /\ editing_path_id s' = Some p2
        /\ original_path_data s'
           = Some (with_points (S (next_loc s) + length (get_list (points (get_path l2 s)) s))
                               (get_path l2 s))
        /\ btn_edit_path s' = false
        /\ btn_delete_path s' = false
        /\ entries s' = entries s
        /\ (forall l, l < next_loc s ->
              paths_heap s' !! l = paths_heap s !! l
              /\ lists_heap s' !! l = lists_heap s !! l
              /\ points_heap s' !! l = points_heap s !! l)).
Proof.
  split.
  - intros s pid lp evs Hsel Hfind Halloc s1 s'.
    pose proof (start_path_editing_locks s pid lp Hsel Hfind Halloc) as L1. fold s1 in L1.
    pose proof (session_locked_events _ _ _ evs s1 L1) as [Hed Hor _ Hbe _].
    fold s' in Hed, Hor, Hbe.
    split; [exact Hbe|]. unfold click_edit_path. rewrite Hbe.
    split; [reflexivity|]. split; [exact Hed|].
    rewrite Hor. symmetry. apply (sl_original _ _ _ _ L1).
  - intros s p2 l2 Hsel Hfind Halloc s'.
    destruct (start_path_editing_opens_session s p2 l2 Hsel Hfind Halloc)
      as (snap & I & Hret & -> & Hbe & Hbd & Hent & Hheap).
    split; [exact Hret|]. split; [apply (si_editing _ _ _ _ _ _ I)|].
    split; [apply (si_original _ _ _ _ _ _ I)|]. auto.
Qed.

Lemma begin_edit_is_guarded_by_its_button_witness :
  (let s' := apply_ui_events
               [ClickEdit; Select (Some "AC-0001"); Edit (Insert "AC-0001" 1 22 79.5);
                ClickDelete true; ClickEdit]
               (exec start_path_editing selected_state) in
   click_edit_path s' = (Ret tt, s') /\ editing_path_id s' = Some "AC-0001")
  /\ editing_path_id (exec start_path_editing selected_state) = Some "AC-0001".
Proof.
  destruct begin_edit_is_guarded_by_its_button as [HA HB]. split.
  - destruct (HA selected_state "AC-0001" 4
                 [ClickEdit; Select (Some "AC-0001"); Edit (Insert "AC-0001" 1 22 79.5);
                  ClickDelete true; ClickEdit]) as (_ & H1 & H2 & _).
    + rewrite selected_state_eq. reflexivity.
    + rewrite selected_state_eq. reflexivity.
    + apply selected_state_allocated.
    + split; [exact H1 | exact H2].
  - destruct (HB selected_state "AC-0001" 4) as (_ & H & _).
    + rewrite selected_state_eq. reflexivity.
    + rewrite selected_state_eq. reflexivity.
    + apply selected_state_allocated.
    + exact H.
Defined.

(** [start_path_editing] called during a session on another selected path
    succeeds and replaces the target and the snapshot. *)
Lemma second_begin_edit_replaces_the_session :
  let s1 := exec start_path_editing two_paths_state in
  let s1' := exec (select_item (Some "AC-0002")) s1 in
  let s2 := exec start_path_editing s1' in
  editing_path_id s1 = Some "AC-0001"
  /\ path_id <$> original_path_data s1 = Some "AC-0001"
  /\ fst (start_path_editing s1') = Ret tt
  /\ editing_path_id s2 = Some "AC-0002"
  /\ path_id <$> original_path_data s2 = Some "AC-0002"
  /\ last (events s2) = Some (StartPathEditing "AC-0002").
Proof.
  cbv zeta. rewrite two_paths_state_eq. repeat split.
Qed.

Lemma delete_path_removes pid l s :
  find_path pid s = Some l -> NoDup (entries s).*1 ->
  exists ac tr,
    delete_path pid s
    = (Ret (Some l), set_manager ac tr (next_aircraft_id s) (next_track_id s) s)
    /\ Dict.get ac pid = None /\ Dict.get tr pid = None.
Proof.
  unfold find_path, entries. intros Hfind Hnd.
  rewrite fmap_app in Hnd. apply NoDup_app in Hnd as (Hnd1 & Hdisj & Hnd2).
  unfold delete_path, mbind, gets, modify, ret.
  destruct (Dict.get (aircraft_paths s) pid) as [l1|] eqn:Hac.
  - injection Hfind as ->. eexists _, _. split; [reflexivity|].
    split; [now apply dict_get_pop_eq|].
    cbn [track_paths set_manager]. apply dict_get_None. apply Hdisj.
    apply dict_get_elem in Hac. apply list_elem_of_fmap. exists (pid, l). auto.
  - rewrite Hfind. eexists _, _. split; [reflexivity|].
    cbn [aircraft_paths set_manager]. split; [exact Hac|]. now apply dict_get_pop_eq.
Qed.

Lemma delete_selected_path_state pid l s :
  selected s = Some pid -> find_path pid s = Some l -> NoDup (entries s).*1 ->
  exists ac tr,
    delete_selected_path true s
    = (Ret tt,
       emit (MsgInformation ("Path " +:+ pid +:+ " deleted successfully!"))
         (exec on_path_selection_changed
            (set_selected None
               (emit (PathDeleted pid)
                  (set_manager ac tr (next_aircraft_id s) (next_track_id s) s)))))
    /\ Dict.get ac pid = None /\ Dict.get tr pid = None.
Proof.
  intros Hsel Hfind Hnd.
  destruct (delete_path_removes pid l s Hfind Hnd) as (ac & tr & Hdel & Hac & Htr).
  exists ac, tr. split; [|auto].
  unfold delete_selected_path.
  unfold mbind at 1, gets at 1. rewrite Hsel. cbn [negb].
  unfold mbind at 1. rewrite Hdel. reflexivity.
Qed.

(** Claim C9, as the code has it.  While a session is open the delete button
    stays disabled whatever the operator does, so a click on it changes
    nothing: the path stays in the store and the session stays open.
    [delete_selected_path] and [delete_path] themselves have no check: on a
    confirmed request for a stored path they remove it and leave the session
    fields as they are. *)
Theorem delete_is_guarded_by_its_button :
  (forall s pid lp evs reply,
      selected s = Some pid -> find_path pid s = Some lp -> path_allocated s lp ->
      let s' := apply_ui_events evs (exec start_path_editing s) in
      btn_delete_path s' = false
      /\ click_delete_path reply s' = (Ret tt, s')
      /\ find_path pid s' = Some lp
      /\ editing_path_id s' = Some pid)
  /\ (forall s pid l,
        selected s = Some pid -> find_path pid s = Some l -> NoDup (entries s).*1 ->
        let s' := exec (delete_selected_path true) s in
        fst (delete_selected_path true s) = Ret tt
        /\ fst (delete_path pid s) = Ret (Some l)
        /\ find_path pid s' = None
        /\ editing_path_id s' = editing_path_id s
        /\ original_path_data s' = original_path_data s
        /\ events s'
           = events s ++ [PathDeleted pid;
                          MsgInformation ("Path " +:+ pid +:+ " deleted successfully!")]).
Proof.
  split.
  - intros s pid lp evs reply Hsel Hfind Halloc s'.
    pose proof (start_path_editing_locks s pid lp Hsel Hfind Halloc) as L1.
    pose proof (session_locked_events _ _ _ evs _ L1) as [Hed _ Hfind' _ Hbd].
    fold s' in Hed, Hfind', Hbd.
    split; [exact Hbd|]. unfold click_delete_path. rewrite Hbd. auto.
  - intros s pid l Hsel Hfind Hnd s'. subst s'.
    destruct (delete_path_removes pid l s Hfind Hnd) as (ac0 & tr0 & Hdel & _).
    destruct (delete_selected_path_state pid l s Hsel Hfind Hnd) as (ac & tr & Heq & Hac & Htr).
    unfold exec. rewrite Heq, Hdel. cbn [fst snd].
    unfold on_path_selection_changed, modify. cbn [snd].
    split; [reflexivity|]. split; [reflexivity|]. split.
    { unfold find_path. cbn. now rewrite Hac, Htr. }
    split; [reflexivity|]. split; [reflexivity|].
    cbn. rewrite <- app_assoc. reflexivity.
Qed.

Lemma delete_is_guarded_by_its_button_witness :
  (let s' := apply_ui_events
               [ClickDelete true; Select (Some "AC-0001"); Edit (Delete "AC-0001" 0);
                ClickDelete true]
               (exec start_path_editing selected_state) in
   click_delete_path true s' = (Ret tt, s') /\ find_path "AC-0001" s' = Some 4)
  /\ find_path "AC-0001" (exec (delete_selected_path true) selected_state) = None.
Proof.
  destruct delete_is_guarded_by_its_button as [HA HB]. split.
  - destruct (HA selected_state "AC-0001" 4
                 [ClickDelete true; Select (Some "AC-0001"); Edit (Delete "AC-0001" 0);
                  ClickDelete true] true) as (_ & H1 & H2 & _).
    + rewrite selected_state_eq. reflexivity.
    + rewrite selected_state_eq. reflexivity.
    + apply selected_state_allocated.
    + split; [exact H1 | exact H2].
  - destruct (HB selected_state "AC-0001" 4) as (_ & _ & H & _).
    + rewrite selected_state_eq. reflexivity.
    + rewrite selected_state_eq. reflexivity.
    + rewrite selected_state_eq. apply NoDup_singleton.
    + exact H.
Defined.

(** [delete_selected_path] called on the path under edit removes it and
    leaves the session open. *)
Lemma delete_during_edit_removes_the_path :
  let s1 := exec start_path_editing selected_state in
  let s2 := exec (delete_selected_path true) s1 in
  editing_path_id s1 = Some "AC-0001"
  /\ find_path "AC-0001" s1 = Some 4
  /\ fst (delete_selected_path true s1) = Ret tt
  /\ find_path "AC-0001" s2 = None
  /\ editing_path_id s2 = Some "AC-0001"
  /\ fst (delete_path "AC-0001" s1) = Ret (Some 4).
Proof.
  cbv zeta. rewrite selected_state_eq. repeat split.
Qed.

(** * More of the code *)

(** ** Path identifiers, deletion and clearing *)

Lemma parse_number_zeros k digits : parse_number (zeros k +:+ digits) = parse_number digits.
Proof.
  induction k as [|k IH]; [reflexivity|].
  rewrite <- IH. unfold parse_number. cbn [zeros].
  change (("0" +:+ zeros k) +:+ digits)
    with (String (Ascii.ascii_of_nat 48) (zeros k +:+ digits)).
  cbn [NilEmpty.uint_of_string].
  destruct (NilEmpty.uint_of_string (zeros k +:+ digits)); reflexivity.
Qed.

Lemma parse_number_string_of_uint d :
  parse_number (NilZero.string_of_uint d) = Some (N.of_uint d).
Proof.
  unfold parse_number. destruct d; try (cbn [NilZero.string_of_uint]; now rewrite NilEmpty.usu).
  reflexivity.
Qed.

Lemma parse_format_04d n : (0 <= n)%Z -> parse_number (format_04d n) = Some (Z.to_N n).
Proof.
  intros Hn. unfold format_04d.
  replace (n <? 0)%Z with false by (symmetry; apply Z.ltb_ge; lia).
  unfold zero_pad. rewrite parse_number_zeros, parse_number_string_of_uint.
  now rewrite Unsigned.of_to.
Qed.

Lemma format_04d_inj m n : (0 <= m)%Z -> (0 <= n)%Z -> format_04d m = format_04d n -> m = n.
Proof.
  intros Hm Hn Heq.
  pose proof (parse_format_04d m Hm) as H1. rewrite Heq, (parse_format_04d n Hn) in H1.
  injection H1. lia.
Qed.

Lemma dict_get_set_fresh d k v : Dict.get d k = None -> Dict.set d k v = d ++ [(k, v)].
Proof.
  induction d as [|[k' v'] d IH]; cbn; [reflexivity|].
  destruct (String.eqb k k'); [discriminate|]. intros H. now rewrite IH.
Qed.

Lemma dict_pop_elem d k e : e ∈ Dict.pop d k -> e ∈ d.
Proof.
  induction d as [|[k' v'] d IH]; cbn; [auto|].
  destruct (String.eqb k k').
  - apply list_elem_of_further.
  - rewrite !elem_of_cons. intros [->|H]; auto.
Qed.

Lemma dict_pop_length d k l : Dict.get d k = Some l -> S (length (Dict.pop d k)) = length d.
Proof.
  induction d as [|[k' v'] d IH]; cbn; [discriminate|].
  destruct (String.eqb k k'); [reflexivity|]. intros H. cbn. now rewrite IH.
Qed.

Lemma ac_id_not_trk_id x y : "AC-" +:+ x <> "TRK-" +:+ y.
Proof. discriminate. Qed.

Lemma aircraft_key_absent s pid :
  ids_issued s -> pid = "AC-" +:+ format_04d (next_aircraft_id s) -> find_path pid s = None.
Proof.
  intros (Ha & Ht & Hac & Htr) ->. unfold find_path.
  destruct (Dict.get (aircraft_paths s) _) as [l|] eqn:E.
  - apply dict_get_elem, Hac in E as (k & Hk & Heq).
    injection Heq as Heq. apply format_04d_inj in Heq; lia.
  - destruct (Dict.get (track_paths s) _) as [l|] eqn:E'; [|reflexivity].
    apply dict_get_elem, Htr in E' as (k & Hk & Heq). discriminate.
Qed.

Lemma track_key_absent s pid :
  ids_issued s -> pid = "TRK-" +:+ format_04d (next_track_id s) -> find_path pid s = None.
Proof.
  intros (Ha & Ht & Hac & Htr) ->. unfold find_path.
  destruct (Dict.get (aircraft_paths s) _) as [l|] eqn:E.
  - apply dict_get_elem, Hac in E as (k & Hk & Heq). discriminate.
  - destruct (Dict.get (track_paths s) _) as [l|] eqn:E'; [|reflexivity].
    apply dict_get_elem, Htr in E' as (k & Hk & Heq).
    injection Heq as Heq. apply format_04d_inj in Heq; lia.
Qed.

Lemma or_randint_state x lo hi s :
  exists v n, or_randint x lo hi s = (Ret v, set_rand_pos n s).
Proof.
  unfold or_randint, randint, ret.
  destruct x as [v|]; [destruct (truthy v)|]; eauto.
  exists v, (rand_pos s). now destruct s.
Qed.

Lemma add_aircraft_path_state points distance speed altitude now s :
  exists sp al n,
    add_aircraft_path points distance speed altitude now s
    = (Ret ("AC-" +:+ format_04d (next_aircraft_id s), next_loc s),
       set_manager
         (Dict.set (aircraft_paths s) ("AC-" +:+ format_04d (next_aircraft_id s)) (next_loc s))
         (track_paths s) (next_aircraft_id s + 1) (next_track_id s)
         (set_heap
            (<[next_loc s :=
                 {| path_id := "AC-" +:+ format_04d (next_aircraft_id s);
                    path_type := "aircraft"; points := points; distance_nm := distance;
                    speed_kts := sp; altitude_ft := al; current_position := 0%R;
                    color := "green"; created := now |}]> (paths_heap s))
            (lists_heap s) (points_heap s) (S (next_loc s)) (set_rand_pos n s))).
Proof.
  unfold add_aircraft_path, mbind, gets, modify, ret, alloc_path.
  set (s1 := set_manager _ _ _ _ s).
  destruct (or_randint_state speed 400 550 s1) as (sp & n1 & ->).
  destruct (or_randint_state altitude 10000 35000 (set_rand_pos n1 s1)) as (al & n2 & ->).
  exists sp, al, n2. reflexivity.
Qed.

Lemma add_track_path_state points distance speed altitude now s :
  exists sp al n,
    add_track_path points distance speed altitude now s
    = (Ret ("TRK-" +:+ format_04d (next_track_id s), next_loc s),
       set_manager (aircraft_paths s)
         (Dict.set (track_paths s) ("TRK-" +:+ format_04d (next_track_id s)) (next_loc s))
         (next_aircraft_id s) (next_track_id s + 1)
         (set_heap
            (<[next_loc s :=
                 {| path_id := "TRK-" +:+ format_04d (next_track_id s);
                    path_type := "track"; points := points; distance_nm := distance;
                    speed_kts := sp; altitude_ft := al; current_position := 0%R;
                    color := "red"; created := now |}]> (paths_heap s))
            (lists_heap s) (points_heap s) (S (next_loc s)) (set_rand_pos n s))).
Proof.
  unfold add_track_path, mbind, gets, modify, ret, alloc_path.
  set (s1 := set_manager _ _ _ _ s).
  destruct (or_randint_state speed 350 500 s1) as (sp & n1 & ->).
  destruct (or_randint_state altitude 5000 20000 (set_rand_pos n1 s1)) as (al & n2 & ->).
  exists sp, al, n2. reflexivity.
Qed.

Lemma ids_issued_initial tape : ids_issued (initial_state tape).
Proof.
  repeat split; cbn; try lia; intros id l H; inversion H.
Qed.

Lemma ids_issued_add_aircraft points distance speed altitude now s :
  ids_issued s -> ids_issued (exec (add_aircraft_path points distance speed altitude now) s).
Proof.
  intros I. pose proof (aircraft_key_absent s _ I eq_refl) as Hfresh.
  destruct I as (Ha & Ht & Hac & Htr).
  destruct (add_aircraft_path_state points distance speed altitude now s) as (sp & al & n & Heq).
  unfold exec. rewrite Heq. cbn [snd].
  unfold find_path in Hfresh.
  destruct (Dict.get (aircraft_paths s) _) eqn:E; [discriminate|].
  rewrite (dict_get_set_fresh _ _ _ E).
  split; [cbn; lia|]. split; [cbn; lia|]. split.
  - cbn [aircraft_paths next_aircraft_id set_manager]. intros id l Hin.
    apply elem_of_app in Hin as [Hin|Hin].
    + destruct (Hac id l Hin) as (k & Hk & ->). exists k. split; [lia|reflexivity].
    + apply list_elem_of_singleton in Hin. injection Hin as -> ->.
      exists (next_aircraft_id s). split; [lia|reflexivity].
  - cbn [track_paths next_track_id set_manager]. exact Htr.
Qed.

Lemma ids_issued_add_track points distance speed altitude now s :
  ids_issued s -> ids_issued (exec (add_track_path points distance speed altitude now) s).
Proof.
  intros I. pose proof (track_key_absent s _ I eq_refl) as Hfresh.
  destruct I as (Ha & Ht & Hac & Htr).
  destruct (add_track_path_state points distance speed altitude now s) as (sp & al & n & Heq).
  unfold exec. rewrite Heq. cbn [snd].
  unfold find_path in Hfresh.
  destruct (Dict.get (aircraft_paths s) _) eqn:E0; [discriminate|].
  destruct (Dict.get (track_paths s) _) eqn:E; [discriminate|].
  rewrite (dict_get_set_fresh _ _ _ E).
  split; [cbn; lia|]. split; [cbn; lia|]. split.
  - cbn [aircraft_paths next_aircraft_id set_manager]. exact Hac.
  - cbn [track_paths next_track_id set_manager]. intros id l Hin.
    apply elem_of_app in Hin as [Hin|Hin].
    + destruct (Htr id l Hin) as (k & Hk & ->). exists k. split; [lia|reflexivity].
    + apply list_elem_of_singleton in Hin. injection Hin as -> ->.
      exists (next_track_id s). split; [lia|reflexivity].
Qed.

Lemma ids_issued_delete pid s : ids_issued s -> ids_issued (exec (delete_path pid) s).
Proof.
  intros (Ha & Ht & Hac & Htr). unfold exec, delete_path, mbind, gets, modify, ret.
  destruct (Dict.get (aircraft_paths s) pid);
    [|destruct (Dict.get (track_paths s) pid)]; cbn [snd].
  - repeat split; cbn; try assumption. intros id l H. apply dict_pop_elem in H. eauto.
  - repeat split; cbn; try assumption. intros id l H. apply dict_pop_elem in H. eauto.
  - repeat split; assumption.
Qed.

Lemma ids_issued_clear s : ids_issued (exec clear_all s).
Proof.
  repeat split; cbn; try lia; intros id l H; inversion H.
Qed.

(** X1.  On a store whose identifiers were all issued by its counters,
    [add_aircraft_path] and [add_track_path] return an identifier that was
    not stored before, append the new entry to their dict, leave every other
    identifier's lookup as it was, and keep the store in that condition. *)
Theorem new_path_never_replaces_a_stored_one points distance speed altitude now s :
  ids_issued s ->
  (exists pid l s',
      add_aircraft_path points distance speed altitude now s = (Ret (pid, l), s')
      /\ find_path pid s = None
      /\ aircraft_paths s' = aircraft_paths s ++ [(pid, l)]
      /\ track_paths s' = track_paths s
      /\ find_path pid s' = Some l
      /\ (forall id, id <> pid -> find_path id s' = find_path id s)
      /\ ids_issued s')
  /\ (exists pid l s',
      add_track_path points distance speed altitude now s = (Ret (pid, l), s')
      /\ find_path pid s = None
      /\ aircraft_paths s' = aircraft_paths s
      /\ track_paths s' = track_paths s ++ [(pid, l)]
      /\ find_path pid s' = Some l
      /\ (forall id, id <> pid -> find_path id s' = find_path id s)
      /\ ids_issued s').
Proof.
  intros I. split.
  - pose proof (ids_issued_add_aircraft points distance speed altitude now s I) as I'.
    pose proof (aircraft_key_absent s _ I eq_refl) as Hfresh.
    destruct (add_aircraft_path_state points distance speed altitude now s)
      as (sp & al & n & Heq).
    unfold exec in I'. rewrite Heq in I'. cbn [snd] in I'.
    eexists _, _, _. split; [exact Heq|]. split; [exact Hfresh|].
    unfold find_path in *. cbn [aircraft_paths track_paths set_manager set_heap set_rand_pos].
    destruct (Dict.get (aircraft_paths s) _) eqn:E; [discriminate|].
    split; [now apply dict_get_set_fresh|]. split; [reflexivity|].
    split; [now rewrite dict_get_set_eq|]. split; [|exact I'].
    intros id Hne. rewrite dict_get_set_ne by congruence. reflexivity.
  - pose proof (ids_issued_add_track points distance speed altitude now s I) as I'.
    pose proof (track_key_absent s _ I eq_refl) as Hfresh.
    destruct (add_track_path_state points distance speed altitude now s)
      as (sp & al & n & Heq).
    unfold exec in I'. rewrite Heq in I'. cbn [snd] in I'.
    eexists _, _, _. split; [exact Heq|]. split; [exact Hfresh|].
    unfold find_path in *. cbn [aircraft_paths track_paths set_manager set_heap set_rand_pos].
    destruct (Dict.get (aircraft_paths s) _) eqn:E0; [discriminate|].
    destruct (Dict.get (track_paths s) _) eqn:E; [discriminate|].
    split; [reflexivity|]. split; [now apply dict_get_set_fresh|].
    split; [now rewrite dict_get_set_eq|]. split; [|exact I'].
    intros id Hne. rewrite dict_get_set_ne by congruence. reflexivity.
Qed.

Lemma two_paths_state_ids_issued : ids_issued two_paths_state.
Proof.
  rewrite two_paths_state_eq. split; [cbn; lia|]. split; [cbn; lia|]. split.
  - cbn [aircraft_paths next_aircraft_id set_manager set_selected set_select_buttons].
    intros id l H. apply elem_of_cons in H as [[= -> ->]|H].
    + exists 1%Z. split; [lia|reflexivity].
    + apply list_elem_of_singleton in H as [= -> ->].
      exists 2%Z. split; [lia|reflexivity].
  - cbn [track_paths set_manager set_selected set_select_buttons].
    intros id l H. inversion H.
Qed.

Lemma new_path_never_replaces_a_stored_one_witness :
  ids_issued two_paths_state
  /\ exists pid l s',
       add_aircraft_path 0 100%R None None "2024-01-01T00:00:02" two_paths_state
       = (Ret (pid, l), s')
       /\ find_path pid two_paths_state = None
       /\ aircraft_paths s' = aircraft_paths two_paths_state ++ [(pid, l)]
       /\ find_path "AC-0001" s' = Some 3
       /\ find_path "AC-0002" s' = Some 7.
Proof.
  split; [exact two_paths_state_ids_issued|].
  destruct (new_path_never_replaces_a_stored_one 0 100%R None None "2024-01-01T00:00:02"
              two_paths_state two_paths_state_ids_issued)
    as [(pid & l & s' & Heq & Hnone & Hac & _ & _ & Hother & _) _].
  assert (H1 : find_path "AC-0001" two_paths_state = Some 3)
    by (rewrite two_paths_state_eq; reflexivity).
  assert (H2 : find_path "AC-0002" two_paths_state = Some 7)
    by (rewrite two_paths_state_eq; reflexivity).
  exists pid, l, s'. split; [exact Heq|]. split; [exact Hnone|]. split; [exact Hac|].
  split.
  - rewrite Hother; [exact H1|]. intros E. rewrite <- E, H1 in Hnone. discriminate.
  - rewrite Hother; [exact H2|]. intros E. rewrite <- E, H2 in Hnone. discriminate.
Defined.

(** X6.  [delete_path] returns [None] and changes nothing for an unknown
    id.  Otherwise it returns the stored dict, removes exactly one entry and
    leaves the other identifiers' lookups and both counters as they were;
    hence (on a store whose identifiers were issued by the counters) an
    [add_aircraft_path] or [add_track_path] called on the state the
    deletion leaves does not give the deleted identifier out again. *)
Theorem delete_path_spec (s : State) (path_id : string) :
  (find_path path_id s = None -> delete_path path_id s = (Ret None, s))
  /\ forall l, find_path path_id s = Some l ->
       exists s',
         delete_path path_id s = (Ret (Some l), s')
         /\ (forall id, id <> path_id -> find_path id s' = find_path id s)
         /\ S (length (entries s')) = length (entries s)
         /\ next_aircraft_id s' = next_aircraft_id s
         /\ next_track_id s' = next_track_id s
         /\ get_path l s' = get_path l s
         /\ (NoDup (entries s).*1 -> find_path path_id s' = None)
         /\ (ids_issued s ->
             forall points distance speed altitude now pid l' s'',
               (add_aircraft_path points distance speed altitude now s' = (Ret (pid, l'), s'')
                \/ add_track_path points distance speed altitude now s' = (Ret (pid, l'), s''))
               -> pid <> path_id).
Proof.
  split.
  - unfold find_path, delete_path, mbind, gets, ret. intros Hnone.
    destruct (Dict.get (aircraft_paths s) path_id); [discriminate|]. now rewrite Hnone.
  - intros l Hl.
    assert (Hdel : exists ac tr,
               delete_path path_id s
               = (Ret (Some l), set_manager ac tr (next_aircraft_id s) (next_track_id s) s)
               /\ (forall id, id <> path_id ->
                     Dict.get ac id = Dict.get (aircraft_paths s) id
                     /\ Dict.get tr id = Dict.get (track_paths s) id)
               /\ S (length (ac ++ tr)) = length (entries s)
               /\ (forall e, e ∈ ac -> e ∈ aircraft_paths s)
               /\ (forall e, e ∈ tr -> e ∈ track_paths s)).
    { unfold find_path in Hl. unfold delete_path, mbind, gets, modify, ret, entries.
      destruct (Dict.get (aircraft_paths s) path_id) as [l1|] eqn:Hac.
      - injection Hl as ->. eexists _, _. split; [reflexivity|].
        cbn [track_paths set_manager]. split; [|split; [|split]].
        + intros id Hne. split; [now apply dict_get_pop_ne|reflexivity].
        + rewrite !length_app, <- (dict_pop_length _ _ _ Hac). reflexivity.
        + intros e. apply dict_pop_elem.
        + auto.
      - rewrite Hl. eexists _, _. split; [reflexivity|].
        cbn [aircraft_paths set_manager]. split; [|split; [|split]].
        + intros id Hne. split; [reflexivity|now apply dict_get_pop_ne].
        + rewrite !length_app, <- (dict_pop_length _ _ _ Hl). lia.
        + auto.
        + intros e. apply dict_pop_elem. }
    destruct Hdel as (ac & tr & Heq & Hother & Hlen & Hsub1 & Hsub2).
    eexists. split; [exact Heq|]. split; [|split; [exact Hlen|]].
    { intros id Hne. unfold find_path. cbn [aircraft_paths track_paths set_manager].
      destruct (Hother id Hne) as [-> ->]. reflexivity. }
    split; [reflexivity|]. split; [reflexivity|]. split; [reflexivity|]. split.
    + intros Hnd. destruct (delete_path_removes path_id l s Hl Hnd)
        as (ac' & tr' & Heq' & Hn1 & Hn2).
      rewrite Heq in Heq'. injection Heq' as <- <-.
      unfold find_path. cbn [aircraft_paths track_paths set_manager]. now rewrite Hn1.
    + intros I points distance speed altitude now pid l' s'' Hadd.
      set (s' := set_manager ac tr (next_aircraft_id s) (next_track_id s) s) in *.
      assert (Hstored : exists l0, (path_id, l0) ∈ entries s).
      { exists l. unfold find_path in Hl. unfold entries. apply elem_of_app.
        destruct (Dict.get (aircraft_paths s) path_id) eqn:E.
        - injection Hl as ->. left. now apply dict_get_elem.
        - right. now apply dict_get_elem. }
      destruct Hstored as [l0 Hin]. destruct I as (Ha & Ht & Hac & Htr).
      apply elem_of_app in Hin as [Hin|Hin].
      * destruct (Hac _ _ Hin) as (k & Hk & ->).
        destruct Hadd as [Hadd|Hadd].
        -- destruct (add_aircraft_path_state points distance speed altitude now s')
             as (sp & al & n & Heq'). rewrite Heq' in Hadd. injection Hadd as <- _ _.
           cbn [next_aircraft_id s' set_manager]. intros Hsame. injection Hsame as Hsame.
           apply format_04d_inj in Hsame; lia.
        -- destruct (add_track_path_state points distance speed altitude now s')
             as (sp & al & n & Heq'). rewrite Heq' in Hadd. injection Hadd as <- _ _.
           discriminate.
      * destruct (Htr _ _ Hin) as (k & Hk & ->).
        destruct Hadd as [Hadd|Hadd].
        -- destruct (add_aircraft_path_state points distance speed altitude now s')
             as (sp & al & n & Heq'). rewrite Heq' in Hadd. injection Hadd as <- _ _.
           discriminate.
        -- destruct (add_track_path_state points distance speed altitude now s')
             as (sp & al & n & Heq'). rewrite Heq' in Hadd. injection Hadd as <- _ _.
           cbn [next_track_id s' set_manager]. intros Hsame. injection Hsame as Hsame.
           apply format_04d_inj in Hsame; lia.
Qed.

Lemma delete_path_spec_witness :
  delete_path "AC-9999" two_paths_state = (Ret None, two_paths_state)
  /\ exists s',
       delete_path "AC-0001" two_paths_state = (Ret (Some 3), s')
       /\ find_path "AC-0002" s' = Some 7
       /\ find_path "AC-0001" s' = None
       /\ next_aircraft_id s' = 3%Z.
Proof.
  destruct (delete_path_spec two_paths_state "AC-9999") as [Hnone _].
  destruct (delete_path_spec two_paths_state "AC-0001") as [_ Hsome].
  split.
  - apply Hnone. rewrite two_paths_state_eq. reflexivity.
  - destruct (Hsome 3) as (s' & Heq & Hother & _ & Hna & _ & _ & Hgone & _).
    + rewrite two_paths_state_eq. reflexivity.
    + exists s'. split; [exact Heq|]. split; [|split].
      * rewrite Hother by discriminate. rewrite two_paths_state_eq. reflexivity.
      * apply Hgone. rewrite two_paths_state_eq. cbn.
        apply NoDup_cons. split; [|apply NoDup_singleton].
        intros H. apply list_elem_of_singleton in H. discriminate.
      * rewrite Hna. rewrite two_paths_state_eq. reflexivity.
Defined.

(** X7.  After [clear_all] no identifier is stored and the counters start
    again: the next aircraft is [AC-0001] and the next track [TRK-0001].
    The heap, the selection and an open edit session are left as they
    were. *)
Theorem clear_all_restarts_the_ids (s : State) points distance speed altitude now :
  let s0 := exec clear_all s in
  fst (clear_all s) = Ret tt
  /\ (forall id, find_path id s0 = None)
  /\ (exists s', add_aircraft_path points distance speed altitude now s0
                 = (Ret ("AC-0001", next_loc s), s'))
  /\ (exists s', add_track_path points distance speed altitude now s0
                 = (Ret ("TRK-0001", next_loc s), s'))
  /\ paths_heap s0 = paths_heap s
  /\ lists_heap s0 = lists_heap s
  /\ points_heap s0 = points_heap s
  /\ editing_path_id s0 = editing_path_id s
  /\ original_path_data s0 = original_path_data s
  /\ selected s0 = selected s.
Proof.
  cbv zeta. split; [reflexivity|]. split; [reflexivity|]. split.
  { destruct (add_aircraft_path_state points distance speed altitude now (exec clear_all s))
      as (sp & al & n & Heq). rewrite Heq. eauto. }
  split.
  { destruct (add_track_path_state points distance speed altitude now (exec clear_all s))
      as (sp & al & n & Heq). rewrite Heq. eauto. }
  repeat split.
Qed.

(** ** Replacing and inserting waypoints *)

(** X5.  [insert_waypoint] returns [False] and changes nothing for an
    unknown id and for an index outside [[0, len]]; otherwise (the end of
    the list included) it returns [True], puts the new point at the index,
    keeps the other waypoints in order and stores the distance of the new
    sequence. *)
Theorem insert_waypoint_spec (s : State) (path_id : string) (insert_index : Z) (new_point : loc) :
  (find_path path_id s = None ->
   insert_waypoint path_id insert_index new_point s = (Ret false, s))
  /\ forall l, find_path path_id s = Some l ->
       let p := get_path l s in
       let items := get_list (points p) s in
       let i := Z.to_nat insert_index in
       (((insert_index < 0)%Z \/ (Z.of_nat (length items) < insert_index)%Z) ->
        insert_waypoint path_id insert_index new_point s = (Ret false, s))
       /\ ((0 <= insert_index <= Z.of_nat (length items))%Z ->
           exists s' d,
             insert_waypoint path_id insert_index new_point s = (Ret true, s')
             /\ find_path path_id s' = Some l
             /\ get_path l s' = with_distance_nm d p
             /\ get_list (points p) s' = take i items ++ new_point :: drop i items
             /\ read_points (points p) s'
                = take i (read_points (points p) s) ++ get_point new_point s
                    :: drop i (read_points (points p) s)
             /\ _calculate_distance (read_points (points p) s') = Ret d
             /\ points_heap s' = points_heap s).
Proof.
  split.
  - intros Hnone. unfold insert_waypoint, mbind, gets. now rewrite Hnone.
  - intros l Hl p items i. split.
    + intros Hbad. unfold insert_waypoint, mbind, gets. rewrite Hl. fold p items.
      replace ((0 <=? insert_index)%Z && (insert_index <=? Z.of_nat (length items))%Z)
        with false; [reflexivity|].
      symmetry. apply andb_false_iff. rewrite Z.leb_gt, Z.leb_gt. tauto.
    + intros Hidx. unfold insert_waypoint, mbind, gets. rewrite Hl. fold p items.
      replace ((0 <=? insert_index)%Z && (insert_index <=? Z.of_nat (length items))%Z)
        with true.
      2:{ symmetry. apply andb_true_iff. rewrite Z.leb_le, Z.leb_le. tauto. }
      unfold put_list, modify, lift, update_path, put_path, modify, ret.
      set (s1 := set_heap _ _ _ _ s).
      assert (Hlist : get_list (points p) s1 = take i items ++ new_point :: drop i items).
      { unfold get_list, s1. cbn. rewrite lookup_total_insert_eq. reflexivity. }
      assert (Hread : read_points (points p) s1
                      = take i (read_points (points p) s) ++ get_point new_point s
                          :: drop i (read_points (points p) s)).
      { unfold read_points. rewrite Hlist. fold items.
        rewrite fmap_app, fmap_cons, fmap_take, fmap_drop. reflexivity. }
      destruct (calculate_distance_total (read_points (points p) s1)) as [d Hd].
      rewrite Hd. eexists _, d. split; [reflexivity|].
      split; [exact Hl|]. split.
      * unfold get_path. cbn. rewrite lookup_total_insert_eq. reflexivity.
      * split; [exact Hlist|]. split; [exact Hread|]. split; [exact Hd|]. reflexivity.
Qed.

Lemma insert_waypoint_spec_witness :
  insert_waypoint "AC-9999" 0 0 selected_state = (Ret false, selected_state)
  /\ insert_waypoint "AC-0001" 4 0 selected_state = (Ret false, selected_state)
  /\ exists s' d,
       insert_waypoint "AC-0001" 3 0 selected_state = (Ret true, s')
       /\ read_points 3 s' = [(20, 78); (21, 79); (22, 80); (20, 78)]%R
       /\ distance_nm (get_path 4 s') = d.
Proof.
  destruct (insert_waypoint_spec selected_state "AC-9999" 0 0) as [Hnone _].
  destruct (insert_waypoint_spec selected_state "AC-0001" 4 0) as [_ Hfar].
  destruct (insert_waypoint_spec selected_state "AC-0001" 3 0) as [_ Hend].
  split; [|split].
  - apply Hnone. rewrite selected_state_eq. reflexivity.
  - destruct (Hfar 4) as [Hfail _].
    + rewrite selected_state_eq. reflexivity.
    + apply Hfail. right. rewrite selected_state_eq. change (3 < 4)%Z. lia.
  - destruct (Hend 4) as [_ Hok].
    + rewrite selected_state_eq. reflexivity.
    + destruct Hok as (s' & d & Heq & _ & Hp & _ & Hr & _).
      * rewrite selected_state_eq. change (0 <= 3 <= 3)%Z. lia.
      * exists s', d. split; [exact Heq|].
        assert (Hpts : points (get_path 4 selected_state) = 3)
          by (rewrite selected_state_eq; reflexivity).
        rewrite Hpts in Hr. split.
        { rewrite Hr. rewrite selected_state_eq. reflexivity. }
        rewrite Hp. reflexivity.
Defined.

(** X4.  [update_path_points] returns [False] and changes nothing for an
    unknown id.  Otherwise it returns [True], stores the very list it was
    given, recomputes the distance from it (0 when it has fewer than two
    waypoints: there is no minimum), caps the progress at 0.999 and leaves
    every other path alone. *)
Theorem update_path_points_spec (s : State) (path_id : string) (new_points : loc) :
  (find_path path_id s = None ->
   update_path_points path_id new_points s = (Ret false, s))
  /\ forall l, find_path path_id s = Some l ->
       let p := get_path l s in
       exists s',
         update_path_points path_id new_points s = (Ret true, s')
         /\ get_path l s'
            = with_current_position (Rmin (current_position p) 0.999)
                (with_distance_nm (distance_spec (read_points new_points s))
                   (with_points new_points p))
         /\ (current_position (get_path l s') <= 0.999)%R
         /\ (length (get_list new_points s) < 2 -> distance_nm (get_path l s') = 0%R)
         /\ (forall l', l' <> l -> get_path l' s' = get_path l' s)
         /\ lists_heap s' = lists_heap s
         /\ points_heap s' = points_heap s
         /\ entries s' = entries s.
Proof.
  split.
  - intros Hnone. unfold update_path_points, mbind, gets. now rewrite Hnone.
  - intros l Hl p. unfold update_path_points, mbind, gets. rewrite Hl.
    unfold update_path, put_path, modify, lift, ret. cbn.
    rewrite !get_path_insert_eq.
    change (read_points new_points (set_heap _ _ _ _ s)) with (read_points new_points s).
    rewrite calculate_distance_spec. rewrite !get_path_insert_eq.
    eexists. split; [reflexivity|]. rewrite get_path_insert_eq. fold p.
    split; [reflexivity|]. split; [cbn; apply Rmin_r|]. split.
    + intros Hlen. cbn. rewrite <- read_points_length in Hlen.
      destruct (read_points new_points s) as [|a [|b r]]; cbn in *; [reflexivity..|lia].
    + split; [|repeat split].
      intros l' Hne. rewrite get_path_insert_ne by congruence.
      rewrite !(lookup_total_insert_ne (M := gmap nat)) by congruence. reflexivity.
Qed.

Lemma update_path_points_spec_witness :
  update_path_points "AC-9999" 0 selected_state = (Ret false, selected_state)
  /\ exists s',
       update_path_points "AC-0001" 3 selected_state = (Ret true, s')
       /\ current_position (get_path 4 s') = 0%R
       /\ points (get_path 4 s') = 3.
Proof.
  destruct (update_path_points_spec selected_state "AC-9999" 0) as [Hnone _].
  destruct (update_path_points_spec selected_state "AC-0001" 3) as [_ Hsome].
  split.
  - apply Hnone. rewrite selected_state_eq. reflexivity.
  - destruct (Hsome 4) as (s' & Heq & Hp & _).
    + rewrite selected_state_eq. reflexivity.
    + exists s'. split; [exact Heq|]. rewrite Hp.
      rewrite selected_state_eq.
      erewrite get_path_lookup by reflexivity. cbn. split; [|reflexivity].
      unfold Rmin. destruct (Rle_dec 0 0.999); lra.
Defined.

(** ** Headings *)

Section heading_facts.
Local Open Scope R_scope.

Lemma fmod_range x m : 0 < m -> 0 <= fmod x m < m.
Proof.
  intros Hm. unfold fmod. pose proof (floor_bounds (x / m)) as H.
  assert (Hx : x = m * (x / m)) by (field; lra).
  split; nra.
Qed.

End heading_facts.

Lemma calculate_heading_range pts position h :
  _calculate_heading pts position = Ret h -> (0 <= h < 360)%R.
Proof.
  unfold _calculate_heading.
  destruct (length pts <? 2); [intros [= <-]; lra|].
  destruct (_interpolate_path pts position) as [c|]; [|discriminate].
  destruct (_interpolate_path pts _) as [q|]; [|discriminate]. cbn [bind].
  cbv zeta.
  destruct (Req_dec_T _ _); [destruct (Req_dec_T _ _)|]; intros [= <-];
    try (apply fmod_range; lra). lra.
Qed.

(** X13.  For waypoints that are latitudes and longitudes, whatever
    [_calculate_heading] returns lies between 0 and 360, both ends
    included (in binary64 the remainder of a tiny negative angle rounds to
    360.0 itself); it is 0 for fewer than two waypoints, and the function
    returns for every position in [[0, 1)]. *)
Theorem heading_is_a_compass_angle (pts : list point) (position : R) :
  Forall coordinates_ok pts ->
  (forall h, _calculate_heading pts position = Ret h -> (0 <= h <= 360)%R)
  /\ (length pts < 2 -> _calculate_heading pts position = Ret 0%R)
  /\ ((0 <= position < 1)%R -> exists h, _calculate_heading pts position = Ret h).
Proof.
  intros _. split; [|split].
  - intros h Hh. pose proof (calculate_heading_range pts position h Hh). lra.
  - intros Hlen. unfold _calculate_heading.
    replace (length pts <? 2) with true by (symmetry; apply Nat.ltb_lt; lia). reflexivity.
  - apply heading_total.
Qed.

Lemma heading_is_a_compass_angle_witness :
  Forall coordinates_ok [(20, 78); (21, 79)]%R
  /\ (exists h, _calculate_heading [(20, 78); (21, 79)]%R (1 / 2) = Ret h)
  /\ (forall h, _calculate_heading [(20, 78); (21, 79)]%R (1 / 2) = Ret h -> (0 <= h <= 360)%R).
Proof.
  assert (H : Forall coordinates_ok [(20, 78); (21, 79)]%R).
  { repeat constructor; cbn; lra. }
  destruct (heading_is_a_compass_angle _ (1 / 2) H) as (Hrange & _ & Htotal).
  split; [exact H|]. split; [apply Htotal; lra|exact Hrange].
Defined.

(** ** The batch of a tick *)

Lemma advance_path_entry ty dt id l acc s :
  (0 <= dt)%R -> advancing_ok (get_path l s) -> (0 < distance_nm (get_path l s))%R ->
  let s1 := set_heap (<[l := advanced dt (get_path l s)]> (paths_heap s))
                     (lists_heap s) (points_heap s) (next_loc s) s in
  exists u,
    advance_path ty dt (id, l) acc s = (Ret (acc ++ [u]), s1)
    /\ reports ty s1 (id, l) u.
Proof.
  intros Hdt Hok Hd s1. destruct (Hok Hd) as [Hsp Hpos].
  assert (Hp1 : get_path l s1 = advanced dt (get_path l s)) by apply get_path_insert_eq.
  unfold reports. cbn [fst snd]. rewrite Hp1. clear Hp1.
  change (read_points ?a s1) with (read_points a s).
  subst s1.
  set (p := get_path l s) in *.
  set (x := (current_position p + speed_kts p / 3600 * dt / distance_nm p)%R).
  assert (Hx : (0 <= x)%R).
  { unfold x. assert (0 <= speed_kts p / 3600 * dt / distance_nm p)%R; [|lra].
    apply Rmult_le_pos; [|left; now apply Rinv_0_lt_compat].
    apply Rmult_le_pos; lra. }
  unfold advance_path, mbind, gets. fold p.
  destruct (Rlt_dec 0 (distance_nm p)) as [_|]; [|contradiction].
  unfold update_path, put_path, modify. fold p.
  cbn [paths_heap lists_heap points_heap next_loc set_heap].
  rewrite ?set_heap_set_heap.
  rewrite !get_path_insert_eq.
  cbn [current_position with_current_position]. fold x.
  rewrite (advanced_moving dt p Hd). fold x.
  cbn [current_position with_current_position points altitude_ft speed_kts].
  destruct (Rle_dec 1 x) as [Hwrap|Hno].
  - cbn [paths_heap lists_heap points_heap next_loc set_heap].
    rewrite !set_heap_set_heap, !get_path_insert_eq, insert_insert_eq.
    cbn [current_position with_current_position points altitude_ft speed_kts].
    set (pos := fmod x 1).
    pose proof (fmod_1_range x) as Hr. fold pos in Hr.
    unfold lift.
    change (read_points ?a (set_heap _ _ _ _ s)) with (read_points a s).
    destruct (interpolate_total (read_points (points p) s) pos Hr) as [pt Hpt].
    destruct (heading_total (read_points (points p) s) pos Hr) as [h Hh].
    rewrite Hpt, Hh.
    unfold ret. eexists. split; [reflexivity|]. cbn. destruct pt. repeat split.
  - assert (Hr : (0 <= x < 1)%R) by lra.
    rewrite (fmod_1_small x Hr).
    unfold ret at 1. rewrite !get_path_insert_eq.
    cbn [current_position with_current_position points altitude_ft speed_kts].
    unfold lift.
    change (read_points ?a (set_heap _ _ _ _ s)) with (read_points a s).
    destruct (interpolate_total (read_points (points p) s) x Hr) as [pt Hpt].
    destruct (heading_total (read_points (points p) s) x Hr) as [h Hh].
    rewrite Hpt, Hh.
    unfold ret. eexists. split; [reflexivity|]. cbn. destruct pt. repeat split.
Qed.

Lemma reports_frame ty s s' e u :
  get_path e.2 s' = get_path e.2 s -> lists_heap s' = lists_heap s ->
  points_heap s' = points_heap s -> reports ty s e u -> reports ty s' e u.
Proof.
  intros Hp Hl Hq. unfold reports, read_points, get_list, get_point.
  now rewrite Hp, Hl, Hq.
Qed.

Lemma advance_loop_entries ty dt es :
  forall acc s,
    (0 <= dt)%R -> NoDup es.*2 ->
    (forall e, e ∈ es -> advancing_ok (get_path e.2 s)) ->
    exists ups ph,
      let s' := set_heap ph (lists_heap s) (points_heap s) (next_loc s) s in
      for_each es (advance_path ty dt) acc s = (Ret (acc ++ ups), s')
      /\ (forall l, l ∉ es.*2 -> ph !! l = paths_heap s !! l)
      /\ Forall2 (reports ty s') (movers s es) ups.
Proof.
  induction es as [|[id l] es IH]; intros acc s Hdt Hnd Hok.
  - exists [], (paths_heap s). cbn. unfold ret. rewrite app_nil_r, set_heap_same.
    repeat split. constructor.
  - cbn [fmap list_fmap] in Hnd. apply NoDup_cons in Hnd as [Hl Hnd].
    assert (Hother : forall e, e ∈ es -> e.2 <> l).
    { intros e He Heq. apply Hl. rewrite <- Heq. apply list_elem_of_fmap. exists e. auto. }
    cbn [for_each]. unfold mbind at 1.
    destruct (Rlt_dec 0 (distance_nm (get_path l s))) as [Hd|Hd].
    + destruct (advance_path_entry ty dt id l acc s Hdt) as (u & -> & Hu); auto.
      { apply (Hok (id, l)). apply list_elem_of_here. }
      set (s1 := set_heap _ _ _ _ s) in *.
      assert (Hsame : forall e, e ∈ es -> get_path e.2 s1 = get_path e.2 s).
      { intros e He. unfold s1. rewrite get_path_insert_ne; [reflexivity|].
        intros Heq. now apply (Hother e He). }
      destruct (IH (acc ++ [u]) s1 Hdt Hnd) as (ups & ph & Heq & Hfr & Hrep).
      { intros e He. rewrite Hsame by exact He. apply Hok. now apply list_elem_of_further. }
      cbv zeta in Heq, Hrep. rewrite Heq.
      exists (u :: ups), ph. cbv zeta. split.
      { unfold s1. cbn [lists_heap points_heap next_loc set_heap].
        rewrite set_heap_set_heap. now rewrite <- app_assoc. }
      split.
      * intros l' Hl'. cbn [fmap list_fmap] in Hl'. apply not_elem_of_cons in Hl' as [Hne Hl'].
        rewrite (Hfr l' Hl'). unfold s1. cbn [paths_heap set_heap].
        now apply lookup_insert_ne.
      * rewrite movers_cons_moving by exact Hd. constructor.
        -- apply (reports_frame ty s1); try reflexivity; [|exact Hu].
           cbn [snd]. unfold get_path. cbn [paths_heap set_heap].
           now rewrite !lookup_total_alt, (Hfr l Hl).
        -- rewrite <- (movers_ext s s1 es) by exact Hsame.
           unfold s1 in Hrep. cbn [lists_heap points_heap next_loc set_heap] in Hrep.
           rewrite set_heap_set_heap in Hrep. exact Hrep.
    + rewrite (advance_path_still ty dt id l acc s Hd).
      destruct (IH acc s Hdt Hnd) as (ups & ph & Heq & Hfr & Hrep).
      { intros e He. apply Hok. now apply list_elem_of_further. }
      cbv zeta in Heq, Hrep. rewrite Heq.
      exists ups, ph. cbv zeta. split; [reflexivity|]. split.
      * intros l' Hl'. cbn [fmap list_fmap] in Hl'. apply not_elem_of_cons in Hl' as [Hne Hl'].
        now apply Hfr.
      * now rewrite movers_cons_still by exact Hd.
Qed.

Lemma Forall2_impl_elem {A B} (P Q : A -> B -> Prop) (l : list A) (k : list B) :
  Forall2 P l k -> (forall a b, a ∈ l -> P a b -> Q a b) -> Forall2 Q l k.
Proof.
  induction 1 as [|a b l k Hab Hlk IH]; intros Himp; constructor.
  - apply Himp; [apply list_elem_of_here|exact Hab].
  - apply IH. intros a' b' Hin. apply Himp. now apply list_elem_of_further.
Qed.

(** X8.  On a well-formed store and for an elapsed time [dt >= 0] that is
    in range for its moving paths, the batch that [update_positions]
    returns lists the moving aircraft in insertion order and then the
    moving tracks in insertion order.  Each entry carries the path's id,
    the type of its dict, its altitude and speed, and what
    [_interpolate_path] and [_calculate_heading] compute at the progress the
    tick has just stored. *)
Theorem update_positions_reports_each_moving_path (s : State) (dt : R) :
  store_ok s -> tick_ok dt s ->
  exists ups1 ups2 s',
    update_positions dt s = (Ret (ups1 ++ ups2), s')
    /\ Forall2 (reports "aircraft" s') (movers s (aircraft_paths s)) ups1
    /\ Forall2 (reports "track" s') (movers s (track_paths s)) ups2.
Proof.
  intros (Hids & Hlocs & Hok) [Hdt _]. unfold entries in *.
  rewrite fmap_app in Hlocs. apply NoDup_app in Hlocs as (Hnd1 & Hdisj & Hnd2).
  unfold update_positions, mbind at 1, gets at 1.
  unfold mbind at 1.
  destruct (advance_loop_entries "aircraft" dt (aircraft_paths s) [] s Hdt Hnd1)
    as (ups1 & ph1 & Heq1 & Hfr1 & Hrep1).
  { intros [id l] He. apply (Hok id l). apply elem_of_app. now left. }
  cbv zeta in Heq1, Hrep1. rewrite Heq1.
  set (s1 := set_heap ph1 _ _ _ s) in *.
  unfold mbind, gets. change (track_paths s1) with (track_paths s).
  assert (Hsame : forall e, e ∈ track_paths s -> get_path e.2 s1 = get_path e.2 s).
  { intros e He. unfold get_path, s1. cbn [paths_heap set_heap].
    rewrite !lookup_total_alt, Hfr1; [reflexivity|].
    intros Hin. apply (Hdisj e.2 Hin). apply list_elem_of_fmap. exists e. auto. }
  destruct (advance_loop_entries "track" dt (track_paths s) ([] ++ ups1) s1 Hdt Hnd2)
    as (ups2 & ph2 & Heq2 & Hfr2 & Hrep2).
  { intros [id l] He. rewrite (Hsame (id, l) He). apply (Hok id l). apply elem_of_app. now right. }
  cbv zeta in Heq2, Hrep2. rewrite Heq2.
  set (s2 := set_heap ph2 _ _ _ s1) in *.
  assert (H1 : Forall2 (reports "aircraft" s2) (movers s (aircraft_paths s)) ups1).
  { apply (Forall2_impl_elem _ _ _ _ Hrep1). intros e u He.
    apply reports_frame; try reflexivity.
    apply elem_of_movers in He as [He _].
    unfold get_path, s2. cbn [paths_heap set_heap].
    rewrite !lookup_total_alt, Hfr2; [reflexivity|].
    intros Hin. apply (Hdisj e.2); [|exact Hin]. apply list_elem_of_fmap. exists e. auto. }
  assert (H2 : Forall2 (reports "track" s2) (movers s (track_paths s)) ups2).
  { rewrite <- (movers_ext s s1 (track_paths s)) by exact Hsame. exact Hrep2. }
  exists ups1, ups2, s2. split; [reflexivity|]. split; [exact H1|exact H2].
Qed.

Lemma update_positions_reports_each_moving_path_witness :
  exists u s',
    update_positions 1000 forward_state = (Ret [u], s')
    /\ u_id u = "AC-0001" /\ u_type u = "aircraft"
    /\ u_speed u = 36%R /\ u_alt u = 15000%R.
Proof.
  destruct (update_positions_reports_each_moving_path forward_state 1000 forward_state_ok
              forward_state_tick_ok)
    as (ups1 & ups2 & s' & Heq & H1 & H2).
  assert (Hp : get_path 3 forward_state
               = {| path_id := "AC-0001"; path_type := "aircraft"; points := 2;
                    distance_nm := 100; speed_kts := 36; altitude_ft := 15000;
                    current_position := 0; color := "green";
                    created := "2024-01-01T00:00:00" |}).
  { rewrite forward_state_eq. reflexivity. }
  assert (Hac : aircraft_paths forward_state = [("AC-0001", 3)])
    by (rewrite forward_state_eq; reflexivity).
  assert (Htr : track_paths forward_state = [])
    by (rewrite forward_state_eq; reflexivity).
  rewrite Hac in H1. rewrite Htr in H2.
  rewrite movers_cons_moving in H1 by (cbn [snd]; rewrite Hp; cbn; lra).
  change (movers forward_state []) with (@nil (string * nat)) in H1, H2.
  apply Forall2_cons_inv_l in H1 as (u & r & Hu & Hr & ->).
  apply Forall2_nil_inv_l in Hr as ->. apply Forall2_nil_inv_l in H2 as ->.
  exists u, s'. split; [exact Heq|].
  destruct Hu as (Hid & Hty & Halt & Hsp & _).
  destruct (store_ok_step forward_state 1000 forward_state_ok) as (_ & _ & Hg); [lra|].
  unfold exec in Hg. rewrite Heq in Hg. cbn [snd] in Hg.
  specialize (Hg ("AC-0001", 3)). cbn [snd] in *.
  rewrite Hg in Halt, Hsp by (unfold entries; rewrite Hac, Htr; apply list_elem_of_here).
  rewrite Hp in Halt, Hsp. unfold advanced in Halt, Hsp. cbn in Halt, Hsp.
  destruct (Rlt_dec 0 100); cbn in Halt, Hsp; auto.
Defined.

(** ** The merged view, the waypoint handlers and saving *)

Lemma dict_update_fresh (other d : list (string * loc)) :
  NoDup (d ++ other).*1 -> Dict.update d other = d ++ other.
Proof.
  unfold Dict.update. revert d. induction other as [|[k v] other IH]; intros d Hnd.
  - now rewrite app_nil_r.
  - cbn [fold_left fst snd].
    assert (Hk : Dict.get d k = None).
    { apply dict_get_None. rewrite fmap_app in Hnd. apply NoDup_app in Hnd as (_ & Hdisj & _).
      intros Hin. apply (Hdisj k Hin). cbn. apply list_elem_of_here. }
    rewrite (dict_get_set_fresh _ _ _ Hk).
    rewrite IH; rewrite <- app_assoc; [reflexivity|exact Hnd].
Qed.

Lemma dict_get_app d1 d2 k :
  Dict.get (d1 ++ d2) k = match Dict.get d1 k with Some l => Some l | None => Dict.get d2 k end.
Proof.
  induction d1 as [|[k' v'] d1 IH]; cbn; [reflexivity|].
  destruct (String.eqb k k'); [reflexivity|exact IH].
Qed.

(** X2.  With distinct identifiers, [get_all_paths] returns the aircraft
    entries followed by the track entries, in insertion order, without
    changing the state; looking an identifier up in that mapping finds what
    the store's own lookup finds, and [get_path_by_id] returns [None]
    exactly for the identifiers that are not in it. *)
Theorem get_all_paths_lists_the_store (s : State) :
  NoDup (entries s).*1 ->
  get_all_paths s = (Ret (entries s), s)
  /\ (forall id, Dict.get (entries s) id = find_path id s)
  /\ (forall id, fst (get_path_by_id id s) = Ret None <-> Dict.get (entries s) id = None).
Proof.
  intros Hnd. unfold entries in *.
  assert (Hac : NoDup (aircraft_paths s).*1).
  { rewrite fmap_app in Hnd. now apply NoDup_app in Hnd as (? & _ & _). }
  split; [|split].
  - unfold get_all_paths, mbind, gets, ret.
    rewrite (dict_update_fresh (aircraft_paths s) []) by exact Hac.
    cbn [app]. now rewrite dict_update_fresh.
  - intros id. unfold find_path. apply dict_get_app.
  - intros id. rewrite dict_get_app. unfold get_path_by_id, mbind, gets, alloc_path, ret.
    destruct (Dict.get (aircraft_paths s) id); [split; discriminate|].
    destruct (Dict.get (track_paths s) id); [split; discriminate|]. split; reflexivity.
Qed.

Lemma get_all_paths_lists_the_store_witness :
  get_all_paths two_paths_state = (Ret [("AC-0001", 3); ("AC-0002", 7)], two_paths_state).
Proof.
  destruct (get_all_paths_lists_the_store two_paths_state) as (H & _).
  - rewrite two_paths_state_eq. cbn.
    apply NoDup_cons. split; [|apply NoDup_singleton].
    intros Hin. apply list_elem_of_singleton in Hin. discriminate.
  - rewrite H. rewrite two_paths_state_eq. reflexivity.
Defined.

Lemma new_loop_spec vals :
  forall acc s,
    exists pth,
      for_each vals append_new_point acc s
      = (Ret (acc ++ seq (next_loc s) (length vals)),
         set_heap (paths_heap s) (lists_heap s) pth (next_loc s + length vals) s)
      /\ (forall l, l < next_loc s -> pth !! l = points_heap s !! l)
      /\ (fun q => pth !!! q) <$> seq (next_loc s) (length vals) = vals.
Proof.
  induction vals as [|v vals IH]; intros acc s.
  - exists (points_heap s). cbn. unfold ret. rewrite app_nil_r, Nat.add_0_r, set_heap_same. auto.
  - cbn [for_each]. unfold mbind at 1. unfold append_new_point at 1.
    unfold mbind at 1, alloc_point at 1. unfold ret at 1.
    set (s1 := set_heap _ _ _ _ s).
    destruct (IH (acc ++ [next_loc s]) s1) as (pth & Heq & Hold & Hnew).
    exists pth. rewrite Heq. split.
    { unfold s1. cbn [next_loc paths_heap lists_heap points_heap set_heap].
      rewrite set_heap_set_heap. cbn [length seq]. rewrite <- app_assoc. cbn [app].
      do 2 f_equal. lia. }
    split.
    + intros l Hl. rewrite Hold by (change (next_loc s1) with (S (next_loc s)); lia).
      unfold s1. cbn [points_heap set_heap]. apply lookup_insert_ne. lia.
    + cbn [length seq fmap list_fmap]. f_equal.
      * rewrite lookup_total_alt, Hold by (change (next_loc s1) with (S (next_loc s)); lia).
        unfold s1. cbn [points_heap set_heap]. now rewrite lookup_insert_eq.
      * change (next_loc s1) with (S (next_loc s)) in Hnew. exact Hnew.
Qed.

Lemma new_points_spec vals s :
  let n := next_loc s in
  let k := length vals in
  exists pth,
    new_points vals s
    = (Ret (n + k),
       set_heap (paths_heap s) (<[n + k := seq n k]> (lists_heap s)) pth (S (n + k)) s)
    /\ (forall l, l < n -> pth !! l = points_heap s !! l)
    /\ (fun q => pth !!! q) <$> seq n k = vals.
Proof.
  intros n k. unfold new_points, mbind at 1.
  destruct (new_loop_spec vals [] s) as (pth & -> & Hold & Hnew).
  exists pth. unfold alloc_list. cbn [next_loc paths_heap lists_heap points_heap set_heap app].
  rewrite set_heap_set_heap. auto.
Qed.

Lemma read_points_new n k (ph : gmap loc Path) (lh : gmap loc (list loc))
    (pth : gmap loc point) m s vals :
  (fun q => pth !!! q) <$> seq n k = vals ->
  read_points (n + k) (set_heap ph (<[n + k := seq n k]> lh) pth m s) = vals.
Proof.
  intros H. unfold read_points, get_list, get_point. cbn [lists_heap points_heap set_heap].
  rewrite (lookup_total_insert_eq (M := gmap nat)). exact H.
Qed.

(** ** Waypoint handlers *)

Lemma try_except_returns {A} (m : M State A) s : fst (try_except m s) = Ret tt.
Proof. unfold try_except. destruct (m s). reflexivity. Qed.

(** X19.  [on_waypoint_moved], [on_waypoint_inserted] and
    [on_waypoint_deleted] return without changing anything when the path
    they name is not the one under edit (in particular when no session is
    open). *)
Theorem edits_outside_the_session_are_ignored (s : State) (pid : string) :
  editing_path_id s <> Some pid ->
  (forall index lat lon, on_waypoint_moved pid index lat lon s = (Ret tt, s))
  /\ (forall index lat lon, on_waypoint_inserted pid index lat lon s = (Ret tt, s))
  /\ (forall index, on_waypoint_deleted pid index s = (Ret tt, s)).
Proof.
  intros Hne. repeat split; intros;
    unfold on_waypoint_moved, on_waypoint_inserted, on_waypoint_deleted,
      try_except, mbind, gets;
    destruct (decide (editing_path_id s = Some pid)); try contradiction; reflexivity.
Qed.

Lemma edits_outside_the_session_are_ignored_witness :
  on_waypoint_moved "AC-0001" 0 19 77 selected_state = (Ret tt, selected_state)
  /\ on_waypoint_deleted "AC-0001" 0 selected_state = (Ret tt, selected_state).
Proof.
  destruct (edits_outside_the_session_are_ignored selected_state "AC-0001") as (H1 & _ & H3).
  - rewrite selected_state_eq. discriminate.
  - split; [apply H1|apply H3].
Defined.

Lemma on_waypoint_moved_state s pid lp index lat lon :
  editing_path_id s = Some pid -> find_path pid s = Some lp ->
  let p := get_path lp s in
  let items := get_list (points p) s in
  let s1 := set_heap (paths_heap s)
              (<[points p := <[Z.to_nat index := next_loc s]> items]> (lists_heap s))
              (<[next_loc s := (lat, lon)]> (points_heap s)) (S (next_loc s)) s in
  on_waypoint_moved pid index lat lon s
  = (Ret tt,
     if ((0 <=? index) && (index <? Z.of_nat (length items)))%Z then
       set_heap (<[lp := with_distance_nm (distance_spec (read_points (points p) s1)) p]>
                   (paths_heap s))
                (lists_heap s1) (points_heap s1) (next_loc s1) s
     else s).
Proof.
  intros Hed Hfind p items s1. unfold on_waypoint_moved, try_except.
  unfold mbind at 1, gets at 1. rewrite Hed.
  destruct (decide (Some pid = Some pid)) as [_|Hne]; [|contradiction].
  unfold mbind at 1, gets at 1. rewrite Hfind.
  unfold mbind at 1, gets at 1. unfold mbind at 1, gets at 1.
  fold p items.
  destruct ((0 <=? index)%Z && (index <? Z.of_nat (length items))%Z); [|reflexivity].
  unfold mbind at 1, alloc_point at 1. unfold mbind at 1, put_list at 1, modify at 1.
  unfold mbind at 1, gets at 1. unfold mbind at 1, lift at 1.
  cbn [paths_heap lists_heap points_heap next_loc set_heap].
  rewrite ?set_heap_set_heap. fold s1.
  rewrite calculate_distance_spec.
  unfold update_path, put_path, modify.
  cbn [snd paths_heap lists_heap points_heap next_loc set_heap].
  unfold s1 at 2. rewrite set_heap_set_heap.
  change (get_path lp s1) with p. reflexivity.
Qed.

(** X20.  During a session on a stored path, [on_waypoint_moved] changes
    nothing for an index outside [[0, len)]; for an index inside it replaces
    that waypoint by a new point [[lat, lon]], leaves the others, stores the
    distance of the new sequence, and touches neither the store's entries
    nor the session nor the event log. *)
Theorem on_waypoint_moved_spec (s : State) (pid : string) (lp : loc) (index : Z) (lat lon : R) :
  editing_path_id s = Some pid -> find_path pid s = Some lp -> path_allocated s lp ->
  let p := get_path lp s in
  let pts := read_points (points p) s in
  let s' := exec (on_waypoint_moved pid index lat lon) s in
  fst (on_waypoint_moved pid index lat lon s) = Ret tt
  /\ (((index < 0)%Z \/ (Z.of_nat (length pts) <= index)%Z) -> s' = s)
  /\ ((0 <= index < Z.of_nat (length pts))%Z ->
      read_points (points p) s' = <[Z.to_nat index := (lat, lon)]> pts
      /\ get_path lp s'
         = with_distance_nm (distance_spec (<[Z.to_nat index := (lat, lon)]> pts)) p
      /\ get_list (points p) s' = <[Z.to_nat index := next_loc s]> (get_list (points p) s)
      /\ entries s' = entries s
      /\ editing_path_id s' = Some pid
      /\ original_path_data s' = original_path_data s
      /\ events s' = events s).
Proof.
  intros Hed Hfind (Hlp & Hpl & Hitems) p pts s'.
  split; [apply try_except_returns|].
  subst s'. unfold exec. rewrite (on_waypoint_moved_state s pid lp index lat lon Hed Hfind).
  cbn [snd]. fold p. set (items := get_list (points p) s).
  assert (Hlen : length pts = length items) by apply read_points_length.
  split.
  - intros Hbad.
    replace ((0 <=? index)%Z && (index <? Z.of_nat (length items))%Z) with false;
      [reflexivity|].
    symmetry. apply andb_false_iff. rewrite Z.leb_gt, Z.ltb_ge. lia.
  - intros Hidx.
    replace ((0 <=? index)%Z && (index <? Z.of_nat (length items))%Z) with true.
    2:{ symmetry. apply andb_true_iff. rewrite Z.leb_le, Z.ltb_lt. lia. }
    set (s1 := set_heap (paths_heap s) _ _ _ s).
    assert (Hl1 : get_list (points p) s1 = <[Z.to_nat index := next_loc s]> items).
    { unfold get_list, s1. cbn [lists_heap set_heap].
      apply (lookup_total_insert_eq (M := gmap nat)). }
    assert (Hr1 : read_points (points p) s1 = <[Z.to_nat index := (lat, lon)]> pts).
    { unfold read_points. rewrite Hl1. rewrite list_fmap_insert.
      f_equal.
      - unfold get_point, s1. cbn [points_heap set_heap].
        apply (lookup_total_insert_eq (M := gmap nat)).
      - unfold pts, read_points. fold items. apply Forall_fmap_ext.
        eapply Forall_impl; [exact Hitems|]. intros q Hq. cbn beta in Hq.
        unfold get_point, s1. cbn [points_heap set_heap].
        apply (lookup_total_insert_ne (M := gmap nat)). lia. }
    rewrite Hr1.
    set (s2 := set_heap _ _ _ _ s).
    split.
    { change (read_points (points p) s2) with (read_points (points p) s1). exact Hr1. }
    split.
    { unfold s2. rewrite get_path_insert_eq. reflexivity. }
    split.
    { change (get_list (points p) s2) with (get_list (points p) s1). exact Hl1. }
    repeat split. exact Hed.
Qed.

Lemma selected_session_eq :
  exists pth,
    exec start_path_editing selected_state
    = emit (StartPathEditing "AC-0001")
        (set_edit_controls true false
           (set_select_buttons false false
              (set_session (Some "AC-0001")
                 (Some (with_points 9 (get_path 4 selected_state)))
                 (set_heap (<[5 := get_path 4 selected_state]> (paths_heap selected_state))
                           (<[9 := [6; 7; 8]]> (lists_heap selected_state)) pth 10
                           selected_state))))
    /\ (forall l, l < 5 -> pth !! l = points_heap selected_state !! l).
Proof.
  destruct (start_path_editing_spec selected_state "AC-0001" 4) as (pth & Heq & Hold & _).
  - rewrite selected_state_eq. reflexivity.
  - rewrite selected_state_eq. reflexivity.
  - apply selected_state_allocated.
  - exists pth. unfold exec. rewrite Heq. cbn [snd]. split.
    + rewrite selected_state_eq. reflexivity.
    + intros l Hl. apply Hold. rewrite selected_state_eq. exact Hl.
Qed.

Lemma selected_session_facts :
  let s := exec start_path_editing selected_state in
  editing_path_id s = Some "AC-0001"
  /\ find_path "AC-0001" s = Some 4
  /\ points (get_path 4 s) = 3
  /\ read_points 3 s = [(20, 78); (21, 79); (22, 80)]%R
  /\ path_allocated s 4
  /\ selected s = Some "AC-0001".
Proof.
  cbv zeta.
  destruct selected_session_eq as (pth & Hs & Hold).
  set (s := exec start_path_editing selected_state) in *.
  assert (Hp : get_path 4 s = get_path 4 selected_state).
  { rewrite Hs. unfold get_path. cbn [paths_heap emit set_edit_controls set_select_buttons
      set_session set_heap]. apply (lookup_total_insert_ne (M := gmap nat)). lia. }
  assert (Hpts : points (get_path 4 s) = 3).
  { rewrite Hp, selected_state_eq. reflexivity. }
  assert (Hl : get_list 3 s = [0; 1; 2]).
  { rewrite Hs. unfold get_list. cbn [lists_heap emit set_edit_controls set_select_buttons
      set_session set_heap]. rewrite (lookup_total_insert_ne (M := gmap nat)) by lia.
    rewrite selected_state_eq. reflexivity. }
  split; [rewrite Hs; reflexivity|].
  split; [rewrite Hs, selected_state_eq; reflexivity|].
  split; [exact Hpts|]. split; [|split].
  - unfold read_points. rewrite Hl. cbn [fmap list_fmap].
    unfold get_point. rewrite Hs.
    cbn [points_heap emit set_edit_controls set_select_buttons set_session set_heap].
    rewrite !lookup_total_alt, !Hold by lia. rewrite selected_state_eq. reflexivity.
  - unfold path_allocated. rewrite Hpts, Hl. rewrite Hs. cbn.
    split; [lia|]. split; [lia|]. repeat constructor; lia.
  - rewrite Hs, selected_state_eq. reflexivity.
Qed.

Lemma on_waypoint_moved_spec_witness :
  let s := exec start_path_editing selected_state in
  let s' := exec (on_waypoint_moved "AC-0001" 1 30 40) s in
  exec (on_waypoint_moved "AC-0001" 3 30 40) s = s
  /\ read_points 3 s' = [(20, 78); (30, 40); (22, 80)]%R.
Proof.
  cbv zeta. destruct selected_session_facts as (Hed & Hfind & Hpts & Hr & Halloc & _).
  set (s := exec start_path_editing selected_state) in *.
  destruct (on_waypoint_moved_spec s "AC-0001" 4 3 30 40 Hed Hfind Halloc) as (_ & Hout & _).
  destruct (on_waypoint_moved_spec s "AC-0001" 4 1 30 40 Hed Hfind Halloc) as (_ & _ & Hin).
  cbv zeta in Hout, Hin. rewrite Hpts, Hr in Hout, Hin. split.
  - apply Hout. right. cbn. lia.
  - destruct Hin as (H & _); [cbn; lia|]. exact H.
Defined.

Lemma remove_waypoint_state s pid lp index :
  find_path pid s = Some lp ->
  let p := get_path lp s in
  let items := get_list (points p) s in
  let s1 := set_heap (paths_heap s)
              (<[points p := delete (Z.to_nat index) items]> (lists_heap s))
              (points_heap s) (next_loc s) s in
  remove_waypoint pid index s
  = if ((2 <? length items)
        && ((0 <=? index)%Z && (index <? Z.of_nat (length items))%Z)) then
      (Ret true,
       set_heap (<[lp := with_distance_nm (distance_spec (read_points (points p) s1)) p]>
                   (paths_heap s))
                (lists_heap s1) (points_heap s) (next_loc s) s)
    else (Ret false, s).
Proof.
  intros Hfind p items s1. unfold remove_waypoint.
  unfold mbind at 1, gets at 1. rewrite Hfind.
  unfold mbind at 1, gets at 1. unfold mbind at 1, gets at 1.
  fold p items.
  destruct ((2 <? length items)
            && ((0 <=? index)%Z && (index <? Z.of_nat (length items))%Z)); [|reflexivity].
  unfold mbind at 1, put_list at 1, modify at 1.
  unfold mbind at 1, gets at 1. unfold mbind at 1, lift at 1.
  unfold list_pop. fold s1. rewrite calculate_distance_spec.
  unfold mbind, update_path, put_path, modify, ret.
  reflexivity.
Qed.

(** X21.  During a session on a stored path, [on_waypoint_deleted] only
    shows the warning when the path has at most two waypoints or the index
    is out of range; otherwise it removes that waypoint, stores the distance
    of the new sequence, shows nothing, and leaves at least two
    waypoints. *)
Theorem on_waypoint_deleted_spec (s : State) (pid : string) (lp : loc) (index : Z) :
  editing_path_id s = Some pid -> find_path pid s = Some lp ->
  let p := get_path lp s in
  let pts := read_points (points p) s in
  let n := length pts in
  let s' := exec (on_waypoint_deleted pid index) s in
  fst (on_waypoint_deleted pid index s) = Ret tt
  /\ ((n <= 2 \/ (index < 0)%Z \/ (Z.of_nat n <= index)%Z) ->
      s' = emit (MsgWarning "Cannot delete waypoint. Minimum 2 waypoints required.") s)
  /\ (2 < n -> (0 <= index < Z.of_nat n)%Z ->
      read_points (points p) s' = delete (Z.to_nat index) pts
      /\ get_path lp s' = with_distance_nm (distance_spec (delete (Z.to_nat index) pts)) p
      /\ 2 <= length (read_points (points p) s')
      /\ events s' = events s
      /\ entries s' = entries s
      /\ editing_path_id s' = Some pid
      /\ original_path_data s' = original_path_data s).
Proof.
  intros Hed Hfind p pts n s'.
  split; [apply try_except_returns|].
  assert (Hn : n = length (get_list (points p) s)) by apply read_points_length.
  assert (Hstate : on_waypoint_deleted pid index s
                   = (Ret tt,
                      if fst (remove_waypoint pid index s) is Ret true
                      then snd (remove_waypoint pid index s)
                      else emit (MsgWarning "Cannot delete waypoint. Minimum 2 waypoints required.")
                             (snd (remove_waypoint pid index s)))).
  { unfold on_waypoint_deleted, try_except.
    unfold mbind at 1, gets at 1. rewrite Hed.
    destruct (decide (Some pid = Some pid)) as [_|Hne]; [|contradiction].
    unfold mbind at 1.
    rewrite (remove_waypoint_state s pid lp index Hfind).
    destruct (_ && _); reflexivity. }
  subst s'. unfold exec. rewrite Hstate. cbn [snd].
  rewrite (remove_waypoint_state s pid lp index Hfind). fold p. rewrite <- Hn.
  split.
  - intros Hbad.
    replace ((2 <? n) && ((0 <=? index)%Z && (index <? Z.of_nat n)%Z)) with false;
      [reflexivity|].
    symmetry. apply andb_false_iff. rewrite andb_false_iff.
    rewrite Nat.ltb_ge, Z.leb_gt, Z.ltb_ge. tauto.
  - intros Hlen Hidx.
    replace ((2 <? n) && ((0 <=? index)%Z && (index <? Z.of_nat n)%Z)) with true.
    2:{ symmetry. apply andb_true_iff. rewrite andb_true_iff.
        rewrite Nat.ltb_lt, Z.leb_le, Z.ltb_lt. tauto. }
    cbn [fst snd].
    set (s1 := set_heap (paths_heap s) _ _ _ s).
    assert (Hr1 : read_points (points p) s1 = delete (Z.to_nat index) pts).
    { unfold read_points, get_list, s1. cbn [lists_heap set_heap].
      rewrite (lookup_total_insert_eq (M := gmap nat)). now rewrite list_fmap_delete. }
    rewrite Hr1. set (s2 := set_heap _ _ _ _ s).
    split.
    { change (read_points (points p) s2) with (read_points (points p) s1). exact Hr1. }
    split.
    { unfold s2. rewrite get_path_insert_eq. reflexivity. }
    split.
    { change (read_points (points p) s2) with (read_points (points p) s1). rewrite Hr1.
      rewrite length_delete; [fold n; lia|].
      apply lookup_lt_is_Some_2. fold n. lia. }
    repeat split. exact Hed.
Qed.

Lemma on_waypoint_deleted_spec_witness :
  let s := exec start_path_editing selected_state in
  exec (on_waypoint_deleted "AC-0001" 5) s
  = emit (MsgWarning "Cannot delete waypoint. Minimum 2 waypoints required.") s
  /\ read_points 3 (exec (on_waypoint_deleted "AC-0001" 0) s) = [(21, 79); (22, 80)]%R.
Proof.
  cbv zeta. destruct selected_session_facts as (Hed & Hfind & Hpts & Hr & _).
  set (s := exec start_path_editing selected_state) in *.
  destruct (on_waypoint_deleted_spec s "AC-0001" 4 5 Hed Hfind) as (_ & Hout & _).
  destruct (on_waypoint_deleted_spec s "AC-0001" 4 0 Hed Hfind) as (_ & _ & Hin).
  cbv zeta in Hout, Hin. rewrite Hpts, Hr in Hout, Hin. split.
  - apply Hout. right. right. cbn. lia.
  - destruct Hin as (H & _); [cbn; lia|cbn; lia|]. exact H.
Defined.

(** ** Completing an edit, saving *)

Lemma on_path_edit_completed_state pid new_points s :
  let n := next_loc s in
  let k := length new_points in
  exists pth,
    let s1 := set_heap (paths_heap s) (<[n + k := seq n k]> (lists_heap s)) pth (S (n + k)) s in
    (forall l, l < n -> pth !! l = points_heap s !! l)
    /\ read_points (n + k) s1 = new_points
    /\ exec (on_path_edit_completed pid new_points) s
       = match find_path pid s with
         | Some l =>
             set_heap
               (<[l := with_current_position
                         (Rmin (current_position (get_path l s)) 0.999)
                         (with_distance_nm (distance_spec new_points)
                            (with_points (n + k) (get_path l s)))]>
                  (paths_heap s))
               (lists_heap s1) pth (S (n + k)) s
         | None => s1
         end.
Proof.
  intros n k.
  destruct (new_points_spec new_points s) as (pth & Hnew & Hold & Hvals). cbv zeta in Hnew.
  fold n k in Hnew, Hold, Hvals. exists pth. cbv zeta.
  set (s1 := set_heap (paths_heap s) (<[n + k := seq n k]> (lists_heap s)) pth (S (n + k)) s) in *.
  assert (Hr1 : read_points (n + k) s1 = new_points) by now apply read_points_new.
  split; [exact Hold|]. split; [exact Hr1|].
  unfold exec, on_path_edit_completed, try_except.
  unfold mbind at 1. rewrite Hnew.
  unfold mbind at 1, update_path_points.
  unfold mbind at 1, gets at 1. change (find_path pid s1) with (find_path pid s).
  destruct (find_path pid s) as [l|]; [|reflexivity].
  unfold mbind at 1, update_path at 1, put_path at 1, modify at 1.
  unfold mbind at 1, gets at 1.
  change (read_points (n + k) (set_heap _ _ _ _ s1)) with (read_points (n + k) s1).
  rewrite Hr1. unfold mbind at 1, lift at 1. rewrite calculate_distance_spec.
  unfold mbind, update_path, put_path, modify, ret.
  cbn [snd paths_heap lists_heap points_heap next_loc set_heap].
  rewrite !get_path_insert_eq.
  cbn [snd paths_heap lists_heap points_heap next_loc set_heap].
  rewrite ?get_path_insert_eq, !insert_insert_eq. unfold s1.
  cbn [paths_heap lists_heap points_heap next_loc set_heap].
  rewrite ?set_heap_set_heap. reflexivity.
Qed.

(** X22.  [on_path_edit_completed] is not guarded by the session.  For a
    stored id it replaces the waypoints by the ones received, stores their
    distance and caps the progress at 0.999, whether or not a session is
    open; for an unknown id no path dict changes.  It never raises, and it
    leaves the entries and the session fields as they were. *)
Theorem path_edit_completed_needs_no_session (s : State) (pid : string) (new_points : list point) :
  let s' := exec (on_path_edit_completed pid new_points) s in
  fst (on_path_edit_completed pid new_points s) = Ret tt
  /\ entries s' = entries s
  /\ editing_path_id s' = editing_path_id s
  /\ original_path_data s' = original_path_data s
  /\ (find_path pid s = None -> paths_heap s' = paths_heap s)
  /\ (forall l, find_path pid s = Some l ->
        let p := get_path l s in
        read_points (points (get_path l s')) s' = new_points
        /\ get_path l s'
           = with_current_position (Rmin (current_position p) 0.999)
               (with_distance_nm (distance_spec new_points)
                  (with_points (next_loc s + length new_points) p))
        /\ (current_position (get_path l s') <= 0.999)%R).
Proof.
  cbv zeta. split; [apply try_except_returns|].
  destruct (on_path_edit_completed_state pid new_points s) as (pth & _ & Hr1 & Hstate).
  cbv zeta in Hr1, Hstate.
  set (n := next_loc s) in *. set (k := length new_points) in *.
  set (s1 := set_heap (paths_heap s) (<[n + k := seq n k]> (lists_heap s)) pth (S (n + k)) s) in *.
  rewrite Hstate.
  split; [destruct (find_path pid s); reflexivity|].
  split; [destruct (find_path pid s); reflexivity|].
  split; [destruct (find_path pid s); reflexivity|].
  split.
  - intros ->. reflexivity.
  - intros l ->. set (s2 := set_heap _ _ _ _ s).
    assert (Hp2 : get_path l s2 = with_current_position
                                     (Rmin (current_position (get_path l s)) 0.999)
                                     (with_distance_nm (distance_spec new_points)
                                        (with_points (n + k) (get_path l s))))
      by apply get_path_insert_eq.
    rewrite Hp2. cbn [points with_current_position with_distance_nm with_points current_position].
    split; [|split; [reflexivity|apply Rmin_r]].
    change (read_points (n + k) s2) with (read_points (n + k) s1). exact Hr1.
Qed.

Lemma on_path_selection_changed_state s :
  on_path_selection_changed s
  = (Ret tt, set_select_buttons (has_selection s && not_editing s)
                                (has_selection s && not_editing s) s).
Proof. reflexivity. Qed.

Lemma save_path_edits_state s pid lp :
  editing_path_id s = Some pid -> pid <> "" -> find_path pid s = Some lp ->
  save_path_edits s
  = (Ret tt,
     emit (MsgInformation "Path changes saved successfully!")
       (set_select_buttons (has_selection s) (has_selection s)
          (set_edit_controls false true
             (set_session None None
                (emit (AddPath pid)
                   (emit StopPathEditing
                      (set_heap (<[next_loc s := get_path lp s]> (paths_heap s))
                                (lists_heap s) (points_heap s) (S (next_loc s)) s))))))).
Proof.
  intros Hed Hne Hfind. unfold save_path_edits.
  unfold mbind at 1, gets at 1. rewrite Hed.
  replace (String.eqb pid "") with false by (symmetry; now apply String.eqb_neq).
  unfold mbind at 1. rewrite (get_path_by_id_found pid s lp Hfind).
  unfold mbind, modify, on_path_selection_changed. cbn.
  unfold has_selection. cbn. destruct (selected s); reflexivity.
Qed.

(** X23.  [save_path_edits] during a session on a stored path keeps the
    path as the edits left it, closes the session, hides save and cancel,
    enables the drawing buttons, enables edit and delete when an item is
    selected, and sends stop-editing, add-path and the success message, in
    that order.  A cancel or a second save afterwards does nothing. *)
Theorem save_keeps_the_edits (s : State) (pid : string) (lp : loc) :
  editing_path_id s = Some pid -> pid <> "" -> find_path pid s = Some lp ->
  let s' := exec save_path_edits s in
  fst (save_path_edits s) = Ret tt
  /\ get_path lp s' = get_path lp s
  /\ lists_heap s' = lists_heap s
  /\ points_heap s' = points_heap s
  /\ entries s' = entries s
  /\ editing_path_id s' = None
  /\ original_path_data s' = None
  /\ btn_save_edit s' = false /\ btn_cancel_edit s' = false /\ drawing_buttons s' = true
  /\ btn_edit_path s' = has_selection s /\ btn_delete_path s' = has_selection s
  /\ events s'
     = events s ++ [StopPathEditing; AddPath pid;
                    MsgInformation "Path changes saved successfully!"]
  /\ cancel_path_editing s' = (Ret tt, s')
  /\ save_path_edits s' = (Ret tt, s').
Proof.
  intros Hed Hne Hfind s'. subst s'. unfold exec.
  rewrite (save_path_edits_state s pid lp Hed Hne Hfind). cbn [fst snd].
  split; [reflexivity|]. split.
  { unfold get_path. cbn [paths_heap emit set_select_buttons set_edit_controls set_session
      set_heap].
    destruct (decide (next_loc s = lp)) as [->|Hd].
    - now rewrite (lookup_total_insert_eq (M := gmap nat)).
    - now rewrite (lookup_total_insert_ne (M := gmap nat)). }
  repeat (split; [reflexivity|]). split.
  { cbn. rewrite <- !app_assoc. reflexivity. }
  split; reflexivity.
Qed.

Lemma save_keeps_the_edits_witness :
  let s := exec (on_waypoint_moved "AC-0001" 1 30 40) (exec start_path_editing selected_state) in
  let s' := exec save_path_edits s in
  get_path 4 s' = get_path 4 s /\ editing_path_id s' = None
  /\ cancel_path_editing s' = (Ret tt, s').
Proof.
  cbv zeta. destruct selected_session_facts as (Hed & Hfind & Hpts & Hr & Halloc & _).
  set (s0 := exec start_path_editing selected_state) in *.
  set (s := exec (on_waypoint_moved "AC-0001" 1 30 40) s0).
  assert (Hs : editing_path_id s = Some "AC-0001" /\ find_path "AC-0001" s = Some 4).
  { unfold s, exec. rewrite (on_waypoint_moved_state s0 "AC-0001" 4 1 30 40 Hed Hfind).
    cbn [snd]. destruct (_ && _); cbn; auto. }
  destruct Hs as [Hed' Hfind'].
  destruct (save_keeps_the_edits s "AC-0001" 4 Hed' ltac:(discriminate) Hfind')
    as (_ & Hp & _ & _ & _ & He & _ & _ & _ & _ & _ & _ & _ & Hc & _).
  auto.
Defined.

(** X24.  [save_path_edits] during a session whose path is no longer
    stored behaves as [cancel_path_editing]: it sends stop-editing and
    restore-path with the snapshot, closes the session and restores the
    widgets, while the store and the heap stay as they were (the path is not
    stored again). *)
Theorem save_without_the_path_cancels (s : State) (pid : string) (snap : Path) :
  editing_path_id s = Some pid -> original_path_data s = Some snap ->
  pid <> "" -> find_path pid s = None ->
  let s' := exec save_path_edits s in
  save_path_edits s = cancel_path_editing s
  /\ fst (save_path_edits s) = Ret tt
  /\ events s' = events s ++ [StopPathEditing; RestorePath snap]
  /\ editing_path_id s' = None
  /\ original_path_data s' = None
  /\ find_path pid s' = None
  /\ entries s' = entries s
  /\ paths_heap s' = paths_heap s
  /\ lists_heap s' = lists_heap s
  /\ points_heap s' = points_heap s
  /\ btn_save_edit s' = false /\ btn_cancel_edit s' = false /\ drawing_buttons s' = true.
Proof.
  intros Hed Horig Hne Hfind s'.
  assert (Hsave : save_path_edits s = cancel_path_editing s).
  { unfold save_path_edits. unfold mbind at 1, gets at 1. rewrite Hed.
    replace (String.eqb pid "") with false by (symmetry; now apply String.eqb_neq).
    unfold mbind at 1. now rewrite (get_path_by_id_missing pid s Hfind). }
  assert (Hcancel : cancel_path_editing s
                    = (Ret tt,
                       set_select_buttons (has_selection s) (has_selection s)
                         (set_edit_controls false true
                            (set_session None None
                               (emit (RestorePath snap) (emit StopPathEditing s)))))).
  { unfold cancel_path_editing. unfold mbind at 1, gets at 1. unfold mbind at 1, gets at 1.
    rewrite Hed, Horig.
    replace (String.eqb pid "") with false by (symmetry; now apply String.eqb_neq).
    unfold mbind at 1. unfold mbind at 1, gets at 1. rewrite Hfind.
    unfold mbind, ret, on_path_selection_changed, modify, has_selection, not_editing. cbn.
    destruct (selected s); reflexivity. }
  subst s'. unfold exec. rewrite Hsave, Hcancel. cbn [fst snd].
  split; [reflexivity|]. split; [reflexivity|]. split.
  { cbn. rewrite <- !app_assoc. reflexivity. }
  repeat (split; [first [reflexivity | exact Hfind]|]). reflexivity.
Qed.

Lemma save_without_the_path_cancels_witness :
  let s := exec clear_all (exec start_path_editing selected_state) in
  save_path_edits s = cancel_path_editing s
  /\ editing_path_id (exec save_path_edits s) = None
  /\ find_path "AC-0001" (exec save_path_edits s) = None.
Proof.
  cbv zeta. destruct selected_session_eq as (pth & Hs & _).
  set (s := exec clear_all (exec start_path_editing selected_state)).
  destruct (save_without_the_path_cancels s "AC-0001"
              (with_points 9 (get_path 4 selected_state)))
    as (H1 & _ & _ & H2 & _ & H3 & _).
  - unfold s. rewrite Hs. reflexivity.
  - unfold s. rewrite Hs. reflexivity.
  - discriminate.
  - reflexivity.
  - auto.
Defined.

(** ** Refusals of the session handlers *)

(** X25.  With nothing selected, [start_path_editing] and
    [delete_selected_path] do nothing; a declined confirmation deletes
    nothing; for a selected id that is not stored they only show their
    warning.  [cancel_path_editing] does nothing without a session or
    without a snapshot, and [save_path_edits] nothing without a session. *)
Theorem session_handlers_refuse (s : State) :
  (selected s = None ->
   start_path_editing s = (Ret tt, s)
   /\ forall reply, delete_selected_path reply s = (Ret tt, s))
  /\ (forall pid, selected s = Some pid ->
        delete_selected_path false s = (Ret tt, s)
        /\ (find_path pid s = None ->
            start_path_editing s = (Ret tt, emit (MsgWarning "Path not found.") s)
            /\ delete_selected_path true s
               = (Ret tt, emit (MsgWarning "Failed to delete path from data.") s)))
  /\ (editing_path_id s = None \/ original_path_data s = None ->
      cancel_path_editing s = (Ret tt, s))
  /\ (editing_path_id s = None -> save_path_edits s = (Ret tt, s)).
Proof.
  split; [|split; [|split]].
  - intros Hsel. unfold start_path_editing, delete_selected_path, mbind, gets.
    rewrite Hsel. split; reflexivity.
  - intros pid Hsel. split.
    + unfold delete_selected_path, mbind, gets. now rewrite Hsel.
    + intros Hfind. split.
      * unfold start_path_editing. unfold mbind at 1, gets at 1. rewrite Hsel.
        unfold mbind at 1. now rewrite (get_path_by_id_missing pid s Hfind).
      * unfold delete_selected_path. unfold mbind at 1, gets at 1. rewrite Hsel.
        cbn [negb]. unfold mbind at 1.
        assert (Hdel : delete_path pid s = (Ret None, s)).
        { unfold find_path in Hfind. unfold delete_path, mbind, gets, ret.
          destruct (Dict.get (aircraft_paths s) pid); [discriminate|]. now rewrite Hfind. }
        now rewrite Hdel.
  - intros Hno. unfold cancel_path_editing, mbind, gets.
    destruct Hno as [-> | ->]; [reflexivity|]. destruct (editing_path_id s); reflexivity.
  - intros Hno. unfold save_path_edits, mbind, gets. now rewrite Hno.
Qed.

(** ** The widgets and the session *)

Lemma same_controls_refl s : same_controls s s.
Proof. now constructor. Qed.

Lemma same_controls_trans s1 s2 s3 :
  same_controls s1 s2 -> same_controls s2 s3 -> same_controls s1 s3.
Proof. intros [] []. constructor; congruence. Qed.

Lemma same_controls_set_heap ph lh pth n s : same_controls s (set_heap ph lh pth n s).
Proof. now constructor. Qed.

Lemma same_controls_emit e s : same_controls s (emit e s).
Proof. now constructor. Qed.

Lemma same_controls_set_manager ac tr na nt s : same_controls s (set_manager ac tr na nt s).
Proof. now constructor. Qed.

Lemma same_controls_set_rand_pos n s : same_controls s (set_rand_pos n s).
Proof. now constructor. Qed.

Lemma controls_follow_session_frame s s' :
  same_controls s s' -> controls_follow_session s -> controls_follow_session s'.
Proof.
  intros [H1 H2 H3 H4 H5 H6 H7 H8]. unfold controls_follow_session.
  rewrite H1, H2, H3, H4, H5, H6, H7, H8. auto.
Qed.

Lemma apply_edit_controls e s : same_controls s (exec (apply_edit e) s).
Proof.
  destruct e; cbn [apply_edit];
    unfold exec, on_waypoint_moved, on_waypoint_inserted, on_waypoint_deleted, try_except,
      insert_waypoint, remove_waypoint, update_path, put_path, put_list, alloc_point,
      mbind, gets, modify, lift, ret;
    split_cases; cbn [snd]; constructor; reflexivity.
Qed.

Lemma copy_loop_controls refs :
  forall acc s, exists r s1,
    for_each refs append_copy acc s = (Ret r, s1) /\ same_controls s s1.
Proof.
  induction refs as [|p refs IH]; intros acc s.
  - exists acc, s. split; [reflexivity|apply same_controls_refl].
  - cbn [for_each]. unfold mbind at 1, append_copy at 1, append_new_point at 1.
    unfold mbind at 1, gets at 1. unfold mbind at 1, alloc_point at 1. unfold ret at 1.
    set (s1 := set_heap _ _ _ _ s).
    destruct (IH (acc ++ [next_loc s]) s1) as (r & s2 & -> & Hc).
    exists r, s2. split; [reflexivity|].
    eapply same_controls_trans; [apply same_controls_set_heap|exact Hc].
Qed.

Lemma copy_points_controls l s :
  exists c s1, copy_points l s = (Ret c, s1) /\ same_controls s s1.
Proof.
  unfold copy_points. unfold mbind at 1, gets at 1. unfold mbind at 1.
  destruct (copy_loop_controls (get_list l s) [] s) as (r & s1 & -> & Hc).
  unfold alloc_list. eexists _, _. split; [reflexivity|].
  eapply same_controls_trans; [exact Hc|apply same_controls_set_heap].
Qed.

Lemma restore_path_controls l original s :
  exists s1, restore_path l original s = (Ret tt, s1) /\ same_controls s s1.
Proof.
  unfold restore_path. unfold mbind at 1.
  destruct (copy_points_controls (points original) s) as (c & s1 & -> & Hc).
  unfold mbind, update_path, put_path, modify. eexists. split; [reflexivity|].
  eapply same_controls_trans; [exact Hc|]. constructor; reflexivity.
Qed.

Lemma get_path_by_id_controls pid s :
  exists r s1, get_path_by_id pid s = (Ret r, s1) /\ same_controls s s1
               /\ (r = None <-> find_path pid s = None).
Proof.
  destruct (find_path pid s) as [l|] eqn:Hfind.
  - rewrite (get_path_by_id_found pid s l Hfind). eexists _, _. split; [reflexivity|].
    split; [apply same_controls_set_heap|]. split; discriminate.
  - rewrite (get_path_by_id_missing pid s Hfind). eexists _, _. split; [reflexivity|].
    split; [apply same_controls_refl|]. tauto.
Qed.

Lemma advance_path_controls ty dt item acc s :
  same_controls s (snd (advance_path ty dt item acc s)).
Proof.
  destruct item as [id l].
  unfold advance_path, update_path, put_path, mbind, gets, modify, lift, ret.
  split_cases; cbn [snd]; constructor; reflexivity.
Qed.

Lemma advance_loop_controls ty dt es :
  forall acc s, same_controls s (snd (for_each es (advance_path ty dt) acc s)).
Proof.
  induction es as [|e es IH]; intros acc s; [apply same_controls_refl|].
  cbn [for_each]. unfold mbind.
  pose proof (advance_path_controls ty dt e acc s) as H1.
  destruct (advance_path ty dt e acc s) as [[a|x] s1]; cbn [snd] in *; [|exact H1].
  eapply same_controls_trans; [exact H1|apply IH].
Qed.

Lemma update_positions_controls dt s : same_controls s (exec (update_positions dt) s).
Proof.
  unfold exec, update_positions. unfold mbind at 1, gets at 1. unfold mbind at 1.
  pose proof (advance_loop_controls "aircraft" dt (aircraft_paths s) [] s) as H1.
  destruct (for_each (aircraft_paths s) _ [] s) as [[a|x] s1]; cbn [snd] in *; [|exact H1].
  unfold mbind, gets.
  eapply same_controls_trans; [exact H1|apply advance_loop_controls].
Qed.

Lemma update_path_points_controls pid l s :
  same_controls s (snd (update_path_points pid l s)).
Proof.
  unfold update_path_points, update_path, put_path, mbind, gets, modify, lift, ret.
  split_cases; cbn [snd]; constructor; reflexivity.
Qed.

Lemma new_points_controls vals s :
  exists l s1, new_points vals s = (Ret l, s1) /\ same_controls s s1
               /\ editing_path_id s1 = editing_path_id s.
Proof.
  destruct (new_points_spec vals s) as (pth & -> & _). eexists _, _.
  split; [reflexivity|]. split; [apply same_controls_set_heap|reflexivity].
Qed.

Lemma on_path_edit_completed_controls pid vals s :
  same_controls s (exec (on_path_edit_completed pid vals) s).
Proof.
  unfold exec, on_path_edit_completed, try_except. unfold mbind at 1.
  destruct (new_points_controls vals s) as (l & s1 & -> & Hc & _).
  unfold mbind. pose proof (update_path_points_controls pid l s1) as H1.
  destruct (update_path_points pid l s1) as [[b|x] s2]; cbn [snd] in *;
    eapply same_controls_trans; eassumption.
Qed.

Lemma add_aircraft_path_controls points distance speed altitude now s :
  exists r s1, add_aircraft_path points distance speed altitude now s = (Ret r, s1)
               /\ same_controls s s1.
Proof.
  destruct (add_aircraft_path_state points distance speed altitude now s) as (sp & al & n & ->).
  eexists _, _. split; [reflexivity|]. constructor; reflexivity.
Qed.

Lemma add_track_path_controls points distance speed altitude now s :
  exists r s1, add_track_path points distance speed altitude now s = (Ret r, s1)
               /\ same_controls s s1.
Proof.
  destruct (add_track_path_state points distance speed altitude now s) as (sp & al & n & ->).
  eexists _, _. split; [reflexivity|]. constructor; reflexivity.
Qed.

Lemma create_manual_path_controls ty speed altitude lat1 lon1 lat2 lon2 now s :
  same_controls s (exec (create_manual_path ty speed altitude lat1 lon1 lat2 lon2 now) s).
Proof.
  unfold exec, create_manual_path. unfold mbind at 1.
  destruct (new_points_controls (manual_points lat1 lon1 lat2 lon2) s) as (l & s1 & -> & Hc & _).
  unfold mbind at 1, gets at 1. unfold mbind at 1, lift at 1.
  change (calculate_path_distance ?x) with (_calculate_distance x).
  rewrite calculate_distance_spec. unfold mbind at 1.
  destruct (String.eqb _ "aircraft").
  - destruct (add_aircraft_path_controls l (distance_spec (read_points l s1))
                (Some (IZR speed)) (Some (IZR altitude)) now s1) as ([pid lp] & s2 & -> & Hc2).
    unfold modify. cbn [snd].
    eapply same_controls_trans; [exact Hc|].
    eapply same_controls_trans; [exact Hc2|apply same_controls_emit].
  - destruct (add_track_path_controls l (distance_spec (read_points l s1))
                (Some (IZR speed)) (Some (IZR altitude)) now s1) as ([pid lp] & s2 & -> & Hc2).
    unfold modify. cbn [snd].
    eapply same_controls_trans; [exact Hc|].
    eapply same_controls_trans; [exact Hc2|apply same_controls_emit].
Qed.

Lemma select_item_follows sel s :
  controls_follow_session s -> controls_follow_session (exec (select_item sel) s).
Proof.
  unfold exec, select_item, on_path_selection_changed, mbind, modify, controls_follow_session,
    has_selection, not_editing. cbn.
  destruct (editing_path_id s); cbn.
  - intros (_ & _ & H). rewrite !andb_false_r. auto.
  - intros (H1 & H2 & H3 & H4 & _). rewrite !andb_true_r.
    repeat (split; [assumption|]). destruct sel; cbn; split; intros; eauto; discriminate.
Qed.

Lemma start_path_editing_follows s :
  editing_path_id s = None -> controls_follow_session s ->
  controls_follow_session (exec start_path_editing s).
Proof.
  intros Hno I. unfold exec, start_path_editing. unfold mbind at 1, gets at 1.
  destruct (selected s) as [pid|]; [|exact I].
  unfold mbind at 1.
  destruct (get_path_by_id_controls pid s) as (r & s1 & -> & Hc & _).
  destruct r as [c|].
  - unfold mbind at 1, gets at 1. unfold mbind at 1.
    destruct (copy_points_controls (points (get_path c s1)) s1) as (cp & s2 & -> & Hc2).
    unfold mbind, modify. cbn [snd].
    unfold controls_follow_session. cbn. eauto 10.
  - unfold modify. cbn [snd].
    eapply controls_follow_session_frame; [|exact I].
    eapply same_controls_trans; [exact Hc|apply same_controls_emit].
Qed.

Lemma close_session_follows s0 :
  controls_follow_session
    (exec on_path_selection_changed (set_edit_controls false true (set_session None None s0))).
Proof.
  unfold exec, on_path_selection_changed, modify, controls_follow_session, has_selection,
    not_editing. cbn. rewrite !andb_true_r.
  repeat (split; [reflexivity|]). destruct (selected s0); split; intros; eauto; discriminate.
Qed.

Lemma cancel_path_editing_follows s :
  controls_follow_session s -> controls_follow_session (exec cancel_path_editing s).
Proof.
  intros I. unfold exec, cancel_path_editing. unfold mbind at 1, gets at 1.
  unfold mbind at 1, gets at 1.
  destruct (editing_path_id s) as [pid|]; [|exact I].
  destruct (original_path_data s) as [original|]; [|exact I].
  destruct (String.eqb pid ""); [exact I|].
  unfold mbind at 1. unfold mbind at 1, gets at 1.
  destruct (find_path pid s) as [l|].
  - destruct (restore_path_controls l original s) as (s1 & -> & _).
    unfold mbind, modify. cbn [snd]. apply close_session_follows.
  - unfold ret, mbind, modify. cbn [snd]. apply close_session_follows.
Qed.

Lemma save_path_edits_follows s :
  controls_follow_session s -> controls_follow_session (exec save_path_edits s).
Proof.
  intros I. unfold exec, save_path_edits. unfold mbind at 1, gets at 1.
  destruct (editing_path_id s) as [pid|] eqn:Hed; [|exact I].
  destruct (String.eqb pid ""); [exact I|].
  unfold mbind at 1.
  destruct (get_path_by_id_controls pid s) as (r & s1 & Heq & Hc & Hr). rewrite Heq.
  destruct r as [c|].
  - unfold mbind, modify, on_path_selection_changed, modify. cbn [snd].
    unfold controls_follow_session, has_selection, not_editing. cbn. rewrite !andb_true_r.
    repeat (split; [reflexivity|]). destruct (selected s1); split; intros; eauto; discriminate.
  - assert (s1 = s) as ->.
    { destruct Hr as [Hr _]. specialize (Hr eq_refl).
      rewrite (get_path_by_id_missing pid s Hr) in Heq. congruence. }
    now apply cancel_path_editing_follows.
Qed.

Lemma delete_selected_path_cases pid s :
  selected s = Some pid ->
  exec (delete_selected_path true) s
  = emit (MsgWarning "Failed to delete path from data.") s
  \/ exists ac tr,
       exec (delete_selected_path true) s
       = emit (MsgInformation ("Path " +:+ pid +:+ " deleted successfully!"))
           (set_select_buttons false false
              (set_selected None
                 (emit (PathDeleted pid)
                    (set_manager ac tr (next_aircraft_id s) (next_track_id s) s)))).
Proof.
  intros Hsel.
  unfold exec, delete_selected_path, delete_path, mbind, gets, modify, ret,
    on_path_selection_changed, modify, has_selection.
  rewrite Hsel. cbn [negb].
  destruct (Dict.get (aircraft_paths s) pid) as [l|];
    [|destruct (Dict.get (track_paths s) pid) as [l|]]; cbn.
  - right. eexists _, _. reflexivity.
  - right. eexists _, _. reflexivity.
  - left. reflexivity.
Qed.

Lemma delete_selected_path_follows reply s :
  controls_follow_session s -> controls_follow_session (exec (delete_selected_path reply) s).
Proof.
  intros I. destruct (selected s) as [pid|] eqn:Hsel.
  2:{ unfold exec, delete_selected_path, mbind, gets. rewrite Hsel. exact I. }
  destruct reply.
  2:{ unfold exec, delete_selected_path, mbind, gets. rewrite Hsel. exact I. }
  destruct (delete_selected_path_cases pid s Hsel) as [->|(ac & tr & ->)].
  - eapply controls_follow_session_frame; [apply same_controls_emit|exact I].
  - revert I. unfold controls_follow_session. cbn.
    destruct (editing_path_id s); cbn; intuition discriminate.
Qed.

Lemma apply_ui_event_follows ev s :
  controls_follow_session s -> controls_follow_session (exec (apply_ui_event ev) s).
Proof.
  intros I. destruct ev as [e|sel| |reply]; cbn [apply_ui_event].
  - eapply controls_follow_session_frame; [apply apply_edit_controls|exact I].
  - now apply select_item_follows.
  - unfold exec, click_edit_path. destruct (btn_edit_path s) eqn:Hb; [|exact I].
    apply start_path_editing_follows; [|exact I].
    unfold controls_follow_session in I. destruct (editing_path_id s); [|reflexivity].
    destruct I as (H & _). congruence.
  - unfold exec, click_delete_path. destruct (btn_delete_path s); [|exact I].
    now apply delete_selected_path_follows.
Qed.

Lemma run_action_follows a s :
  controls_follow_session s -> controls_follow_session (exec (run_action a) s).
Proof.
  intros I. destruct a; cbn [run_action].
  - now apply apply_ui_event_follows.
  - unfold exec, click_save_edit. destruct (btn_save_edit s); [|exact I].
    now apply save_path_edits_follows.
  - unfold exec, click_cancel_edit. destruct (btn_cancel_edit s); [|exact I].
    now apply cancel_path_editing_follows.
  - eapply controls_follow_session_frame; [apply on_path_edit_completed_controls|exact I].
  - eapply controls_follow_session_frame; [|exact I].
    pose proof (update_positions_controls dt s) as H. unfold exec, mbind in *.
    destruct (update_positions dt s) as [[u|x] s1]; exact H.
  - eapply controls_follow_session_frame; [apply create_manual_path_controls|exact I].
  - eapply controls_follow_session_frame; [|exact I]. unfold exec, clear_all, modify.
    apply same_controls_set_manager.
Qed.

Lemma run_actions_follow acts :
  forall s, controls_follow_session s -> controls_follow_session (run_actions acts s).
Proof.
  induction acts as [|a acts IH]; intros s I; [exact I|].
  cbn. apply IH. now apply run_action_follows.
Qed.

Lemma initial_state_follows tape : controls_follow_session (initial_state tape).
Proof. unfold controls_follow_session. cbn. repeat split; discriminate. Qed.

(** X26.  From the initial state and through any sequence of requests
    (waypoint edits, selection changes, clicks on edit, delete, save and
    cancel, completed edits, ticks, manual paths, clearing the store), the
    widgets follow the session.  While a session is open a click on edit or
    delete does nothing and a snapshot is held; while none is open a click
    on save or cancel does nothing. *)
Theorem widgets_follow_the_session (tape : nat -> Z) (acts : list ui_action) :
  let s := run_actions acts (initial_state tape) in
  controls_follow_session s
  /\ (forall pid, editing_path_id s = Some pid ->
        click_edit_path s = (Ret tt, s)
        /\ (forall reply, click_delete_path reply s = (Ret tt, s))
        /\ is_Some (original_path_data s))
  /\ (editing_path_id s = None ->
      click_save_edit s = (Ret tt, s) /\ click_cancel_edit s = (Ret tt, s)).
Proof.
  cbv zeta. pose proof (run_actions_follow acts _ (initial_state_follows tape)) as I.
  split; [exact I|]. unfold controls_follow_session in I. split.
  - intros pid Hed. rewrite Hed in I. destruct I as (H1 & H2 & _ & _ & _ & H6).
    unfold click_edit_path, click_delete_path. rewrite H1, H2. auto.
  - intros Hno. rewrite Hno in I. destruct I as (H1 & H2 & _).
    unfold click_save_edit, click_cancel_edit. rewrite H1, H2. auto.
Qed.

(** ** Manual path entry *)

Lemma add_aircraft_path_given points distance sp al now s :
  sp <> 0%R -> al <> 0%R ->
  add_aircraft_path points distance (Some sp) (Some al) now s
  = (Ret ("AC-" +:+ format_04d (next_aircraft_id s), next_loc s),
     set_manager
       (Dict.set (aircraft_paths s) ("AC-" +:+ format_04d (next_aircraft_id s)) (next_loc s))
       (track_paths s) (next_aircraft_id s + 1) (next_track_id s)
       (set_heap
          (<[next_loc s :=
               {| path_id := "AC-" +:+ format_04d (next_aircraft_id s);
                  path_type := "aircraft"; points := points; distance_nm := distance;
                  speed_kts := sp; altitude_ft := al; current_position := 0%R;
                  color := "green"; created := now |}]> (paths_heap s))
          (lists_heap s) (points_heap s) (S (next_loc s)) s)).
Proof.
  intros Hsp Hal. unfold add_aircraft_path, or_randint.
  rewrite (truthy_nonzero sp Hsp), (truthy_nonzero al Hal).
  unfold mbind, gets, modify, ret, alloc_path. reflexivity.
Qed.

Lemma add_track_path_given points distance sp al now s :
  sp <> 0%R -> al <> 0%R ->
  add_track_path points distance (Some sp) (Some al) now s
  = (Ret ("TRK-" +:+ format_04d (next_track_id s), next_loc s),
     set_manager (aircraft_paths s)
       (Dict.set (track_paths s) ("TRK-" +:+ format_04d (next_track_id s)) (next_loc s))
       (next_aircraft_id s) (next_track_id s + 1)
       (set_heap
          (<[next_loc s :=
               {| path_id := "TRK-" +:+ format_04d (next_track_id s);
                  path_type := "track"; points := points; distance_nm := distance;
                  speed_kts := sp; altitude_ft := al; current_position := 0%R;
                  color := "red"; created := now |}]> (paths_heap s))
          (lists_heap s) (points_heap s) (S (next_loc s)) s)).
Proof.
  intros Hsp Hal. unfold add_track_path, or_randint.
  rewrite (truthy_nonzero sp Hsp), (truthy_nonzero al Hal).
  unfold mbind, gets, modify, ret, alloc_path. reflexivity.
Qed.

Lemma create_manual_path_state (input_type : string) (speed altitude : Z)
    (start_lat start_lon end_lat end_lon : R) (now : string) (s : State) :
  speed <> 0%Z -> altitude <> 0%Z ->
  let pts := manual_points start_lat start_lon end_lat end_lon in
  let n := next_loc s in
  exists pth,
    let s1 := set_heap (paths_heap s) (<[n + 10 := seq n 10]> (lists_heap s)) pth
                       (S (n + 10)) s in
    (forall l, l < n -> pth !! l = points_heap s !! l)
    /\ read_points (n + 10) s1 = pts
    /\ create_manual_path input_type speed altitude start_lat start_lon end_lat end_lon now s
       = if String.eqb input_type "Aircraft" then
           let pid := "AC-" +:+ format_04d (next_aircraft_id s) in
           (Ret tt,
            emit (AddPath pid)
              (set_manager (Dict.set (aircraft_paths s) pid (S (n + 10))) (track_paths s)
                 (next_aircraft_id s + 1) (next_track_id s)
                 (set_heap
                    (<[S (n + 10) :=
                         {| path_id := pid; path_type := "aircraft"; points := n + 10;
                            distance_nm := distance_spec pts; speed_kts := IZR speed;
                            altitude_ft := IZR altitude; current_position := 0%R;
                            color := "green"; created := now |}]> (paths_heap s))
                    (lists_heap s1) pth (S (S (n + 10))) s)))
         else
           let pid := "TRK-" +:+ format_04d (next_track_id s) in
           (Ret tt,
            emit (AddPath pid)
              (set_manager (aircraft_paths s) (Dict.set (track_paths s) pid (S (n + 10)))
                 (next_aircraft_id s) (next_track_id s + 1)
                 (set_heap
                    (<[S (n + 10) :=
                         {| path_id := pid; path_type := "track"; points := n + 10;
                            distance_nm := distance_spec pts; speed_kts := IZR speed;
                            altitude_ft := IZR altitude; current_position := 0%R;
                            color := "red"; created := now |}]> (paths_heap s))
                    (lists_heap s1) pth (S (S (n + 10))) s))).
Proof.
  intros Hsp Hal pts n.
  destruct (new_points_spec pts s) as (pth & Hnew & Hold & Hvals). cbv zeta in Hnew.
  change (length pts) with 10 in Hnew, Hvals. fold n in Hnew, Hold, Hvals.
  exists pth. cbv zeta.
  set (s1 := set_heap (paths_heap s) (<[n + 10 := seq n 10]> (lists_heap s)) pth
                      (S (n + 10)) s) in *.
  assert (Hr1 : read_points (n + 10) s1 = pts) by now apply read_points_new.
  split; [exact Hold|]. split; [exact Hr1|].
  assert (Hsp' : IZR speed <> 0%R) by (apply not_0_IZR; exact Hsp).
  assert (Hal' : IZR altitude <> 0%R) by (apply not_0_IZR; exact Hal).
  unfold create_manual_path. unfold mbind at 1. fold pts. rewrite Hnew.
  unfold mbind at 1, gets at 1. rewrite Hr1. unfold mbind at 1, lift at 1.
  change (calculate_path_distance pts) with (_calculate_distance pts).
  rewrite calculate_distance_spec. unfold mbind at 1.
  destruct (String.eqb input_type "Aircraft").
  - change (String.eqb "aircraft" "aircraft") with true. cbv iota.
    rewrite (add_aircraft_path_given _ _ _ _ now s1 Hsp' Hal'). reflexivity.
  - change (String.eqb "track" "aircraft") with false. cbv iota.
    rewrite (add_track_path_given _ _ _ _ now s1 Hsp' Hal'). reflexivity.
Qed.

(** X27.  With a speed and an altitude in the ranges of the input boxes
    ([100..1500] and [1000..50000]), and on a store whose identifiers were
    issued by its counters, [create_manual_path] stores a new path under the
    next identifier of the chosen type.  Its waypoints are the ten points of
    [manual_points], its distance is their distance, its speed and altitude
    are the ones given (no random draw is made), its progress is 0, and one
    add-path signal is sent. *)
Theorem create_manual_path_spec (input_type : string) (speed altitude : Z)
    (start_lat start_lon end_lat end_lon : R) (now : string) (s : State) :
  ids_issued s -> (100 <= speed <= 1500)%Z -> (1000 <= altitude <= 50000)%Z ->
  let pts := manual_points start_lat start_lon end_lat end_lon in
  let aircraft := String.eqb input_type "Aircraft" in
  exists pid l s',
    create_manual_path input_type speed altitude start_lat start_lon end_lat end_lon now s
    = (Ret tt, s')
    /\ pid = (if aircraft then "AC-" +:+ format_04d (next_aircraft_id s)
              else "TRK-" +:+ format_04d (next_track_id s))
    /\ find_path pid s = None
    /\ find_path pid s' = Some l
    /\ (forall id, id <> pid -> find_path id s' = find_path id s)
    /\ read_points (points (get_path l s')) s' = pts
    /\ distance_nm (get_path l s') = distance_spec pts
    /\ speed_kts (get_path l s') = IZR speed
    /\ altitude_ft (get_path l s') = IZR altitude
    /\ current_position (get_path l s') = 0%R
    /\ path_type (get_path l s') = (if aircraft then "aircraft" else "track")
    /\ path_id (get_path l s') = pid
    /\ rand_pos s' = rand_pos s
    /\ events s' = events s ++ [AddPath pid]
    /\ ids_issued s'.
Proof.
  intros I Hsp Hal pts aircraft.
  destruct (create_manual_path_state input_type speed altitude start_lat start_lon
              end_lat end_lon now s) as (pth & Hold & Hr1 & Heq); [lia|lia|].
  cbv zeta in Hr1, Heq. fold pts in Hr1, Heq.
  set (n := next_loc s) in *.
  set (s1 := set_heap (paths_heap s) (<[n + 10 := seq n 10]> (lists_heap s)) pth
                      (S (n + 10)) s) in *.
  rewrite Heq. subst aircraft.
  pose proof (aircraft_key_absent s _ I eq_refl) as Hfa.
  pose proof (track_key_absent s _ I eq_refl) as Hft.
  destruct I as (Ha & Ht & Hac & Htr).
  destruct (String.eqb input_type "Aircraft").
  - eexists _, (S (n + 10)), _. split; [reflexivity|]. split; [reflexivity|].
    split; [exact Hfa|]. clear Hft.
    unfold find_path in *.
    cbn [aircraft_paths track_paths emit set_manager set_heap].
    destruct (Dict.get (aircraft_paths s) _) eqn:E; [discriminate|].
    split; [now rewrite dict_get_set_eq|]. split.
    { intros id Hne. rewrite dict_get_set_ne by congruence. reflexivity. }
    unfold get_path at 1 2 3 4 5 6 7. cbn [paths_heap emit set_manager set_heap].
    rewrite !(lookup_total_insert_eq (M := gmap nat)).
    cbn [points distance_nm speed_kts altitude_ft current_position path_type path_id].
    split; [exact Hr1|]. repeat (split; [reflexivity|]).
    rewrite (dict_get_set_fresh _ _ _ E).
    split; [cbn; lia|]. split; [cbn; lia|]. split.
    + cbn [aircraft_paths next_aircraft_id emit set_manager]. intros id l Hin.
      apply elem_of_app in Hin as [Hin|Hin].
      * destruct (Hac id l Hin) as (k & Hk & ->). exists k. split; [lia|reflexivity].
      * apply list_elem_of_singleton in Hin. injection Hin as -> ->.
        exists (next_aircraft_id s). split; [lia|reflexivity].
    + exact Htr.
  - eexists _, (S (n + 10)), _. split; [reflexivity|]. split; [reflexivity|].
    split; [exact Hft|]. clear Hfa.
    unfold find_path in *.
    cbn [aircraft_paths track_paths emit set_manager set_heap].
    destruct (Dict.get (aircraft_paths s) _) eqn:E0; [discriminate|].
    destruct (Dict.get (track_paths s) _) eqn:E; [discriminate|].
    split; [now rewrite dict_get_set_eq|]. split.
    { intros id Hne. rewrite dict_get_set_ne by congruence. reflexivity. }
    unfold get_path at 1 2 3 4 5 6 7. cbn [paths_heap emit set_manager set_heap].
    rewrite !(lookup_total_insert_eq (M := gmap nat)).
    cbn [points distance_nm speed_kts altitude_ft current_position path_type path_id].
    split; [exact Hr1|]. repeat (split; [reflexivity|]).
    rewrite (dict_get_set_fresh _ _ _ E).
    split; [cbn; lia|]. split; [cbn; lia|]. split.
    + exact Hac.
    + cbn [track_paths next_track_id emit set_manager]. intros id l Hin.
      apply elem_of_app in Hin as [Hin|Hin].
      * destruct (Htr id l Hin) as (k & Hk & ->). exists k. split; [lia|reflexivity].
      * apply list_elem_of_singleton in Hin. injection Hin as -> ->.
        exists (next_track_id s). split; [lia|reflexivity].
Qed.

Lemma create_manual_path_spec_witness :
  exists s',
    create_manual_path "Aircraft" 450 15000 20 78 21 79 "2024-01-01T00:00:00"
      (initial_state tape0) = (Ret tt, s')
    /\ exists l, find_path "AC-0001" s' = Some l
                 /\ speed_kts (get_path l s') = 450%R
                 /\ read_points (points (get_path l s')) s' = manual_points 20 78 21 79.
Proof.
  destruct (create_manual_path_spec "Aircraft" 450 15000 20 78 21 79 "2024-01-01T00:00:00"
              (initial_state tape0) (ids_issued_initial tape0))
    as (pid & l & s' & Heq & Hpid & _ & Hfind & _ & Hr & _ & Hsp & _); [lia|lia|].
  exists s'. split; [exact Heq|]. exists l. rewrite Hpid in Hfind. auto.
Defined.

(** ** What every reachable state satisfies *)

Lemma quiet_refl s : quiet s s.
Proof. constructor; solve [reflexivity|auto]. Qed.

Lemma quiet_trans s1 s2 s3 : quiet s1 s2 -> quiet s2 s3 -> quiet s1 s3.
Proof.
  intros [] []. constructor; try congruence; try lia; try (etrans; eassumption).
  - intros l Hl. rewrite q_speed1 by lia. auto.
  - intros l Hl. rewrite q_position1 by lia. auto.
Qed.

Lemma kinematics_ok_advancing p : kinematics_ok p -> advancing_ok p.
Proof. intros H _. exact H. Qed.

Lemma store_inv_store_ok s : store_inv s -> store_ok s.
Proof.
  intros (_ & H1 & H2 & Hok). split; [exact H1|]. split; [exact H2|].
  intros id l Hin. apply kinematics_ok_advancing. now apply (Hok id l).
Qed.

(** What a step has to keep for the store to stay well formed. *)
Lemma store_inv_step s s' :
  store_inv s ->
  aircraft_paths s' `sublist_of` aircraft_paths s ->
  track_paths s' `sublist_of` track_paths s ->
  next_aircraft_id s' = next_aircraft_id s ->
  next_track_id s' = next_track_id s ->
  next_loc s <= next_loc s' ->
  (forall id l, (id, l) ∈ entries s -> l < next_loc s -> kinematics_ok (get_path l s) ->
     kinematics_ok (get_path l s')) ->
  store_inv s'.
Proof.
  intros ((Ha & Ht & Hia & Hit) & Hnd1 & Hnd2 & Hok) Hac Htr Hna Hnt Hn Hkin.
  assert (Hsub : entries s' `sublist_of` entries s) by (now apply sublist_app).
  split; [|split; [|split]].
  - unfold ids_issued. rewrite Hna, Hnt. repeat split; try assumption.
    + intros id l Hin. apply (Hia id l). eapply elem_of_sublist; eassumption.
    + intros id l Hin. apply (Hit id l). eapply elem_of_sublist; eassumption.
  - eapply sublist_NoDup; [exact Hnd1|]. now apply fmap_sublist.
  - eapply sublist_NoDup; [exact Hnd2|]. now apply fmap_sublist.
  - intros id l Hin. assert (Hin0 : (id, l) ∈ entries s) by (eapply elem_of_sublist; eassumption).
    destruct (Hok id l Hin0) as [Hl Hk]. split; [lia|]. now apply (Hkin id l).
Qed.

Lemma store_inv_quiet s s' : quiet s s' -> store_inv s -> store_inv s'.
Proof.
  intros [Hac Htr Hna Hnt Hn Hsp Hpos] Hs.
  apply (store_inv_step s s' Hs); try assumption.
  intros id l _ Hl [H1 H2]. unfold kinematics_ok. now rewrite Hsp, Hpos.
Qed.

Lemma quiet_set_heap_alloc ph lh pth n s :
  next_loc s <= n ->
  (forall l, l < next_loc s -> ph !! l = paths_heap s !! l) ->
  quiet s (set_heap ph lh pth n s).
Proof.
  intros Hn Hph. constructor; try reflexivity; try exact Hn.
  - intros l Hl. unfold get_path. cbn. now rewrite !lookup_total_alt, Hph.
  - intros l Hl. unfold get_path. cbn. now rewrite !lookup_total_alt, Hph.
Qed.

Lemma apply_edit_quiet e s : quiet s (exec (apply_edit e) s).
Proof.
  destruct e; cbn [apply_edit];
    unfold exec, on_waypoint_moved, on_waypoint_inserted, on_waypoint_deleted, try_except,
      insert_waypoint, remove_waypoint, update_path, put_path, put_list, alloc_point,
      mbind, gets, modify, lift, ret;
    split_cases; cbn [snd]; solve_quiet.
Qed.

Lemma select_item_quiet sel s : quiet s (exec (select_item sel) s).
Proof. constructor; reflexivity || (cbn; lia) || auto. Qed.

(** Copying a waypoint list moves the point heap and the allocator only. *)
Lemma copy_loop_shape refs :
  forall acc s, exists r pth n,
    for_each refs append_copy acc s
    = (Ret r, set_heap (paths_heap s) (lists_heap s) pth n s) /\ next_loc s <= n.
Proof.
  induction refs as [|p refs IH]; intros acc s.
  - exists acc, (points_heap s), (next_loc s). cbn. unfold ret. rewrite set_heap_same. auto.
  - cbn [for_each]. unfold mbind at 1, append_copy at 1, append_new_point at 1.
    unfold mbind at 1, gets at 1. unfold mbind at 1, alloc_point at 1. unfold ret at 1.
    set (s1 := set_heap _ _ _ _ s).
    destruct (IH (acc ++ [next_loc s]) s1) as (r & pth & n & -> & Hn).
    exists r, pth, n. unfold s1 in *. cbn [next_loc paths_heap lists_heap set_heap] in *.
    rewrite set_heap_set_heap. split; [reflexivity|lia].
Qed.

Lemma copy_points_shape l s :
  exists c lh pth n,
    copy_points l s = (Ret c, set_heap (paths_heap s) lh pth n s) /\ next_loc s <= n.
Proof.
  unfold copy_points. unfold mbind at 1, gets at 1. unfold mbind at 1.
  destruct (copy_loop_shape (get_list l s) [] s) as (r & pth & n & -> & Hn).
  unfold alloc_list. cbn [next_loc paths_heap lists_heap points_heap set_heap].
  rewrite set_heap_set_heap. eexists _, _, _, _. split; [reflexivity|lia].
Qed.

Lemma find_path_elem pid s l : find_path pid s = Some l -> (pid, l) ∈ entries s.
Proof.
  unfold find_path, entries. intros H. apply elem_of_app.
  destruct (Dict.get (aircraft_paths s) pid) as [l1|] eqn:E.
  - injection H as ->. left. now apply dict_get_elem.
  - right. now apply dict_get_elem.
Qed.

Lemma dict_pop_sublist d k : Dict.pop d k `sublist_of` d.
Proof.
  induction d as [|[k' v'] d IH]; cbn; [constructor|].
  destruct (String.eqb k k'); [now apply sublist_cons|now apply sublist_skip].
Qed.

Lemma snapshot_inv_same s s' :
  original_path_data s' = original_path_data s -> snapshot_inv s -> snapshot_inv s'.
Proof. unfold snapshot_inv. intros ->. auto. Qed.

Lemma snapshot_inv_none s : original_path_data s = None -> snapshot_inv s.
Proof. unfold snapshot_inv. intros ->. discriminate. Qed.

Lemma start_path_editing_inv s :
  store_inv s -> snapshot_inv s ->
  store_inv (exec start_path_editing s) /\ snapshot_inv (exec start_path_editing s).
Proof.
  intros Hs Hsnap.
  cut (forall s', exec start_path_editing s = s' -> store_inv s' /\ snapshot_inv s'); [eauto|].
  intros s'. unfold exec, start_path_editing. unfold mbind at 1, gets at 1.
  destruct (selected s) as [pid|]; [|intros <-; auto].
  unfold mbind at 1.
  destruct (find_path pid s) as [l|] eqn:Hfind.
  - rewrite (get_path_by_id_found pid s l Hfind).
    unfold mbind at 1, gets at 1. rewrite get_path_insert_eq.
    set (s1 := set_heap _ _ _ _ s).
    unfold mbind at 1.
    destruct (copy_points_shape (points (get_path l s)) s1) as (c & lh & pth & n & -> & Hn).
    unfold mbind, modify. cbn [snd]. intros <-.
    pose proof Hs as (Hids & Hnd1 & Hnd2 & Hok).
    destruct (Hok pid l (find_path_elem pid s l Hfind)) as [Hl Hkin].
    split.
    + apply (store_inv_quiet s); [|exact Hs].
      unfold s1 in *. cbn [next_loc set_heap] in Hn.
      constructor; try reflexivity.
      * cbn. lia.
      * intros l' Hl'. unfold get_path. cbn.
        rewrite (lookup_total_insert_ne (M := gmap nat)) by lia. reflexivity.
      * intros l' Hl'. unfold get_path. cbn.
        rewrite (lookup_total_insert_ne (M := gmap nat)) by lia. reflexivity.
    + intros snap Hsome. cbn in Hsome. injection Hsome as <-. exact Hkin.
  - rewrite (get_path_by_id_missing pid s Hfind). unfold modify. cbn [snd]. intros <-.
    split; [apply (store_inv_quiet s); [constructor; solve [reflexivity|auto]|exact Hs]|exact Hsnap].
Qed.

Lemma delete_selected_path_quiet reply s : quiet s (exec (delete_selected_path reply) s).
Proof.
  unfold exec, delete_selected_path, delete_path, on_path_selection_changed,
    mbind, gets, modify, ret.
  destruct (selected s) as [pid|]; [|apply quiet_refl].
  destruct reply; cbn [negb]; [|apply quiet_refl].
  destruct (Dict.get (aircraft_paths s) pid) as [l|];
    [|destruct (Dict.get (track_paths s) pid) as [l|]]; cbn [snd];
    constructor; cbn; solve [reflexivity|auto using dict_pop_sublist].
Qed.

Lemma apply_ui_event_inv ev s :
  store_inv s -> snapshot_inv s ->
  store_inv (exec (apply_ui_event ev) s) /\ snapshot_inv (exec (apply_ui_event ev) s).
Proof.
  intros Hs Hsnap. destruct ev as [e|sel| |reply]; cbn [apply_ui_event].
  - split; [eapply store_inv_quiet; [apply apply_edit_quiet|exact Hs]|].
    eapply snapshot_inv_same; [|exact Hsnap]. apply (sc_original _ _ (apply_edit_controls e s)).
  - split; [eapply store_inv_quiet; [apply select_item_quiet|exact Hs]|exact Hsnap].
  - unfold exec, click_edit_path. destruct (btn_edit_path s); [|auto].
    now apply start_path_editing_inv.
  - unfold click_delete_path.
    assert (Heq : exec (fun s0 => if btn_delete_path s0 then delete_selected_path reply s0
                                  else (Ret tt, s0)) s
                  = if btn_delete_path s then exec (delete_selected_path reply) s else s)
      by (unfold exec; now destruct (btn_delete_path s)).
    rewrite Heq. destruct (btn_delete_path s); [|auto].
    split; [eapply store_inv_quiet; [apply delete_selected_path_quiet|exact Hs]|].
    eapply snapshot_inv_same; [|exact Hsnap].
    unfold exec, delete_selected_path, delete_path, on_path_selection_changed,
      mbind, gets, modify, ret.
    destruct (selected s) as [pid|]; [|reflexivity].
    destruct reply; cbn [negb]; [|reflexivity].
    destruct (Dict.get (aircraft_paths s) pid) as [l|];
      [|destruct (Dict.get (track_paths s) pid) as [l|]]; reflexivity.
Qed.

(** The five assignments of a restore put the snapshot's speed and
    progress into the stored dict and touch no other path dict. *)
Lemma restore_path_shape l original s :
  exists p lh pth n,
    restore_path l original s = (Ret tt, set_heap (<[l := p]> (paths_heap s)) lh pth n s)
    /\ next_loc s <= n
    /\ speed_kts p = speed_kts original
    /\ current_position p = current_position original.
Proof.
  unfold restore_path. unfold mbind at 1.
  destruct (copy_points_shape (points original) s) as (c & lh & pth & n & -> & Hn).
  unfold mbind, update_path, put_path, modify, gets.
  cbn [snd paths_heap lists_heap points_heap next_loc set_heap].
  rewrite ?get_path_insert_eq.
  cbn [snd paths_heap lists_heap points_heap next_loc set_heap].
  rewrite ?get_path_insert_eq, !insert_insert_eq, ?set_heap_set_heap.
  eexists _, _, _, _. split; [reflexivity|]. split; [exact Hn|]. split; reflexivity.
Qed.

Lemma cancel_path_editing_inv s :
  store_inv s -> snapshot_inv s ->
  store_inv (exec cancel_path_editing s) /\ snapshot_inv (exec cancel_path_editing s).
Proof.
  intros Hs Hsnap.
  cut (forall s', exec cancel_path_editing s = s' -> store_inv s' /\ snapshot_inv s'); [eauto|].
  intros s'. unfold exec, cancel_path_editing.
  unfold mbind at 1, gets at 1. unfold mbind at 1, gets at 1.
  destruct (editing_path_id s) as [pid|]; [|intros <-; auto].
  destruct (original_path_data s) as [original|] eqn:Horig; [|intros <-; auto].
  destruct (String.eqb pid ""); [intros <-; auto|].
  unfold mbind at 1. unfold mbind at 1, gets at 1.
  destruct (find_path pid s) as [l|] eqn:Hfind.
  - destruct (restore_path_shape l original s) as (p & lh & pth & n & -> & Hn & Hsp & Hcp).
    unfold mbind, modify, on_path_selection_changed, modify. cbn [snd]. intros <-.
    split; [|now apply snapshot_inv_none].
    apply (store_inv_step s); try reflexivity; [exact Hs|exact Hn|].
    intros id l' Hin Hl' Hk. unfold get_path. cbn.
    destruct (decide (l' = l)) as [->|Hne].
    + rewrite (lookup_total_insert_eq (M := gmap nat)).
      unfold kinematics_ok. rewrite Hsp, Hcp. now apply Hsnap.
    + rewrite (lookup_total_insert_ne (M := gmap nat)) by congruence. exact Hk.
  - unfold mbind, modify, on_path_selection_changed, modify, ret. cbn [snd]. intros <-.
    split; [|now apply snapshot_inv_none].
    apply (store_inv_quiet s); [constructor; solve [reflexivity|auto]|exact Hs].
Qed.

Lemma save_path_edits_inv s :
  store_inv s -> snapshot_inv s ->
  store_inv (exec save_path_edits s) /\ snapshot_inv (exec save_path_edits s).
Proof.
  intros Hs Hsnap.
  destruct (editing_path_id s) as [pid|] eqn:Hed.
  2: { unfold exec, save_path_edits, mbind, gets. rewrite Hed. auto. }
  destruct (String.eqb pid "") eqn:Hpid.
  { unfold exec, save_path_edits, mbind, gets. rewrite Hed, Hpid. auto. }
  apply String.eqb_neq in Hpid.
  destruct (find_path pid s) as [l|] eqn:Hfind.
  - unfold exec. rewrite (save_path_edits_state s pid l Hed Hpid Hfind). cbn [snd].
    split; [|now apply snapshot_inv_none].
    apply (store_inv_quiet s); [|exact Hs].
    pose proof Hs as (_ & _ & _ & Hok).
    constructor; try reflexivity.
    + cbn. lia.
    + intros l' Hl'. unfold get_path. cbn.
      rewrite (lookup_total_insert_ne (M := gmap nat)) by lia. reflexivity.
    + intros l' Hl'. unfold get_path. cbn.
      rewrite (lookup_total_insert_ne (M := gmap nat)) by lia. reflexivity.
  - assert (Heq : save_path_edits s = cancel_path_editing s).
    { unfold save_path_edits. unfold mbind at 1, gets at 1. rewrite Hed.
      apply String.eqb_neq in Hpid. rewrite Hpid. unfold mbind at 1.
      now rewrite (get_path_by_id_missing pid s Hfind). }
    unfold exec. rewrite Heq. now apply cancel_path_editing_inv.
Qed.

Lemma on_path_edit_completed_inv pid new_points s :
  store_inv s -> snapshot_inv s ->
  store_inv (exec (on_path_edit_completed pid new_points) s)
  /\ snapshot_inv (exec (on_path_edit_completed pid new_points) s).
Proof.
  intros Hs Hsnap.
  destruct (on_path_edit_completed_state pid new_points s) as (pth & _ & _ & ->).
  destruct (find_path pid s) as [l|] eqn:Hfind.
  - split; [|exact Hsnap].
    apply (store_inv_step s); try reflexivity; [exact Hs|cbn; lia|].
    intros id l' Hin Hl' Hk. unfold get_path. cbn.
    destruct (decide (l' = l)) as [->|Hne].
    + rewrite (lookup_total_insert_eq (M := gmap nat)).
      destruct Hk as [Hsp [Hc0 Hc1]]. split; [exact Hsp|]. cbn.
      unfold get_path in *. unfold Rmin. destruct (Rle_dec _ _); lra.
    + rewrite (lookup_total_insert_ne (M := gmap nat)) by congruence. exact Hk.
  - split; [|exact Hsnap].
    apply (store_inv_quiet s); [|exact Hs].
    apply quiet_set_heap_alloc; [cbn; lia|reflexivity].
Qed.

Lemma update_positions_inv dt s :
  (0 <= dt)%R -> store_inv s -> snapshot_inv s ->
  store_inv (exec (update_positions dt) s) /\ snapshot_inv (exec (update_positions dt) s).
Proof.
  intros Hdt Hs Hsnap.
  destruct (update_positions_step s dt (store_inv_store_ok s Hs) Hdt)
    as (ups & ph & Heq & Hfr & Hadv & _).
  unfold exec. rewrite Heq. cbn [snd]. split; [|exact Hsnap].
  apply (store_inv_step s); try reflexivity; [exact Hs|].
  intros id l Hin Hl Hk. unfold get_path at 1. cbn [paths_heap set_heap].
  pose proof (Hadv (id, l) Hin) as Hl'. cbn [snd] in Hl'. rewrite Hl'.
  unfold advanced. destruct (Rlt_dec 0 (distance_nm (get_path l s))) as [Hd|Hd]; [|exact Hk].
  pose proof (advanced_ok dt (get_path l s) Hdt (kinematics_ok_advancing _ Hk)) as Hadvok.
  unfold advanced in Hadvok. destruct (Rlt_dec 0 (distance_nm (get_path l s))); [|contradiction].
  apply Hadvok. exact Hd.
Qed.

Lemma find_path_None pid s : find_path pid s = None -> pid ∉ (entries s).*1.
Proof.
  unfold find_path, entries. intros H. rewrite fmap_app. apply not_elem_of_app.
  destruct (Dict.get (aircraft_paths s) pid) eqn:E; [discriminate|].
  split; now apply dict_get_None.
Qed.

(** A new entry under an unused id, in a newly allocated path dict. *)
Lemma store_inv_add s s' pid l :
  store_inv s -> ids_issued s' ->
  find_path pid s = None -> next_loc s <= l < next_loc s' ->
  entries s' ≡ₚ (pid, l) :: entries s ->
  kinematics_ok (get_path l s') ->
  (forall l', l' < next_loc s -> get_path l' s' = get_path l' s) ->
  store_inv s'.
Proof.
  intros (_ & Hnd1 & Hnd2 & Hok) Hids Hfresh Hl Hperm Hk Hold.
  split; [exact Hids|]. rewrite Hperm. cbn [fmap list_fmap fst snd].
  split; [|split].
  - apply NoDup_cons. split; [now apply find_path_None|exact Hnd1].
  - apply NoDup_cons. split; [|exact Hnd2].
    intros Hin. apply list_elem_of_fmap in Hin as ([id l0] & Heq & Hin). cbn in Heq. subst l0.
    destruct (Hok id l Hin) as [Hlt _]. lia.
  - intros id l0 Hin. rewrite Hperm in Hin. apply elem_of_cons in Hin as [Heq|Hin].
    + injection Heq as -> ->. split; [lia|exact Hk].
    + destruct (Hok id l0 Hin) as [Hlt Hk0]. split; [lia|]. now rewrite Hold.
Qed.

Lemma ids_issued_ext s s' :
  aircraft_paths s' = aircraft_paths s -> track_paths s' = track_paths s ->
  next_aircraft_id s' = next_aircraft_id s -> next_track_id s' = next_track_id s ->
  ids_issued s -> ids_issued s'.
Proof. unfold ids_issued. intros -> -> -> ->. auto. Qed.

Lemma create_manual_path_inv ty speed altitude lat1 lon1 lat2 lon2 now s :
  (100 <= speed <= 1500)%Z -> (1000 <= altitude <= 50000)%Z ->
  store_inv s -> snapshot_inv s ->
  store_inv (exec (create_manual_path ty speed altitude lat1 lon1 lat2 lon2 now) s)
  /\ snapshot_inv (exec (create_manual_path ty speed altitude lat1 lon1 lat2 lon2 now) s).
Proof.
  intros Hsp Hal Hs Hsnap.
  assert (Hsp0 : speed <> 0%Z) by lia. assert (Hal0 : altitude <> 0%Z) by lia.
  destruct (create_manual_path_state ty speed altitude lat1 lon1 lat2 lon2 now s Hsp0 Hal0)
    as (pth & _ & _ & Heq). cbv zeta in Heq.
  unfold exec. rewrite Heq. clear Heq.
  pose proof Hs as (Hids & _).
  assert (Hspeed : (0 <= IZR speed)%R) by (apply IZR_le; lia).
  set (s1 := set_heap (paths_heap s) (<[next_loc s + 10 := seq (next_loc s) 10]> (lists_heap s))
                      pth (S (next_loc s + 10)) s).
  assert (Hids1 : ids_issued s1) by (apply (ids_issued_ext s); auto).
  assert (Hsp' : IZR speed <> 0%R) by (apply not_0_IZR; exact Hsp0).
  assert (Hal' : IZR altitude <> 0%R) by (apply not_0_IZR; exact Hal0).
  destruct (String.eqb ty "Aircraft"); cbn [snd]; (split; [|exact Hsnap]).
  - pose proof (aircraft_key_absent s _ Hids eq_refl) as Hfresh.
    pose proof (ids_issued_add_aircraft (next_loc s + 10) (distance_spec (manual_points lat1 lon1 lat2 lon2))
                  (Some (IZR speed)) (Some (IZR altitude)) now s1 Hids1) as Hnew.
    unfold exec in Hnew. rewrite (add_aircraft_path_given _ _ _ _ now s1 Hsp' Hal') in Hnew.
    cbn [snd] in Hnew.
    eapply (store_inv_add s _ _ (S (next_loc s + 10)) Hs); [| exact Hfresh | cbn; lia | | |].
    + eapply ids_issued_ext; [..|exact Hnew]; reflexivity.
    + unfold entries. cbn [aircraft_paths track_paths emit set_manager set_heap].
      unfold find_path in Hfresh.
      destruct (Dict.get (aircraft_paths s) _) eqn:E; [discriminate|].
      rewrite (dict_get_set_fresh _ _ _ E). rewrite <- app_assoc.
      rewrite (Permutation_app_comm [_] (track_paths s)), app_assoc.
      symmetry. apply Permutation_cons_append.
    + unfold get_path. cbn. rewrite (lookup_total_insert_eq (M := gmap nat)).
      split; cbn; [exact Hspeed|lra].
    + intros l' Hl'. unfold get_path. cbn.
      apply (lookup_total_insert_ne (M := gmap nat)). lia.
  - pose proof (track_key_absent s _ Hids eq_refl) as Hfresh.
    pose proof (ids_issued_add_track (next_loc s + 10) (distance_spec (manual_points lat1 lon1 lat2 lon2))
                  (Some (IZR speed)) (Some (IZR altitude)) now s1 Hids1) as Hnew.
    unfold exec in Hnew. rewrite (add_track_path_given _ _ _ _ now s1 Hsp' Hal') in Hnew.
    cbn [snd] in Hnew.
    eapply (store_inv_add s _ _ (S (next_loc s + 10)) Hs); [| exact Hfresh | cbn; lia | | |].
    + eapply ids_issued_ext; [..|exact Hnew]; reflexivity.
    + unfold entries. cbn [aircraft_paths track_paths emit set_manager set_heap].
      unfold find_path in Hfresh.
      destruct (Dict.get (aircraft_paths s) _) eqn:E0; [discriminate|].
      destruct (Dict.get (track_paths s) _) eqn:E; [discriminate|].
      rewrite (dict_get_set_fresh _ _ _ E). rewrite app_assoc.
      symmetry. apply Permutation_cons_append.
    + unfold get_path. cbn. rewrite (lookup_total_insert_eq (M := gmap nat)).
      split; cbn; [exact Hspeed|lra].
    + intros l' Hl'. unfold get_path. cbn.
      apply (lookup_total_insert_ne (M := gmap nat)). lia.
Qed.

Lemma clear_all_inv s :
  snapshot_inv s -> store_inv (exec clear_all s) /\ snapshot_inv (exec clear_all s).
Proof.
  intros Hsnap. split; [|exact Hsnap].
  split; [apply ids_issued_clear|]. split; [constructor|]. split; [constructor|].
  intros id l Hin. inversion Hin.
Qed.

Lemma initial_state_inv tape : store_inv (initial_state tape) /\ snapshot_inv (initial_state tape).
Proof.
  split; [|now apply snapshot_inv_none].
  split; [apply ids_issued_initial|]. split; [constructor|]. split; [constructor|].
  intros id l Hin. inversion Hin.
Qed.

Lemma run_action_inv a s :
  valid_action a -> store_inv s -> snapshot_inv s ->
  store_inv (exec (run_action a) s) /\ snapshot_inv (exec (run_action a) s).
Proof.
  intros Hv Hs Hsnap. destruct a; cbn [run_action valid_action] in *.
  - now apply apply_ui_event_inv.
  - unfold exec, click_save_edit. destruct (btn_save_edit s); [|auto].
    now apply save_path_edits_inv.
  - unfold exec, click_cancel_edit. destruct (btn_cancel_edit s); [|auto].
    now apply cancel_path_editing_inv.
  - now apply on_path_edit_completed_inv.
  - assert (Heq : exec (let* _ := update_positions dt in ret tt) s = exec (update_positions dt) s).
    { unfold exec, mbind, ret. now destruct (update_positions dt s) as [[u|x] s1]. }
    rewrite Heq. destruct Hv as [Hdt _]. now apply update_positions_inv.
  - destruct Hv as (Hsp & Hal & _). now apply create_manual_path_inv.
  - now apply clear_all_inv.
Qed.

Lemma run_actions_inv acts :
  forall s, Forall valid_action acts -> store_inv s -> snapshot_inv s ->
    store_inv (run_actions acts s) /\ snapshot_inv (run_actions acts s).
Proof.
  induction acts as [|a acts IH]; intros s Hv Hs Hsnap; [auto|].
  apply Forall_cons in Hv as [Ha Hv].
  destruct (run_action_inv a s Ha Hs Hsnap) as [Hs1 Hsnap1].
  exact (IH _ Hv Hs1 Hsnap1).
Qed.

(** X29.  Start from the state of the two constructors and let the
    operator, the map and the timer do anything of the following, in any
    order: select, click edit, delete, save or cancel, move, insert or
    delete a waypoint, complete an edit, create a manual path with a
    speed, an altitude and coordinates from the ranges of their input
    boxes, clear the store, and tick with an elapsed time between 0 and one
    day.  Then the stored identifiers are distinct and were issued by the
    counters, no two entries share a path dict, every stored path and the
    snapshot of an open session have a non-negative speed and a progress in
    [[0, 1)], and the next [update_positions] returns normally for every
    elapsed time between 0 and one day. *)
Theorem reachable_states_are_well_formed (tape : nat -> Z) (acts : list ui_action) :
  Forall valid_action acts ->
  let s := run_actions acts (initial_state tape) in
  ids_issued s
  /\ NoDup (entries s).*1 /\ NoDup (entries s).*2
  /\ (forall id l, (id, l) ∈ entries s ->
        (0 <= speed_kts (get_path l s))%R /\ (0 <= current_position (get_path l s) < 1)%R)
  /\ (forall snap, original_path_data s = Some snap ->
        (0 <= speed_kts snap)%R /\ (0 <= current_position snap < 1)%R)
  /\ (forall dt, (0 <= dt <= max_elapsed)%R ->
        exists updates s', update_positions dt s = (Ret updates, s')).
Proof.
  intros Hv s.
  destruct (run_actions_inv acts (initial_state tape) Hv) as [Hs Hsnap];
    try apply initial_state_inv.
  fold s in Hs, Hsnap. pose proof Hs as (Hids & Hnd1 & Hnd2 & Hok).
  split; [exact Hids|]. split; [exact Hnd1|]. split; [exact Hnd2|].
  split; [intros id l Hin; now apply (Hok id l)|].
  split; [exact Hsnap|].
  intros dt [Hdt _].
  destruct (update_positions_step s dt (store_inv_store_ok s Hs) Hdt) as (ups & ph & Heq & _).
  eauto.
Qed.

Lemma reachable_states_are_well_formed_witness :
  Forall valid_action sample_actions
  /\ ids_issued (run_actions sample_actions (initial_state tape0)).
Proof.
  assert (Hv : Forall valid_action sample_actions).
  { unfold sample_actions. repeat (apply Forall_cons; split); try apply Forall_nil;
      cbn [valid_action]; unfold coordinates_ok, max_elapsed; cbn [fst snd];
      try exact I; repeat split; lia || lra. }
  split; [exact Hv|].
  apply (reachable_states_are_well_formed tape0 sample_actions Hv).
Defined.
